(** * Panasonic Blu-ray remote: protocol client and poll coordinator

    A shallow embedding of [custom_components/panasonic_bluray/api.py]
    (class [PanasonicBlurayAPI]) and of
    [custom_components/panasonic_bluray/coordinator.py]
    (method [PanasonicCoordinator._update]), with the properties of the
    command table, the transport decoder, the two status decoders and the
    published state mapping.

    A text is modelled by the Rocq string of its UTF-8 bytes.  The models
    of the Python built-ins below ([str.upper], [str.strip], [int]) read
    the code points of a text and follow CPython 3.11 with its Unicode 14.0
    character data: the blanks, the decimal digits and the upper case of
    every script. *)

From Stdlib Require Import ZArith Lia Ascii String.
From stdpp Require Import base option list strings gmap.
From Stdlib Require Import DecimalString DecimalZ.

Local Open Scope string_scope.
Local Open Scope Z_scope.

(** ** The Python string built-ins the client uses *)

Module Py.

(** *** Exceptions

    The two exceptions the client code can meet outside the transport: a
    list index out of range and a text that is no integer. *)
Inductive exception := IndexError | ValueError.

(** What evaluating an expression gives: a value, or a raised exception. *)
Inductive outcome (A : Type) :=
  | Returned (a : A)
  | Raises (e : exception).
Arguments Returned {A} a.
Arguments Raises {A} e.

#[global] Instance outcome_ret : MRet outcome := fun A a => Returned a.
#[global] Instance outcome_bind : MBind outcome := fun A B f m =>
  match m with
  | Returned a => f a
  | Raises e => Raises e
  end.

(** [try: body  except ValueError: pass], for a body that assigns one
    variable: [kept] is the value the variable had before. *)
Definition except_ValueError {A : Type} (body : outcome A) (kept : A) : outcome A :=
  match body with
  | Raises ValueError => Returned kept
  | other => other
  end.

(** [l[i]] for an index that is not negative. *)
Definition getitem {A : Type} (l : list A) (i : nat) : outcome A :=
  match l !! i with
  | Some x => Returned x
  | None => Raises IndexError
  end.

(** [cons_head c pieces] puts [c] in front of the piece being read. *)
Definition cons_head (c : ascii) (pieces : list string) : list string :=
  match pieces with
  | cur :: rest => String c cur :: rest
  | [] => [String c EmptyString]
  end.

Definition may_split (maxsplit : option nat) : bool :=
  match maxsplit with
  | Some O => false
  | _ => true
  end.

Definition one_less (maxsplit : option nat) : option nat :=
  match maxsplit with
  | Some n => Some (Nat.pred n)
  | None => None
  end.

(** [s.split(sep, maxsplit)] for a separator that is not empty: the pieces
    between the occurrences of [sep], read from the left, occurrences not
    overlapping.  [skip] counts the characters of an occurrence still to be
    passed over; [maxsplit = None] is Python's default (-1, no limit). *)
Fixpoint split_go (sep : string) (maxsplit : option nat) (skip : nat)
    (s : string) : list string :=
  match s with
  | EmptyString => [EmptyString]
  | String c s' =>
      match skip with
      | S k => split_go sep maxsplit k s'
      | O =>
          if may_split maxsplit && String.prefix sep s
          then EmptyString
               :: split_go sep (one_less maxsplit) (Nat.pred (String.length sep)) s'
          else cons_head c (split_go sep maxsplit 0 s')
      end
  end.

(** [s.split(sep)] *)
Definition split (sep s : string) : list string := split_go sep None 0 s.

(** [s.split(sep, maxsplit)] *)
Definition split_max (sep : string) (maxsplit : nat) (s : string) : list string :=
  split_go sep (Some maxsplit) 0 s.

(** [sep.join(pieces)] *)
Fixpoint join (sep : string) (pieces : list string) : string :=
  match pieces with
  | [] => EmptyString
  | [p] => p
  | p :: rest => p ++ sep ++ join sep rest
  end.

(** [s[n:]] *)
Fixpoint drop (n : nat) (s : string) : string :=
  match n, s with
  | S k, String _ s' => drop k s'
  | _, _ => s
  end.

(** [sub in s] *)
Fixpoint contains (sub s : string) : bool :=
  match s with
  | EmptyString => String.prefix sub EmptyString
  | String _ s' => String.prefix sub s || contains sub s'
  end.

(** [s.startswith(p)] *)
Definition startswith (p s : string) : bool := String.prefix p s.

(** *** Text

    A Python [str] is a sequence of Unicode code points.  A text is kept
    here as the Rocq string of its UTF-8 bytes, and [decode] reads its code
    points.  Splitting at an ASCII separator, looking for an ASCII piece
    and comparing two texts give the same on the bytes as on the code
    points, since in UTF-8 no byte below 128 lies inside a longer
    sequence.  The built-ins that look at what a character is
    ([str.upper], [str.strip], [int]) go through the code points and the
    Unicode character data of CPython 3.11 (Unicode 14.0).  The texts are
    those that have UTF-8 bytes: a lone surrogate has none, and is no code
    point here. *)

Definition byte (n : N) : string := String (Ascii.ascii_of_N n) EmptyString.

(** The value a byte adds as the second, third or fourth of a sequence. *)
Definition continuation (b : ascii) : option N :=
  let n := Ascii.N_of_ascii b in
  if (0x80 <=? n)%N && (n <? 0xC0)%N then Some (n - 0x80)%N else None.

(** A byte that begins no sequence stands for itself, above the code
    points. *)
Definition stray (n : N) : N := (0x110000 + n)%N.

Definition two_bytes (n0 c1 : N) : option N :=
  if (0xC2 <=? n0)%N && (n0 <? 0xE0)%N
  then Some ((n0 - 0xC0) * 0x40 + c1)%N else None.

Definition three_bytes (n0 c1 c2 : N) : option N :=
  let p := (((n0 - 0xE0) * 0x40 + c1) * 0x40 + c2)%N in
  if (0xE0 <=? n0)%N && (n0 <? 0xF0)%N && (0x800 <=? p)%N
     && negb ((0xD800 <=? p)%N && (p <=? 0xDFFF)%N)
  then Some p else None.

Definition four_bytes (n0 c1 c2 c3 : N) : option N :=
  let p := ((((n0 - 0xF0) * 0x40 + c1) * 0x40 + c2) * 0x40 + c3)%N in
  if (0xF0 <=? n0)%N && (n0 <? 0xF8)%N && (0x10000 <=? p)%N && (p <? 0x110000)%N
  then Some p else None.

(** The sequence at the head of a text: its code point and how many bytes
    follow the first. *)
Definition head_point (b0 : ascii) (s : string) : N * nat :=
  let n0 := Ascii.N_of_ascii b0 in
  if (n0 <? 0x80)%N then (n0, 0%nat)
  else
    match s with
    | String b1 s1 =>
        match continuation b1 with
        | Some c1 =>
            match two_bytes n0 c1 with
            | Some p => (p, 1%nat)
            | None =>
                match s1 with
                | String b2 s2 =>
                    match continuation b2 with
                    | Some c2 =>
                        match three_bytes n0 c1 c2 with
                        | Some p => (p, 2%nat)
                        | None =>
                            match s2 with
                            | String b3 _ =>
                                match continuation b3 with
                                | Some c3 =>
                                    match four_bytes n0 c1 c2 c3 with
                                    | Some p => (p, 3%nat)
                                    | None => (stray n0, 0%nat)
                                    end
                                | None => (stray n0, 0%nat)
                                end
                            | EmptyString => (stray n0, 0%nat)
                            end
                        end
                    | None => (stray n0, 0%nat)
                    end
                | EmptyString => (stray n0, 0%nat)
                end
            end
        | None => (stray n0, 0%nat)
        end
    | EmptyString => (stray n0, 0%nat)
    end.

(** The code points of a text.  [skip] counts the bytes of the sequence
    last read that are still to be passed over. *)
Fixpoint decode_go (skip : nat) (s : string) : list N :=
  match s with
  | EmptyString => []
  | String b s' =>
      match skip with
      | S k => decode_go k s'
      | O => let '(p, more) := head_point b s' in p :: decode_go more s'
      end
  end.

Definition decode (s : string) : list N := decode_go 0 s.

(** The UTF-8 bytes of one code point. *)
Definition encode_point (p : N) : string :=
  if (p <? 0x80)%N then byte p
  else if (p <? 0x800)%N
  then byte (0xC0 + p / 0x40) ++ byte (0x80 + p mod 0x40)
  else if (p <? 0x10000)%N
  then byte (0xE0 + p / 0x1000) ++ byte (0x80 + (p / 0x40) mod 0x40)
       ++ byte (0x80 + p mod 0x40)
  else if (p <? 0x110000)%N
  then byte (0xF0 + p / 0x40000) ++ byte (0x80 + (p / 0x1000) mod 0x40)
       ++ byte (0x80 + (p / 0x40) mod 0x40) ++ byte (0x80 + p mod 0x40)
  else byte (p - 0x110000).

Fixpoint encode (points : list N) : string :=
  match points with
  | [] => EmptyString
  | p :: rest => encode_point p ++ encode rest
  end.

(** *** [s.upper()]

    CPython maps each code point on its own ([_PyUnicode_ToUpperFull]); the
    result of one code point can be two or three. *)

(** The code points above 127 with a single upper-case code point, as
    runs [(first, last, step, upper of first)]: in a run every [step]-th
    code point from [first] to [last] maps to the code point at the same
    distance from the upper case of [first]. *)
Definition upper_runs : list (N * N * N * N) :=
  [(0xB5, 0xB5, 1, 0x39C); (0xE0, 0xF6, 1, 0xC0); (0xF8, 0xFE, 1, 0xD8);
   (0xFF, 0xFF, 1, 0x178); (0x101, 0x12F, 2, 0x100); (0x131, 0x131, 1, 0x49);
   (0x133, 0x137, 2, 0x132); (0x13A, 0x148, 2, 0x139);
   (0x14B, 0x177, 2, 0x14A); (0x17A, 0x17E, 2, 0x179);
   (0x17F, 0x17F, 1, 0x53); (0x180, 0x180, 1, 0x243);
   (0x183, 0x185, 2, 0x182); (0x188, 0x188, 1, 0x187);
   (0x18C, 0x18C, 1, 0x18B); (0x192, 0x192, 1, 0x191);
   (0x195, 0x195, 1, 0x1F6); (0x199, 0x199, 1, 0x198);
   (0x19A, 0x19A, 1, 0x23D); (0x19E, 0x19E, 1, 0x220);
   (0x1A1, 0x1A5, 2, 0x1A0); (0x1A8, 0x1A8, 1, 0x1A7);
   (0x1AD, 0x1AD, 1, 0x1AC); (0x1B0, 0x1B0, 1, 0x1AF);
   (0x1B4, 0x1B6, 2, 0x1B3); (0x1B9, 0x1B9, 1, 0x1B8);
   (0x1BD, 0x1BD, 1, 0x1BC); (0x1BF, 0x1BF, 1, 0x1F7);
   (0x1C5, 0x1C5, 1, 0x1C4); (0x1C6, 0x1C6, 1, 0x1C4);
   (0x1C8, 0x1C8, 1, 0x1C7); (0x1C9, 0x1C9, 1, 0x1C7);
   (0x1CB, 0x1CB, 1, 0x1CA); (0x1CC, 0x1CC, 1, 0x1CA);
   (0x1CE, 0x1DC, 2, 0x1CD); (0x1DD, 0x1DD, 1, 0x18E);
   (0x1DF, 0x1EF, 2, 0x1DE); (0x1F2, 0x1F2, 1, 0x1F1);
   (0x1F3, 0x1F3, 1, 0x1F1); (0x1F5, 0x1F5, 1, 0x1F4);
   (0x1F9, 0x21F, 2, 0x1F8); (0x223, 0x233, 2, 0x222);
   (0x23C, 0x23C, 1, 0x23B); (0x23F, 0x240, 1, 0x2C7E);
   (0x242, 0x242, 1, 0x241); (0x247, 0x24F, 2, 0x246);
   (0x250, 0x250, 1, 0x2C6F); (0x251, 0x251, 1, 0x2C6D);
   (0x252, 0x252, 1, 0x2C70); (0x253, 0x253, 1, 0x181);
   (0x254, 0x254, 1, 0x186); (0x256, 0x257, 1, 0x189);
   (0x259, 0x259, 1, 0x18F); (0x25B, 0x25B, 1, 0x190);
   (0x25C, 0x25C, 1, 0xA7AB); (0x260, 0x260, 1, 0x193);
   (0x261, 0x261, 1, 0xA7AC); (0x263, 0x263, 1, 0x194);
   (0x265, 0x265, 1, 0xA78D); (0x266, 0x266, 1, 0xA7AA);
   (0x268, 0x268, 1, 0x197); (0x269, 0x269, 1, 0x196);
   (0x26A, 0x26A, 1, 0xA7AE); (0x26B, 0x26B, 1, 0x2C62);
   (0x26C, 0x26C, 1, 0xA7AD); (0x26F, 0x26F, 1, 0x19C);
   (0x271, 0x271, 1, 0x2C6E); (0x272, 0x272, 1, 0x19D);
   (0x275, 0x275, 1, 0x19F); (0x27D, 0x27D, 1, 0x2C64);
   (0x280, 0x280, 1, 0x1A6); (0x282, 0x282, 1, 0xA7C5);
   (0x283, 0x283, 1, 0x1A9); (0x287, 0x287, 1, 0xA7B1);
   (0x288, 0x288, 1, 0x1AE); (0x289, 0x289, 1, 0x244);
   (0x28A, 0x28B, 1, 0x1B1); (0x28C, 0x28C, 1, 0x245);
   (0x292, 0x292, 1, 0x1B7); (0x29D, 0x29D, 1, 0xA7B2);
   (0x29E, 0x29E, 1, 0xA7B0); (0x345, 0x345, 1, 0x399);
   (0x371, 0x373, 2, 0x370); (0x377, 0x377, 1, 0x376);
   (0x37B, 0x37D, 1, 0x3FD); (0x3AC, 0x3AC, 1, 0x386);
   (0x3AD, 0x3AF, 1, 0x388); (0x3B1, 0x3C1, 1, 0x391);
   (0x3C2, 0x3C2, 1, 0x3A3); (0x3C3, 0x3CB, 1, 0x3A3);
   (0x3CC, 0x3CC, 1, 0x38C); (0x3CD, 0x3CE, 1, 0x38E);
   (0x3D0, 0x3D0, 1, 0x392); (0x3D1, 0x3D1, 1, 0x398);
   (0x3D5, 0x3D5, 1, 0x3A6); (0x3D6, 0x3D6, 1, 0x3A0);
   (0x3D7, 0x3D7, 1, 0x3CF); (0x3D9, 0x3EF, 2, 0x3D8);
   (0x3F0, 0x3F0, 1, 0x39A); (0x3F1, 0x3F1, 1, 0x3A1);
   (0x3F2, 0x3F2, 1, 0x3F9); (0x3F3, 0x3F3, 1, 0x37F);
   (0x3F5, 0x3F5, 1, 0x395); (0x3F8, 0x3F8, 1, 0x3F7);
   (0x3FB, 0x3FB, 1, 0x3FA); (0x430, 0x44F, 1, 0x410);
   (0x450, 0x45F, 1, 0x400); (0x461, 0x481, 2, 0x460);
   (0x48B, 0x4BF, 2, 0x48A); (0x4C2, 0x4CE, 2, 0x4C1);
   (0x4CF, 0x4CF, 1, 0x4C0); (0x4D1, 0x52F, 2, 0x4D0);
   (0x561, 0x586, 1, 0x531); (0x10D0, 0x10FA, 1, 0x1C90);
   (0x10FD, 0x10FF, 1, 0x1CBD); (0x13F8, 0x13FD, 1, 0x13F0);
   (0x1C80, 0x1C80, 1, 0x412); (0x1C81, 0x1C81, 1, 0x414);
   (0x1C82, 0x1C82, 1, 0x41E); (0x1C83, 0x1C84, 1, 0x421);
   (0x1C85, 0x1C85, 1, 0x422); (0x1C86, 0x1C86, 1, 0x42A);
   (0x1C87, 0x1C87, 1, 0x462); (0x1C88, 0x1C88, 1, 0xA64A);
   (0x1D79, 0x1D79, 1, 0xA77D); (0x1D7D, 0x1D7D, 1, 0x2C63);
   (0x1D8E, 0x1D8E, 1, 0xA7C6); (0x1E01, 0x1E95, 2, 0x1E00);
   (0x1E9B, 0x1E9B, 1, 0x1E60); (0x1EA1, 0x1EFF, 2, 0x1EA0);
   (0x1F00, 0x1F07, 1, 0x1F08); (0x1F10, 0x1F15, 1, 0x1F18);
   (0x1F20, 0x1F27, 1, 0x1F28); (0x1F30, 0x1F37, 1, 0x1F38);
   (0x1F40, 0x1F45, 1, 0x1F48); (0x1F51, 0x1F57, 2, 0x1F59);
   (0x1F60, 0x1F67, 1, 0x1F68); (0x1F70, 0x1F71, 1, 0x1FBA);
   (0x1F72, 0x1F75, 1, 0x1FC8); (0x1F76, 0x1F77, 1, 0x1FDA);
   (0x1F78, 0x1F79, 1, 0x1FF8); (0x1F7A, 0x1F7B, 1, 0x1FEA);
   (0x1F7C, 0x1F7D, 1, 0x1FFA); (0x1FB0, 0x1FB1, 1, 0x1FB8);
   (0x1FBE, 0x1FBE, 1, 0x399); (0x1FD0, 0x1FD1, 1, 0x1FD8);
   (0x1FE0, 0x1FE1, 1, 0x1FE8); (0x1FE5, 0x1FE5, 1, 0x1FEC);
   (0x214E, 0x214E, 1, 0x2132); (0x2170, 0x217F, 1, 0x2160);
   (0x2184, 0x2184, 1, 0x2183); (0x24D0, 0x24E9, 1, 0x24B6);
   (0x2C30, 0x2C5F, 1, 0x2C00); (0x2C61, 0x2C61, 1, 0x2C60);
   (0x2C65, 0x2C65, 1, 0x23A); (0x2C66, 0x2C66, 1, 0x23E);
   (0x2C68, 0x2C6C, 2, 0x2C67); (0x2C73, 0x2C73, 1, 0x2C72);
   (0x2C76, 0x2C76, 1, 0x2C75); (0x2C81, 0x2CE3, 2, 0x2C80);
   (0x2CEC, 0x2CEE, 2, 0x2CEB); (0x2CF3, 0x2CF3, 1, 0x2CF2);
   (0x2D00, 0x2D25, 1, 0x10A0); (0x2D27, 0x2D27, 1, 0x10C7);
   (0x2D2D, 0x2D2D, 1, 0x10CD); (0xA641, 0xA66D, 2, 0xA640);
   (0xA681, 0xA69B, 2, 0xA680); (0xA723, 0xA72F, 2, 0xA722);
   (0xA733, 0xA76F, 2, 0xA732); (0xA77A, 0xA77C, 2, 0xA779);
   (0xA77F, 0xA787, 2, 0xA77E); (0xA78C, 0xA78C, 1, 0xA78B);
   (0xA791, 0xA793, 2, 0xA790); (0xA794, 0xA794, 1, 0xA7C4);
   (0xA797, 0xA7A9, 2, 0xA796); (0xA7B5, 0xA7C3, 2, 0xA7B4);
   (0xA7C8, 0xA7CA, 2, 0xA7C7); (0xA7D1, 0xA7D1, 1, 0xA7D0);
   (0xA7D7, 0xA7D9, 2, 0xA7D6); (0xA7F6, 0xA7F6, 1, 0xA7F5);
   (0xAB53, 0xAB53, 1, 0xA7B3); (0xAB70, 0xABBF, 1, 0x13A0);
   (0xFF41, 0xFF5A, 1, 0xFF21); (0x10428, 0x1044F, 1, 0x10400);
   (0x104D8, 0x104FB, 1, 0x104B0); (0x10597, 0x105A1, 1, 0x10570);
   (0x105A3, 0x105B1, 1, 0x1057C); (0x105B3, 0x105B9, 1, 0x1058C);
   (0x105BB, 0x105BC, 1, 0x10594); (0x10CC0, 0x10CF2, 1, 0x10C80);
   (0x118C0, 0x118DF, 1, 0x118A0); (0x16E60, 0x16E7F, 1, 0x16E40);
   (0x1E922, 0x1E943, 1, 0x1E900)]%N.

(** The code points whose upper case is more than one code point. *)
Definition upper_special : list (N * list N) :=
  [(0xDF, [0x53; 0x53]); (0x149, [0x2BC; 0x4E]); (0x1F0, [0x4A; 0x30C]);
   (0x390, [0x399; 0x308; 0x301]); (0x3B0, [0x3A5; 0x308; 0x301]);
   (0x587, [0x535; 0x552]); (0x1E96, [0x48; 0x331]); (0x1E97, [0x54; 0x308]);
   (0x1E98, [0x57; 0x30A]); (0x1E99, [0x59; 0x30A]); (0x1E9A, [0x41; 0x2BE]);
   (0x1F50, [0x3A5; 0x313]); (0x1F52, [0x3A5; 0x313; 0x300]);
   (0x1F54, [0x3A5; 0x313; 0x301]); (0x1F56, [0x3A5; 0x313; 0x342]);
   (0x1F80, [0x1F08; 0x399]); (0x1F81, [0x1F09; 0x399]);
   (0x1F82, [0x1F0A; 0x399]); (0x1F83, [0x1F0B; 0x399]);
   (0x1F84, [0x1F0C; 0x399]); (0x1F85, [0x1F0D; 0x399]);
   (0x1F86, [0x1F0E; 0x399]); (0x1F87, [0x1F0F; 0x399]);
   (0x1F88, [0x1F08; 0x399]); (0x1F89, [0x1F09; 0x399]);
   (0x1F8A, [0x1F0A; 0x399]); (0x1F8B, [0x1F0B; 0x399]);
   (0x1F8C, [0x1F0C; 0x399]); (0x1F8D, [0x1F0D; 0x399]);
   (0x1F8E, [0x1F0E; 0x399]); (0x1F8F, [0x1F0F; 0x399]);
   (0x1F90, [0x1F28; 0x399]); (0x1F91, [0x1F29; 0x399]);
   (0x1F92, [0x1F2A; 0x399]); (0x1F93, [0x1F2B; 0x399]);
   (0x1F94, [0x1F2C; 0x399]); (0x1F95, [0x1F2D; 0x399]);
   (0x1F96, [0x1F2E; 0x399]); (0x1F97, [0x1F2F; 0x399]);
   (0x1F98, [0x1F28; 0x399]); (0x1F99, [0x1F29; 0x399]);
   (0x1F9A, [0x1F2A; 0x399]); (0x1F9B, [0x1F2B; 0x399]);
   (0x1F9C, [0x1F2C; 0x399]); (0x1F9D, [0x1F2D; 0x399]);
   (0x1F9E, [0x1F2E; 0x399]); (0x1F9F, [0x1F2F; 0x399]);
   (0x1FA0, [0x1F68; 0x399]); (0x1FA1, [0x1F69; 0x399]);
   (0x1FA2, [0x1F6A; 0x399]); (0x1FA3, [0x1F6B; 0x399]);
   (0x1FA4, [0x1F6C; 0x399]); (0x1FA5, [0x1F6D; 0x399]);
   (0x1FA6, [0x1F6E; 0x399]); (0x1FA7, [0x1F6F; 0x399]);
   (0x1FA8, [0x1F68; 0x399]); (0x1FA9, [0x1F69; 0x399]);
   (0x1FAA, [0x1F6A; 0x399]); (0x1FAB, [0x1F6B; 0x399]);
   (0x1FAC, [0x1F6C; 0x399]); (0x1FAD, [0x1F6D; 0x399]);
   (0x1FAE, [0x1F6E; 0x399]); (0x1FAF, [0x1F6F; 0x399]);
   (0x1FB2, [0x1FBA; 0x399]); (0x1FB3, [0x391; 0x399]);
   (0x1FB4, [0x386; 0x399]); (0x1FB6, [0x391; 0x342]);
   (0x1FB7, [0x391; 0x342; 0x399]); (0x1FBC, [0x391; 0x399]);
   (0x1FC2, [0x1FCA; 0x399]); (0x1FC3, [0x397; 0x399]);
   (0x1FC4, [0x389; 0x399]); (0x1FC6, [0x397; 0x342]);
   (0x1FC7, [0x397; 0x342; 0x399]); (0x1FCC, [0x397; 0x399]);
   (0x1FD2, [0x399; 0x308; 0x300]); (0x1FD3, [0x399; 0x308; 0x301]);
   (0x1FD6, [0x399; 0x342]); (0x1FD7, [0x399; 0x308; 0x342]);
   (0x1FE2, [0x3A5; 0x308; 0x300]); (0x1FE3, [0x3A5; 0x308; 0x301]);
   (0x1FE4, [0x3A1; 0x313]); (0x1FE6, [0x3A5; 0x342]);
   (0x1FE7, [0x3A5; 0x308; 0x342]); (0x1FF2, [0x1FFA; 0x399]);
   (0x1FF3, [0x3A9; 0x399]); (0x1FF4, [0x38F; 0x399]);
   (0x1FF6, [0x3A9; 0x342]); (0x1FF7, [0x3A9; 0x342; 0x399]);
   (0x1FFC, [0x3A9; 0x399]); (0xFB00, [0x46; 0x46]); (0xFB01, [0x46; 0x49]);
   (0xFB02, [0x46; 0x4C]); (0xFB03, [0x46; 0x46; 0x49]);
   (0xFB04, [0x46; 0x46; 0x4C]); (0xFB05, [0x53; 0x54]);
   (0xFB06, [0x53; 0x54]); (0xFB13, [0x544; 0x546]); (0xFB14, [0x544; 0x535]);
   (0xFB15, [0x544; 0x53B]); (0xFB16, [0x54E; 0x546]);
   (0xFB17, [0x544; 0x53D])]%N.

Definition in_run (p : N) (run : N * N * N * N) : bool :=
  let '(first, last, step, _) := run in
  if (first <=? p)%N
  then if (p <=? last)%N then ((p - first) mod step =? 0)%N else false
  else false.

(** [c.upper()] for one code point. *)
Definition upper_char (p : N) : list N :=
  if (p <? 0x80)%N
  then [if (0x61 <=? p)%N && (p <=? 0x7A)%N then (p - 0x20)%N else p]
  else
    match List.find (in_run p) upper_runs with
    | Some (first, _, _, upper_first) => [(upper_first + (p - first))%N]
    | None =>
        match List.find (fun entry => (fst entry =? p)%N) upper_special with
        | Some (_, points) => points
        | None => [p]
        end
    end.

(** [s.upper()] *)
Definition upper (s : string) : string :=
  encode (List.flat_map upper_char (decode s)).

(** *** [s.strip()] *)

(** [c.isspace()] for one code point: TAB, LF, VT, FF, CR, the separators
    FS, GS, RS, US, the space, NEL, the no-break space, and the spaces and
    line and paragraph separators from U+1680 on. *)
Definition isspace (p : N) : bool :=
  ((0x9 <=? p)%N && (p <=? 0xD)%N) || ((0x1C <=? p)%N && (p <=? 0x20)%N)
  || (p =? 0x85)%N || (p =? 0xA0)%N || (p =? 0x1680)%N
  || ((0x2000 <=? p)%N && (p <=? 0x200A)%N)
  || (p =? 0x2028)%N || (p =? 0x2029)%N || (p =? 0x202F)%N
  || (p =? 0x205F)%N || (p =? 0x3000)%N.

Fixpoint lstrip (points : list N) : list N :=
  match points with
  | [] => []
  | p :: rest => if isspace p then lstrip rest else points
  end.

Fixpoint rstrip (points : list N) : list N :=
  match points with
  | [] => []
  | p :: rest =>
      match rstrip rest with
      | [] => if isspace p then [] else [p]
      | kept => p :: kept
      end
  end.

(** [s.strip()] *)
Definition strip (s : string) : string := encode (rstrip (lstrip (decode s))).

(** Truth value of a string: the empty string is false. *)
Definition truthy (s : string) : bool :=
  match s with
  | EmptyString => false
  | String _ _ => true
  end.

(** *** [int(s)]

    CPython first writes the text in ASCII
    ([_PyUnicode_TransformDecimalAndSpaceToASCII]): an ASCII character
    stays, a blank above 127 becomes a space, a decimal digit of any script
    becomes the ASCII digit of its value, and any other character becomes a
    question mark, at which the reading fails.  The ASCII text is then read
    as: blanks, an optional sign, decimal digits with single underscores
    allowed between two digits, blanks.  The blanks of this reading are C's
    (TAB, LF, VT, FF, CR, space), a smaller set than [isspace]. *)

(** The code points above 127 that are the digit zero of a script; the
    nine code points after each are its digits one to nine. *)
Definition decimal_zeros : list N :=
  [0x660; 0x6F0; 0x7C0; 0x966; 0x9E6; 0xA66; 0xAE6; 0xB66; 0xBE6; 0xC66;
   0xCE6; 0xD66; 0xDE6; 0xE50; 0xED0; 0xF20; 0x1040; 0x1090; 0x17E0; 0x1810;
   0x1946; 0x19D0; 0x1A80; 0x1A90; 0x1B50; 0x1BB0; 0x1C40; 0x1C50; 0xA620;
   0xA8D0; 0xA900; 0xA9D0; 0xA9F0; 0xAA50; 0xABF0; 0xFF10; 0x104A0; 0x10D30;
   0x11066; 0x110F0; 0x11136; 0x111D0; 0x112F0; 0x11450; 0x114D0; 0x11650;
   0x116C0; 0x11730; 0x118E0; 0x11950; 0x11C50; 0x11D50; 0x11DA0; 0x16A60;
   0x16AC0; 0x16B50; 0x1D7CE; 0x1D7D8; 0x1D7E2; 0x1D7EC; 0x1D7F6; 0x1E140;
   0x1E2F0; 0x1E950; 0x1FBF0]%N.

(** The value of a decimal digit above 127 ([Py_UNICODE_TODECIMAL]). *)
Definition decimal (p : N) : option N :=
  (fun zero => (p - zero)%N) <$>
    List.find (fun zero => (zero <=? p)%N && (p <? zero + 10)%N) decimal_zeros.

(** The ASCII character written for one code point. *)
Definition int_ascii_char (p : N) : ascii :=
  if (p <? 0x80)%N then Ascii.ascii_of_N p
  else if isspace p then " "%char
  else
    match decimal p with
    | Some d => Ascii.ascii_of_N (0x30 + d)
    | None => "?"%char
    end.

(** The ASCII text of a text. *)
Fixpoint int_ascii (points : list N) : string :=
  match points with
  | [] => EmptyString
  | p :: rest => String (int_ascii_char p) (int_ascii rest)
  end.

(** A blank of the ASCII text ([Py_ISSPACE]). *)
Definition int_isspace (c : ascii) : bool :=
  let n := Ascii.N_of_ascii c in
  ((9 <=? n)%N && (n <=? 13)%N) || (n =? 32)%N.

(** The value of a digit of the ASCII text. *)
Definition digit_value (c : ascii) : option Z :=
  let n := Ascii.N_of_ascii c in
  if (48 <=? n)%N && (n <=? 57)%N then Some (Z.of_N n - 48) else None.

Fixpoint int_lstrip (s : string) : string :=
  match s with
  | EmptyString => EmptyString
  | String c s' => if int_isspace c then int_lstrip s' else s
  end.

(** What was read last inside the digits. *)
Inductive int_prev := AtStart | AfterDigit | AfterUnderscore.

(** The digits: [acc] is the value read so far, [digits] their count.
    Returns the value, the count and the text after the digits, or [None]
    for a misplaced underscore. *)
Fixpoint int_digits (prev : int_prev) (acc : Z) (digits : nat) (s : string)
    : option (Z * nat * string) :=
  match s with
  | EmptyString =>
      match prev with
      | AfterUnderscore => None
      | _ => Some (acc, digits, EmptyString)
      end
  | String c s' =>
      if Ascii.eqb c "_"
      then match prev with
           | AfterDigit => int_digits AfterUnderscore acc digits s'
           | _ => None
           end
      else match digit_value c with
           | Some d => int_digits AfterDigit (10 * acc + d) (S digits) s'
           | None =>
               match prev with
               | AfterUnderscore => None
               | _ => Some (acc, digits, s)
               end
           end
  end.

(** [sys.int_info.default_max_str_digits]: a longer literal is a
    [ValueError]. *)
Definition int_max_str_digits : nat := 4300.

(** The magnitude and what follows it; [None] when the text is no
    integer. *)
Definition int_magnitude (s : string) : option Z :=
  match int_digits AtStart 0 0 s with
  | Some (v, digits, rest) =>
      match digits with
      | O => None
      | _ =>
          if Nat.leb digits int_max_str_digits
          then match int_lstrip rest with
               | EmptyString => Some v
               | _ => None
               end
          else None
      end
  | None => None
  end.

(** The reading of the ASCII text. *)
Definition int_literal (s : string) : option Z :=
  match int_lstrip s with
  | String "+" t => int_magnitude t
  | String "-" t => Z.opp <$> int_magnitude t
  | t => int_magnitude t
  end.

(** [int(s)] as a value, [None] standing for [ValueError]. *)
Definition int_value (s : string) : option Z :=
  int_literal (int_ascii (decode s)).

(** [int(s)] *)
Definition int (s : string) : outcome Z :=
  match int_value s with
  | Some n => Returned n
  | None => Raises ValueError
  end.

End Py.

(** Line ends of the wire protocol. *)
Definition CR : ascii := Ascii.ascii_of_nat 13.
Definition LF : ascii := Ascii.ascii_of_nat 10.
Definition CRLF : string := String CR (String LF EmptyString).

(** ** Data model ([api.py], lines 23 to 57) *)

(** [class DeviceMode(Enum)]: device mode from STATUS_SIMPLE field 3. *)
Module DeviceMode.

Inductive t :=
  | IDLE | TRAY_OPEN | REWIND | FAST_FORWARD | SLOW_MOTION
  | STANDBY | PLAYING | PAUSED | UNKNOWN.

#[global] Instance eq_dec : EqDecision t.
Proof. solve_decision. Defined.

(** The members in definition order, as [for dm in DeviceMode] visits them. *)
Definition members : list t :=
  [IDLE; TRAY_OPEN; REWIND; FAST_FORWARD; SLOW_MOTION;
   STANDBY; PLAYING; PAUSED; UNKNOWN].

Definition value (m : t) : string :=
  match m with
  | IDLE => "00"
  | TRAY_OPEN => "01"
  | REWIND => "02"
  | FAST_FORWARD => "05"
  | SLOW_MOTION => "06"
  | STANDBY => "07"
  | PLAYING => "08"
  | PAUSED => "09"
  | UNKNOWN => "FF"
  end.

Definition name (m : t) : string :=
  match m with
  | IDLE => "IDLE"
  | TRAY_OPEN => "TRAY_OPEN"
  | REWIND => "REWIND"
  | FAST_FORWARD => "FAST_FORWARD"
  | SLOW_MOTION => "SLOW_MOTION"
  | STANDBY => "STANDBY"
  | PLAYING => "PLAYING"
  | PAUSED => "PAUSED"
  | UNKNOWN => "UNKNOWN"
  end.

End DeviceMode.

(** [class PlaybackState(Enum)]: playback state from PST field 0. *)
Module PlaybackState.

Inductive t :=
  | STOPPED | PLAYING | PAUSED | FAST_FORWARD | REWIND | SLOW_MOTION | UNKNOWN.

#[global] Instance eq_dec : EqDecision t.
Proof. solve_decision. Defined.

Definition members : list t :=
  [STOPPED; PLAYING; PAUSED; FAST_FORWARD; REWIND; SLOW_MOTION; UNKNOWN].

Definition value (s : t) : string :=
  match s with
  | STOPPED => "0"
  | PLAYING => "1"
  | PAUSED => "2"
  | FAST_FORWARD => "4"
  | REWIND => "5"
  | SLOW_MOTION => "6"
  | UNKNOWN => "99"
  end.

Definition name (s : t) : string :=
  match s with
  | STOPPED => "STOPPED"
  | PLAYING => "PLAYING"
  | PAUSED => "PAUSED"
  | FAST_FORWARD => "FAST_FORWARD"
  | REWIND => "REWIND"
  | SLOW_MOTION => "SLOW_MOTION"
  | UNKNOWN => "UNKNOWN"
  end.

End PlaybackState.

(** [homeassistant.components.media_player.MediaPlayerState], the host's
    enumeration the coordinator publishes. *)
Module MediaPlayerState.

Inductive t := OFF | ON | IDLE | PLAYING | PAUSED | STANDBY | BUFFERING.

#[global] Instance eq_dec : EqDecision t.
Proof. solve_decision. Defined.

End MediaPlayerState.

(** [@dataclass class PlayerStatus] *)
Record PlayerStatus := {
  is_on : bool;
  device_mode : DeviceMode.t;
  playback_state : PlaybackState.t;
  position_seconds : Z;
  speed_multiplier : Z;
  clock_time : option string;
  raw_pst : option string;
  raw_status : option string;
}.

(** ** The command table ([PanasonicBlurayAPI.COMMANDS]) *)

(** The entries of the dictionary literal, in source order. *)
Definition COMMANDS_items : list (string * string) :=
  [
    ("POWER", "cCMD_RC_POWER")
  ; ("POWERON", "cCMD_RC_POWERON")
  ; ("POWEROFF", "cCMD_RC_POWEROFF")
  ; ("PLAYBACK", "cCMD_RC_PLAYBACK")
  ; ("PLAY", "cCMD_RC_PLAYBACK")
  ; ("PAUSE", "cCMD_RC_PAUSE")
  ; ("STOP", "cCMD_RC_STOP")
  ; ("MEDIA_PLAY", "cCMD_RC_PLAYBACK")
  ; ("MEDIA_PAUSE", "cCMD_RC_PAUSE")
  ; ("MEDIA_PLAY_PAUSE", "cCMD_RC_PAUSE")
  ; ("MEDIA_STOP", "cCMD_RC_STOP")
  ; ("UP", "cCMD_RC_UP")
  ; ("DOWN", "cCMD_RC_DOWN")
  ; ("LEFT", "cCMD_RC_LEFT")
  ; ("RIGHT", "cCMD_RC_RIGHT")
  ; ("DPAD_UP", "cCMD_RC_UP")
  ; ("DPAD_DOWN", "cCMD_RC_DOWN")
  ; ("DPAD_LEFT", "cCMD_RC_LEFT")
  ; ("DPAD_RIGHT", "cCMD_RC_RIGHT")
  ; ("DPAD_CENTER", "cCMD_RC_SELECT")
  ; ("SELECT", "cCMD_RC_SELECT")
  ; ("OK", "cCMD_RC_SELECT")
  ; ("RETURN", "cCMD_RC_RETURN")
  ; ("BACK", "cCMD_RC_RETURN")
  ; ("EXIT", "cCMD_RC_EXIT")
  ; ("HOME", "cCMD_RC_MLTNAVI")
  ; ("MENU", "cCMD_RC_MENU")
  ; ("TITLE", "cCMD_RC_TITLE")
  ; ("POPUP", "cCMD_RC_PUPMENU")
  ; ("PUPMENU", "cCMD_RC_PUPMENU")
  ; ("SETUP", "cCMD_RC_SETUP")
  ; ("SKIPFWD", "cCMD_RC_SKIPFWD")
  ; ("SKIPREV", "cCMD_RC_SKIPREV")
  ; ("NEXT", "cCMD_RC_SKIPFWD")
  ; ("PREV", "cCMD_RC_SKIPREV")
  ; ("PREVIOUS", "cCMD_RC_SKIPREV")
  ; ("MEDIA_NEXT", "cCMD_RC_SKIPFWD")
  ; ("MEDIA_PREVIOUS", "cCMD_RC_SKIPREV")
  ; ("CUE", "cCMD_RC_CUE")
  ; ("FF", "cCMD_RC_CUE")
  ; ("SEARCH_FWD1", "cCMD_RC_SEARCH_FWD1")
  ; ("SEARCH_FWD2", "cCMD_RC_SEARCH_FWD2")
  ; ("SEARCH_FWD3", "cCMD_RC_SEARCH_FWD3")
  ; ("SEARCH_FWD4", "cCMD_RC_SEARCH_FWD4")
  ; ("SEARCH_FWD5", "cCMD_RC_SEARCH_FWD5")
  ; ("REV", "cCMD_RC_REV")
  ; ("REW", "cCMD_RC_REV")
  ; ("SEARCH_REV1", "cCMD_RC_SEARCH_REV1")
  ; ("SEARCH_REV2", "cCMD_RC_SEARCH_REV2")
  ; ("SEARCH_REV3", "cCMD_RC_SEARCH_REV3")
  ; ("SEARCH_REV4", "cCMD_RC_SEARCH_REV4")
  ; ("SEARCH_REV5", "cCMD_RC_SEARCH_REV5")
  ; ("SLOW_FWD1", "cCMD_RC_SLOW_FWD1")
  ; ("SLOW_FWD2", "cCMD_RC_SLOW_FWD2")
  ; ("SLOW_FWD3", "cCMD_RC_SLOW_FWD3")
  ; ("SLOW_FWD4", "cCMD_RC_SLOW_FWD4")
  ; ("SLOW_FWD5", "cCMD_RC_SLOW_FWD5")
  ; ("FRAMEADV", "cCMD_RC_FRAMEADV")
  ; ("REVERSEFRAMEADV", "cCMD_RC_REVERSEFRAMEADV")
  ; ("OP_CL", "cCMD_RC_OP_CL")
  ; ("EJECT", "cCMD_RC_OP_CL")
  ; ("TRAYOPEN", "cCMD_RC_TRAYOPEN")
  ; ("TRAYCLOSE", "cCMD_RC_TRAYCLOSE")
  ; ("RED", "cCMD_RC_RED")
  ; ("GREEN", "cCMD_RC_GREEN")
  ; ("YELLOW", "cCMD_RC_YELLOW")
  ; ("BLUE", "cCMD_RC_BLUE")
  ; ("D0", "cCMD_RC_D0")
  ; ("D1", "cCMD_RC_D1")
  ; ("D2", "cCMD_RC_D2")
  ; ("D3", "cCMD_RC_D3")
  ; ("D4", "cCMD_RC_D4")
  ; ("D5", "cCMD_RC_D5")
  ; ("D6", "cCMD_RC_D6")
  ; ("D7", "cCMD_RC_D7")
  ; ("D8", "cCMD_RC_D8")
  ; ("D9", "cCMD_RC_D9")
  ; ("0", "cCMD_RC_D0")
  ; ("1", "cCMD_RC_D1")
  ; ("2", "cCMD_RC_D2")
  ; ("3", "cCMD_RC_D3")
  ; ("4", "cCMD_RC_D4")
  ; ("5", "cCMD_RC_D5")
  ; ("6", "cCMD_RC_D6")
  ; ("7", "cCMD_RC_D7")
  ; ("8", "cCMD_RC_D8")
  ; ("9", "cCMD_RC_D9")
  ; ("AUDIOSEL", "cCMD_RC_AUDIOSEL")
  ; ("AUDIO", "cCMD_RC_AUDIOSEL")
  ; ("SUB_TITLE", "cCMD_RC_SUB_TITLE")
  ; ("SUBTITLE", "cCMD_RC_SUB_TITLE")
  ; ("DETAIL", "cCMD_RC_DETAIL")
  ; ("INFO", "cCMD_RC_DETAIL")
  ; ("DSPSEL", "cCMD_RC_DSPSEL")
  ; ("DISPLAY", "cCMD_RC_DSPSEL")
  ; ("OSDONOFF", "cCMD_RC_OSDONOFF")
  ; ("3D", "cCMD_RC_3D")
  ; ("PICTMD", "cCMD_RC_PICTMD")
  ; ("PICTURESETTINGS", "cCMD_RC_PICTURESETTINGS")
  ; ("HDR_PICTUREMODE", "cCMD_RC_HDR_PICTUREMODE")
  ; ("NETFLIX", "cCMD_RC_NETFLIX")
  ; ("NETWORK", "cCMD_RC_NETWORK")
  ; ("MIRACAST", "cCMD_RC_MIRACAST")
  ].

(** A dictionary literal keeps, for a repeated key, the entry written last. *)
Definition COMMANDS : gmap string string :=
  foldl (fun m kv => <[kv.1 := kv.2]> m) ∅ COMMANDS_items.

(** ** Transport ([PanasonicBlurayAPI._send_raw]) *)

(** What one HTTP round trip gives the client: the body of the response,
    read and decoded (the text [response.read().decode(...)] gives, kept
    like every text as its UTF-8 bytes), or an exception raised on the way
    ([HTTPError], [URLError], a timeout, ...). *)
Inductive reply :=
  | Body (raw : string)
  | Raised.

(** The network and the player behind it.  [urlopen data d] posts [data] to
    the endpoint in the world [d] and gives the reply and the world after. *)
Class Transport (Device : Type) :=
  urlopen : string -> Device -> reply * Device.

(** The host's clock, [homeassistant.util.utcnow], as seconds. *)
Class Clock (Device : Type) :=
  utcnow : Device -> Z.

(** The statements of [_send_raw] under [with urlopen(...) as response],
    from the decoded body [raw] on (lines 221 to 236). *)
Definition parse_response (raw : string)
    : Py.outcome (bool * option string * list string) :=
  let lines := Py.split CRLF raw in
  response_code ←
    match lines with
    | first :: _ =>
        if Py.contains "," first
        then code ← Py.getitem (Py.split_max "," 1 first) 0; mret (Some code)
        else mret (Some first)
    | [] => mret None
    end;
  let data_lines :=
    List.filter (fun line => Py.truthy (Py.strip line)) (tail lines) in
  let success := bool_decide (response_code = Some "00") in
  mret (success, response_code, data_lines).

Section Client.
Context {Device : Type} `{!Transport Device}.

(** Every exception raised under [try] ends in [return False, None, []]. *)
Definition _send_raw (data : string) (d : Device)
    : bool * option string * list string * Device :=
  match urlopen data d with
  | (Body raw, d) =>
      match parse_response raw with
      | Py.Returned result => (result, d)
      | Py.Raises _ => ((false, None, []), d)
      end
  | (Raised, d) => ((false, None, []), d)
  end.

(** ** Device client *)

(** The token [send_command] settles on (its local [api_cmd]). *)
Definition api_cmd (command : string) : string :=
  let cmd_upper := Py.upper command in
  match COMMANDS !! cmd_upper with
  | Some token => token
  | None =>
      if Py.startswith "cCMD_" command then command
      else "cCMD_RC_" ++ cmd_upper
  end.

(** The body posted for a token: [f"{api_cmd}.x=100&{api_cmd}.y=100"]. *)
Definition form_body (token : string) : string :=
  token ++ ".x=100&" ++ token ++ ".y=100".

Definition send_command (command : string) (d : Device)
    : bool * option string * Device :=
  let data := form_body (api_cmd command) in
  let '(success, code, _, d) := _send_raw data d in
  (success, code, d).

(** [for m in Enum: if m.value == val: var = m; break]: the first member
    with that value, or what the variable held. *)
Definition first_with_value {E : Type} (members : list E) (value : E -> string)
    (val : string) (kept : E) : E :=
  match List.find (fun m => String.eqb (value m) val) members with
  | Some m => m
  | None => kept
  end.

(** Lines 339 to 366: the PST half of [get_player_status]. *)
Definition parse_pst_lines (pst_lines : list string)
    : Py.outcome (PlaybackState.t * Z * Z * option string) :=
  let playback_state := PlaybackState.UNKNOWN in
  let position_seconds := 0 in
  let speed_multiplier := 0 in
  let raw_pst := None in
  match pst_lines with
  | [] => mret (playback_state, position_seconds, speed_multiplier, raw_pst)
  | line0 :: _ =>
      let raw_pst := Some line0 in
      let parts := Py.split "," line0 in
      if (3 <=? length parts)%nat
      then
        state_val ← Py.getitem parts 0;
        let playback_state :=
          first_with_value PlaybackState.members PlaybackState.value
            state_val playback_state in
        position_seconds ←
          Py.except_ValueError (Py.getitem parts 1 ≫= Py.int) position_seconds;
        speed_multiplier ←
          Py.except_ValueError (Py.getitem parts 2 ≫= Py.int) speed_multiplier;
        mret (playback_state, position_seconds, speed_multiplier, raw_pst)
      else mret (playback_state, position_seconds, speed_multiplier, raw_pst)
  end.

(** Lines 368 to 389: the STATUS_SIMPLE half. *)
Definition parse_status_lines (status_lines : list string)
    : Py.outcome (bool * DeviceMode.t * option string * option string) :=
  let is_on := true in
  let device_mode := DeviceMode.UNKNOWN in
  let clock_time := None in
  let raw_status := None in
  match status_lines with
  | [] => mret (is_on, device_mode, clock_time, raw_status)
  | line0 :: _ =>
      let raw_status := Some line0 in
      let parts := Py.split "," line0 in
      if (14 <=? length parts)%nat
      then
        mode_val ← Py.getitem parts 3;
        let device_mode :=
          first_with_value DeviceMode.members DeviceMode.value
            mode_val device_mode in
        let is_on := negb (bool_decide (device_mode = DeviceMode.STANDBY)) in
        field13 ← Py.getitem parts 13;
        let clock_time := if Py.truthy field13 then Some field13 else None in
        mret (is_on, device_mode, clock_time, raw_status)
      else mret (is_on, device_mode, clock_time, raw_status)
  end.

Definition pst_data : string := form_body "cCMD_PST".
Definition status_data : string := form_body "cCMD_RC_STATUS_SIMPLE".

Definition get_player_status (d : Device)
    : Py.outcome (option PlayerStatus) * Device :=
  let '(pst_success, _, pst_lines, d) := _send_raw pst_data d in
  let '(status_success, _, status_lines, d) := _send_raw status_data d in
  if negb pst_success || negb status_success then (mret None, d)
  else
    ('(playback_state, position_seconds, speed_multiplier, raw_pst) ←
       parse_pst_lines pst_lines;
     '(is_on, device_mode, clock_time, raw_status) ←
       parse_status_lines status_lines;
     mret (Some {| is_on := is_on;
                   device_mode := device_mode;
                   playback_state := playback_state;
                   position_seconds := position_seconds;
                   speed_multiplier := speed_multiplier;
                   clock_time := clock_time;
                   raw_pst := raw_pst;
                   raw_status := raw_status |}),
     d).

(** The dictionary [state_map] of [get_status]. *)
Definition state_map (s : PlaybackState.t) : option string :=
  match s with
  | PlaybackState.STOPPED => Some "stopped"
  | PlaybackState.PLAYING => Some "playing"
  | PlaybackState.PAUSED => Some "paused"
  | PlaybackState.FAST_FORWARD => Some "playing"
  | PlaybackState.REWIND => Some "playing"
  | PlaybackState.SLOW_MOTION => Some "playing"
  | PlaybackState.UNKNOWN => None
  end.

Definition get_status (d : Device) : Py.outcome (string * Z * Z) * Device :=
  let '(status, d) := get_player_status d in
  (status ← status;
   match status with
   | None => mret ("error", -1, -1)
   | Some status =>
       if negb (is_on status) then mret ("standby", 0, 0)
       else
         let state := default "off" (state_map (playback_state status)) in
         mret (state, position_seconds status, 0)
   end,
   d).

End Client.

(** ** Poll coordinator ([PanasonicCoordinator._update]) *)

(** The values the published dictionary holds. *)
Inductive pyval :=
  | PNone
  | PBool (b : bool)
  | PInt (n : Z)
  | PStr (s : string)
  | PState (s : MediaPlayerState.t)
  | PTime (t : Z).

(** An optional string as a Python value. *)
Definition of_optional (o : option string) : pyval :=
  match o with
  | Some s => PStr s
  | None => PNone
  end.

(** Lines 84 to 98: the [if]/[elif] chain that chooses [data["state"]]. *)
Definition media_player_state (status : PlayerStatus) : MediaPlayerState.t :=
  if negb (is_on status) then MediaPlayerState.OFF
  else if bool_decide (device_mode status = DeviceMode.TRAY_OPEN)
  then MediaPlayerState.IDLE
  else if bool_decide (device_mode status = DeviceMode.IDLE)
  then MediaPlayerState.IDLE
  else if bool_decide (device_mode status = DeviceMode.PLAYING)
  then MediaPlayerState.PLAYING
  else if bool_decide (device_mode status = DeviceMode.PAUSED)
  then MediaPlayerState.PAUSED
  else if bool_decide (device_mode status ∈
            [DeviceMode.FAST_FORWARD; DeviceMode.REWIND; DeviceMode.SLOW_MOTION])
  then MediaPlayerState.PLAYING
  else MediaPlayerState.IDLE.

Section Coordinator.
Context {Device : Type} `{!Transport Device, !Clock Device}.

Definition _update (d : Device) : Py.outcome (gmap string pyval) * Device :=
  let data : gmap string pyval := ∅ in
  let '(status, d) := get_player_status d in
  (status ← status;
   match status with
   | None =>
       let data := <["state" := PNone]> data in
       let data := <["is_on" := PNone]> data in
       let data := <["device_mode" := PNone]> data in
       let data := <["playback_state" := PNone]> data in
       let data := <["media_position" := PInt 0]> data in
       let data := <["media_duration" := PInt 0]> data in
       let data := <["speed_multiplier" := PInt 0]> data in
       let data := <["tray_open" := PNone]> data in
       let data := <["clock_time" := PNone]> data in
       mret data
   | Some status =>
       let data := <["is_on" := PBool (is_on status)]> data in
       let data :=
         <["device_mode" := PStr (DeviceMode.name (device_mode status))]> data in
       let data :=
         <["device_mode_value" := PStr (DeviceMode.value (device_mode status))]> data in
       let data :=
         <["playback_state" :=
             PStr (PlaybackState.name (playback_state status))]> data in
       let data :=
         <["playback_state_value" :=
             PStr (PlaybackState.value (playback_state status))]> data in
       let data := <["state" := PState (media_player_state status)]> data in
       let data := <["media_position" := PInt (position_seconds status)]> data in
       let data := <["media_position_updated_at" := PTime (utcnow d)]> data in
       let data := <["media_duration" := PInt 0]> data in
       let data := <["speed_multiplier" := PInt (speed_multiplier status)]> data in
       let data :=
         <["tray_open" :=
             PBool (bool_decide (device_mode status = DeviceMode.TRAY_OPEN))]> data in
       let data := <["clock_time" := of_optional (clock_time status)]> data in
       let data := <["raw_pst" := of_optional (raw_pst status)]> data in
       let data := <["raw_status" := of_optional (raw_status status)]> data in
       mret data
   end,
   d).

End Coordinator.

(** ** A player with fixed answers

    A world for running the client on concrete replies: the player answers
    the PST query with [pst_reply], the STATUS_SIMPLE query with
    [status_reply] and every other request with [command_reply]; the clock
    reads [now]. *)
Record canned := {
  pst_reply : reply;
  status_reply : reply;
  command_reply : reply;
  now : Z;
}.

#[global] Instance canned_transport : Transport canned := fun data c =>
  (if String.eqb data pst_data then pst_reply c
   else if String.eqb data status_data then status_reply c
   else command_reply c,
   c).

#[global] Instance canned_clock : Clock canned := now.

(** A body made of the given lines, each ended by CRLF. *)
Definition body_of (lines : list string) : reply :=
  Body (Py.join CRLF (lines ++ [EmptyString])).

(** The STATUS_SIMPLE line of the specification's round trip: 14 fields,
    08 as field 3 and 14:32 as field 13. *)
Definition sample_status_line : string := "x,x,x,08,x,x,x,x,x,x,x,x,x,14:32".

(** A player that answers both queries with the code 00 and one data line. *)
Definition player (pst status : string) : canned :=
  {| pst_reply := body_of ["00"; pst];
     status_reply := body_of ["00"; status];
     command_reply := body_of ["00"];
     now := 1700000000 |}.

(** A player that answers 00 and sends no data line. *)
Definition silent_player : canned :=
  {| pst_reply := body_of ["00"];
     status_reply := body_of ["00"];
     command_reply := body_of ["00"];
     now := 1700000000 |}.

(** A player that cannot be reached. *)
Definition unreachable_player : canned :=
  {| pst_reply := Raised;
     status_reply := Raised;
     command_reply := Raised;
     now := 1700000000 |}.

(** A player in standby: 07 as field 3. *)
Definition standby_status_line : string := "x,x,x,07,x,x,x,x,x,x,x,x,x,03:15".

(** The status [get_player_status] builds when both data-line sets are
    empty: every default. *)
Definition default_status : PlayerStatus :=
  {| is_on := true;
     device_mode := DeviceMode.UNKNOWN;
     playback_state := PlaybackState.UNKNOWN;
     position_seconds := 0;
     speed_multiplier := 0;
     clock_time := None;
     raw_pst := None;
     raw_status := None |}.

(** ** The specification's words *)

(** The white-space characters, by code point: the ASCII controls TAB, LF,
    VT, FF, CR, FS, GS, RS and US, the space, NEL, the no-break space, the
    Ogham space mark, the spaces U+2000 to U+200A, the line and the
    paragraph separator, the narrow no-break space, the medium mathematical
    space and the ideographic space. *)
Definition white_space : list N :=
  [0x9; 0xA; 0xB; 0xC; 0xD; 0x1C; 0x1D; 0x1E; 0x1F; 0x20; 0x85; 0xA0; 0x1680;
   0x2000; 0x2001; 0x2002; 0x2003; 0x2004; 0x2005; 0x2006; 0x2007; 0x2008;
   0x2009; 0x200A; 0x2028; 0x2029; 0x202F; 0x205F; 0x3000]%N.

(** A blank line: nothing but white space (the empty line too). *)
Definition blank (line : string) : Prop :=
  Forall (fun p => p ∈ white_space) (Py.decode line).

#[global] Instance blank_dec line : Decision (blank line).
Proof. unfold blank. apply Forall_dec. intros p. apply _. Defined.

(** The response code of a first line: the text before its first comma, or
    the whole line when it has none. *)
Definition code_of_first_line (first code : string) : Prop :=
  if Py.contains "," first
  then exists tail, first = code ++ "," ++ tail /\ Py.contains "," code = false
  else code = first.

(** [m] is what matching the wire code [v] against the values of an
    enumeration gives, [unknown] being the default on no match. *)
Definition matched {E : Type} (value : E -> string) (unknown : E)
    (v : string) (m : E) : Prop :=
  (forall e, value e = v -> m = e) /\ ((forall e, value e <> v) -> m = unknown).

(** An integer field with 0 as the default on parse failure. *)
Definition int_default0 (field : string) : Z :=
  match Py.int_value field with
  | Some n => n
  | None => 0
  end.


(** The keys of the published state mapping (the collaborator interface
    surface of the specification). *)
Definition published_state_keys : list string :=
  ["state"; "is_on"; "device_mode"; "device_mode_value"; "playback_state";
   "playback_state_value"; "media_position"; "media_position_updated_at";
   "media_duration"; "speed_multiplier"; "tray_open"; "clock_time";
   "raw_pst"; "raw_status"].

(** The nine keys the specification lists for a poll without a status. *)
Definition unknown_state : gmap string pyval :=
  list_to_map
    [("state", PNone); ("is_on", PNone); ("device_mode", PNone);
     ("playback_state", PNone); ("media_position", PInt 0);
     ("media_duration", PInt 0); ("speed_multiplier", PInt 0);
     ("tray_open", PNone); ("clock_time", PNone)].

(** ** The rest of the device client ([api.py], lines 273 to 287 and 318
    to 461) *)

Section ClientConveniences.
Context {Device : Type} `{!Transport Device}.

(** [code or "unknown"]: the code when it is a string that is not empty. *)
Definition code_or_unknown (code : option string) : string :=
  match code with
  | Some c => if Py.truthy c then c else "unknown"
  | None => "unknown"
  end.

Definition send_key (key : string) (d : Device) : string * string * Device :=
  let '(success, code, d) := send_command key d in
  if success then ("ok", "", d)
  else ("error", code_or_unknown code, d).

Definition get_play_status (d : Device) : Py.outcome (string * Z * Z) * Device :=
  get_status d.

Definition is_tray_open (d : Device) : Py.outcome (option bool) * Device :=
  let '(status, d) := get_player_status d in
  (status ← status;
   match status with
   | None => mret None
   | Some status =>
       mret (Some (bool_decide (device_mode status = DeviceMode.TRAY_OPEN)))
   end,
   d).

(** [success, _ = self.send_command(name); return success] *)
Definition command_succeeds (name : string) (d : Device) : bool * Device :=
  let '(success, _, d) := send_command name d in
  (success, d).

Definition open_tray : Device -> bool * Device := command_succeeds "TRAYOPEN".
Definition close_tray : Device -> bool * Device := command_succeeds "TRAYCLOSE".
Definition toggle_tray : Device -> bool * Device := command_succeeds "OP_CL".
Definition power_on : Device -> bool * Device := command_succeeds "POWERON".
Definition power_off : Device -> bool * Device := command_succeeds "POWEROFF".
Definition play : Device -> bool * Device := command_succeeds "PLAYBACK".
Definition pause : Device -> bool * Device := command_succeeds "PAUSE".
Definition stop : Device -> bool * Device := command_succeeds "STOP".
Definition next_track : Device -> bool * Device := command_succeeds "SKIPFWD".
Definition previous_track : Device -> bool * Device := command_succeeds "SKIPREV".

End ClientConveniences.

(** ** The coordinator's refresh ([PanasonicCoordinator._async_update_data]) *)

(** What a refresh gives its caller: the new mapping, or [UpdateFailed]. *)
Inductive refresh :=
  | Refreshed (data : gmap string pyval)
  | UpdateFailed.

Section Refresh.
Context {Device : Type} `{!Transport Device, !Clock Device}.

(** [self_data] is the coordinator's [self.data] before the call; the
    second component of the result is [self.data] after it. *)
Definition _async_update_data (self_data : gmap string pyval) (d : Device)
    : refresh * gmap string pyval * Device :=
  match _update d with
  | (Py.Returned data, d) => (Refreshed data, data, d)
  | (Py.Raises _, d) => (UpdateFailed, self_data, d)
  end.

End Refresh.

(** ** Python values as the entities handle them *)

#[global] Instance pyval_eq_dec : EqDecision pyval.
Proof. solve_decision. Defined.

Module PyVal.

(** A value, or a [TypeError] of an operator applied to a value that does
    not support it. *)
Inductive checked (A : Type) :=
  | Fine (a : A)
  | TypeError.
Arguments Fine {A} a.
Arguments TypeError {A}.

(** [MediaPlayerState] is a string enumeration: a member is its value. *)
Definition state_value (s : MediaPlayerState.t) : string :=
  match s with
  | MediaPlayerState.OFF => "off"
  | MediaPlayerState.ON => "on"
  | MediaPlayerState.IDLE => "idle"
  | MediaPlayerState.PLAYING => "playing"
  | MediaPlayerState.PAUSED => "paused"
  | MediaPlayerState.STANDBY => "standby"
  | MediaPlayerState.BUFFERING => "buffering"
  end.

(** An [int], a [bool] being one. *)
Definition number (v : pyval) : option Z :=
  match v with
  | PInt n => Some n
  | PBool b => Some (if b then 1 else 0)
  | _ => None
  end.

(** A [str], a [MediaPlayerState] being one. *)
Definition text (v : pyval) : option string :=
  match v with
  | PStr s => Some s
  | PState s => Some (state_value s)
  | _ => None
  end.

(** [bool(v)] *)
Definition truthy (v : pyval) : bool :=
  match v with
  | PNone => false
  | PBool b => b
  | PInt n => negb (n =? 0)
  | PStr s => Py.truthy s
  | PState s => Py.truthy (state_value s)
  | PTime _ => true
  end.

(** [a == b] *)
Definition equal (a b : pyval) : bool :=
  match a, b with
  | PNone, PNone => true
  | PTime t, PTime u => t =? u
  | _, _ =>
      match number a, number b with
      | Some m, Some n => m =? n
      | _, _ =>
          match text a, text b with
          | Some s, Some t => String.eqb s t
          | _, _ => false
          end
      end
  end.

(** [v is None] *)
Definition is_None (v : pyval) : bool :=
  match v with
  | PNone => true
  | _ => false
  end.

(** [str(n)] of an [int]. *)
Definition str_int (n : Z) : string :=
  DecimalString.NilZero.string_of_int (Z.to_int n).

(** [f"{n:02d}"]: at least two characters, a zero put in front of a single
    digit. *)
Definition format_02d (n : Z) : string :=
  let s := str_int n in
  if (String.length s <? 2)%nat then "0" ++ s else s.

(** [f"{v}"] of a number. *)
Definition str_number (v : pyval) : string :=
  match v with
  | PInt n => str_int n
  | PBool true => "True"
  | _ => "False"
  end.

(** [data.get(key)] and [data.get(key, default)] *)
Definition get (data : gmap string pyval) (key : string) : pyval :=
  default PNone (data !! key).

Definition get_or (data : gmap string pyval) (key : string) (dflt : pyval) : pyval :=
  default dflt (data !! key).

(** [not data] of a dictionary. *)
Definition is_empty (data : gmap string pyval) : bool :=
  bool_decide (data = ∅).

End PyVal.

(** ** Sensors ([sensor.py])

    The entities read the coordinator's mapping ([self.coordinator.data])
    and call the client.  What they ask of the host besides
    ([async_write_ha_state], [schedule_update_ha_state], logging) changes
    nothing the code below reads, and is left to the host. *)

Module PanasonicPositionSensor.

(** Lines 96 to 99: hours, minutes and seconds of a position. *)
Definition hh_mm_ss (position : Z) : string :=
  let hours := position / 3600 in
  let minutes := (position mod 3600) / 60 in
  let seconds := position mod 60 in
  PyVal.format_02d hours ++ ":" ++ PyVal.format_02d minutes ++ ":"
    ++ PyVal.format_02d seconds.

Definition native_value (data : gmap string pyval) : PyVal.checked pyval :=
  if PyVal.is_empty data then PyVal.Fine PNone
  else
    let position := PyVal.get_or data "media_position" (PInt 0) in
    if PyVal.is_None position || PyVal.equal position (PInt 0)
    then PyVal.Fine (PStr "00:00:00")
    else
      match PyVal.number position with
      | Some position => PyVal.Fine (PStr (hh_mm_ss position))
      | None => PyVal.TypeError
      end.

Definition extra_state_attributes (data : gmap string pyval)
    : gmap string pyval :=
  if PyVal.is_empty data then ∅
  else {[ "position_seconds" := PyVal.get_or data "media_position" (PInt 0) ]}.

End PanasonicPositionSensor.

Module PanasonicDeviceModeSensor.

Definition native_value (data : gmap string pyval) : pyval :=
  if PyVal.is_empty data then PNone else PyVal.get data "device_mode".

Definition extra_state_attributes (data : gmap string pyval)
    : gmap string pyval :=
  if PyVal.is_empty data then ∅
  else <["raw_status" := PyVal.get data "raw_status"]>
         {[ "device_mode_value" := PyVal.get data "device_mode_value" ]}.

End PanasonicDeviceModeSensor.

Module PanasonicPlaybackStateSensor.

Definition native_value (data : gmap string pyval) : pyval :=
  if PyVal.is_empty data then PNone else PyVal.get data "playback_state".

Definition extra_state_attributes (data : gmap string pyval)
    : gmap string pyval :=
  if PyVal.is_empty data then ∅
  else <["raw_pst" := PyVal.get data "raw_pst"]>
         {[ "playback_state_value" := PyVal.get data "playback_state_value" ]}.

End PanasonicPlaybackStateSensor.

Module PanasonicSpeedSensor.

(** Lines 193 to 203: the label of a speed that is a number and not 0. *)
Definition label (speed : pyval) (n : Z) : string :=
  if (10 <=? n) && (n <=? 14) then "FF " ++ PyVal.str_int (n - 9)
  else if (15 <=? n) && (n <=? 18) then "Slow " ++ PyVal.str_int (n - 14)
  else if (20 <=? n) && (n <=? 24) then "REW " ++ PyVal.str_int (n - 19)
  else "Unknown (" ++ PyVal.str_number speed ++ ")".

Definition native_value (data : gmap string pyval) : PyVal.checked pyval :=
  if PyVal.is_empty data then PyVal.Fine PNone
  else
    let speed := PyVal.get_or data "speed_multiplier" (PInt 0) in
    if PyVal.is_None speed then PyVal.Fine PNone
    else if PyVal.equal speed (PInt 0) then PyVal.Fine (PStr "Normal")
    else
      match PyVal.number speed with
      | Some n => PyVal.Fine (PStr (label speed n))
      | None => PyVal.TypeError
      end.

Definition extra_state_attributes (data : gmap string pyval)
    : gmap string pyval :=
  if PyVal.is_empty data then ∅
  else {[ "speed_multiplier" := PyVal.get data "speed_multiplier" ]}.

End PanasonicSpeedSensor.

Module PanasonicClockSensor.

Definition native_value (data : gmap string pyval) : pyval :=
  if PyVal.is_empty data then PNone else PyVal.get data "clock_time".

End PanasonicClockSensor.

(** ** Speed select ([select.py]) *)

(** The entries of the dictionary literal [SPEED_OPTIONS], in source order:
    display name, command, speed multiplier. *)
Definition SPEED_OPTIONS_items : list (string * (string * Z)) :=
  [ ("REW 5", ("SEARCH_REV5", 24));
    ("REW 4", ("SEARCH_REV4", 23));
    ("REW 3", ("SEARCH_REV3", 22));
    ("REW 2", ("SEARCH_REV2", 21));
    ("REW 1", ("SEARCH_REV1", 20));
    ("Normal", ("PLAYBACK", 0));
    ("FF 1", ("SEARCH_FWD1", 10));
    ("FF 2", ("SEARCH_FWD2", 11));
    ("FF 3", ("SEARCH_FWD3", 12));
    ("FF 4", ("SEARCH_FWD4", 13));
    ("FF 5", ("SEARCH_FWD5", 14)) ].

Definition SPEED_OPTIONS : gmap string (string * Z) :=
  foldl (fun m kv => <[kv.1 := kv.2]> m) ∅ SPEED_OPTIONS_items.

(** [{v[1]: k for k, v in SPEED_OPTIONS.items()}] *)
Definition SPEED_VALUE_TO_NAME : gmap Z string :=
  foldl (fun m kv => <[kv.2.2 := kv.1]> m) ∅ SPEED_OPTIONS_items.

Module PanasonicSpeedSelect.

(** [list(SPEED_OPTIONS.keys())] *)
Definition _attr_options : list string := SPEED_OPTIONS_items.*1.

(** [SPEED_VALUE_TO_NAME.get(speed, "Normal")]: a number finds the key
    equal to it, any other value finds none. *)
Definition current_option (data : gmap string pyval) : option string :=
  if PyVal.is_empty data then None
  else
    let speed := PyVal.get_or data "speed_multiplier" (PInt 0) in
    if PyVal.is_None speed then None
    else
      match PyVal.number speed with
      | Some n => Some (default "Normal" (SPEED_VALUE_TO_NAME !! n))
      | None => Some "Normal"
      end.

Section Commands.
Context {Device : Type} `{!Transport Device}.

Definition select_option (option : string) (d : Device) : Device :=
  match SPEED_OPTIONS !! option with
  | None => d
  | Some (command, _) =>
      let '(success, code, d) := send_command command d in
      d
  end.

End Commands.

End PanasonicSpeedSelect.

(** ** Tray switch ([switch.py]) *)

Module PanasonicTraySwitch.

Definition is_on (data : gmap string pyval) : pyval :=
  if PyVal.is_empty data then PNone else PyVal.get data "tray_open".

Section Commands.
Context {Device : Type} `{!Transport Device}.

Definition turn_on (d : Device) : Device := (open_tray d).2.
Definition turn_off (d : Device) : Device := (close_tray d).2.

End Commands.

End PanasonicTraySwitch.

(** ** Remote ([remote.py]) *)

(** [time.sleep(secs)].  The call looks at the delay before it waits:
    [sleep_refuses secs] is the exception it raises for a delay it does not
    take ([ValueError] for a negative one), and then no time passes;
    [sleep secs d] is the world after waiting for a delay it takes. *)
Class Sleeper (Delay Device : Type) := {
  sleep_refuses : Delay -> option Py.exception;
  sleep : Delay -> Device -> Device;
}.

Module PanasonicBluRayRemote.

Definition AVAILABLE_COMMANDS : list string :=
  [ "POWER"; "POWERON"; "POWEROFF"; "PLAY"; "PLAYBACK"
   ; "PAUSE"; "STOP"; "MEDIA_PLAY"; "MEDIA_PAUSE"; "MEDIA_PLAY_PAUSE"
   ; "MEDIA_STOP"; "UP"; "DOWN"; "LEFT"; "RIGHT"
   ; "SELECT"; "OK"; "RETURN"; "BACK"; "DPAD_UP"
   ; "DPAD_DOWN"; "DPAD_LEFT"; "DPAD_RIGHT"; "DPAD_CENTER"; "EXIT"
   ; "HOME"; "MENU"; "TITLE"; "POPUP"; "PUPMENU"
   ; "SETUP"; "SKIPFWD"; "SKIPREV"; "NEXT"; "PREV"
   ; "PREVIOUS"; "MEDIA_NEXT"; "MEDIA_PREVIOUS"; "CUE"; "FF"
   ; "SEARCH_FWD1"; "SEARCH_FWD2"; "SEARCH_FWD3"; "SEARCH_FWD4"; "SEARCH_FWD5"
   ; "REV"; "REW"; "SEARCH_REV1"; "SEARCH_REV2"; "SEARCH_REV3"
   ; "SEARCH_REV4"; "SEARCH_REV5"; "SLOW_FWD1"; "SLOW_FWD2"; "SLOW_FWD3"
   ; "SLOW_FWD4"; "SLOW_FWD5"; "FRAMEADV"; "REVERSEFRAMEADV"; "OP_CL"
   ; "EJECT"; "TRAYOPEN"; "TRAYCLOSE"; "RED"; "GREEN"
   ; "YELLOW"; "BLUE"; "0"; "1"; "2"
   ; "3"; "4"; "5"; "6"; "7"
   ; "8"; "9"; "D0"; "D1"; "D2"
   ; "D3"; "D4"; "D5"; "D6"; "D7"
   ; "D8"; "D9"; "AUDIOSEL"; "AUDIO"; "SUB_TITLE"
   ; "SUBTITLE"; "DETAIL"; "INFO"; "DSPSEL"; "DISPLAY"
   ; "OSDONOFF"; "3D"; "PICTMD"; "PICTURESETTINGS"; "HDR_PICTUREMODE"
   ; "NETFLIX"; "NETWORK"; "MIRACAST" ].

Definition is_on (data : gmap string pyval) : pyval :=
  if PyVal.is_empty data then PNone else PyVal.get data "is_on".

Section Commands.
Context {Delay Device : Type} `{!Transport Device, !Sleeper Delay Device}.

Definition turn_off (d : Device) : Device := (power_off d).2.
Definition turn_on (d : Device) : Device := (power_on d).2.

(** Up to the entity's own [send_command] below, [send_command] is the
    client's ([self.coordinator.api.send_command]). *)
Definition toggle (d : Device) : Device :=
  let '(_, _, d) := send_command "POWER" d in d.

(** The inner loop of [send_command]: each command sent, then the delay.
    An exception of [time.sleep] ends the loop and goes to the caller. *)
Fixpoint send_each (command : list string) (delay_secs : Delay) (d : Device)
    : Py.outcome () * Device :=
  match command with
  | [] => (mret (), d)
  | single_command :: rest =>
      let '(success, code, d) := send_command single_command d in
      match sleep_refuses delay_secs with
      | Some e => (Py.Raises e, d)
      | None => send_each rest delay_secs (sleep delay_secs d)
      end
  end.

(** [for _ in range(num_repeats)] around the inner loop. *)
Fixpoint repeat_send (times : nat) (command : list string) (delay_secs : Delay)
    (d : Device) : Py.outcome () * Device :=
  match times with
  | O => (mret (), d)
  | S times =>
      match send_each command delay_secs d with
      | (Py.Returned _, d) => repeat_send times command delay_secs d
      | (Py.Raises e, d) => (Py.Raises e, d)
      end
  end.

(** [num_repeats] and [delay_secs] are the values [kwargs.get] gives, the
    host's defaults when the caller names none. *)
Definition send_command (command : list string) (num_repeats : Z)
    (delay_secs : Delay) (d : Device) : Py.outcome () * Device :=
  repeat_send (Z.to_nat num_repeats) command delay_secs d.

End Commands.

End PanasonicBluRayRemote.

(** ** Media player ([media_player.py]) *)

Module PanasonicBluRayMediaPlayer.

(** The attributes of the entity the code writes. *)
Record t := {
  _attr_state : pyval;
  _attr_media_position : pyval;
  _attr_media_position_updated_at : pyval;
  _attr_media_duration : pyval;
}.

(** [__init__]; the host's class gives [None] as the first
    [media_position_updated_at]. *)
Definition init : t :=
  {| _attr_state := PState MediaPlayerState.OFF;
     _attr_media_position := PInt 0;
     _attr_media_position_updated_at := PNone;
     _attr_media_duration := PInt 0 |}.

(** [if data.get(key): attrs[key] = data.get(key)] *)
Definition copy_if_truthy (data : gmap string pyval) (key : string)
    (attrs : gmap string pyval) : gmap string pyval :=
  if PyVal.truthy (PyVal.get data key)
  then <[key := PyVal.get data key]> attrs
  else attrs.

(** [if data.get(key) is not None: attrs[key] = data.get(key)] *)
Definition copy_if_not_None (data : gmap string pyval) (key : string)
    (attrs : gmap string pyval) : gmap string pyval :=
  if negb (PyVal.is_None (PyVal.get data key))
  then <[key := PyVal.get data key]> attrs
  else attrs.

Definition extra_state_attributes (data : gmap string pyval)
    : gmap string pyval :=
  if PyVal.is_empty data then ∅
  else
    let attrs : gmap string pyval := ∅ in
    let attrs := copy_if_truthy data "device_mode" attrs in
    let attrs := copy_if_truthy data "playback_state" attrs in
    let attrs := copy_if_not_None data "speed_multiplier" attrs in
    let attrs := copy_if_truthy data "clock_time" attrs in
    let attrs := copy_if_not_None data "tray_open" attrs in
    attrs.

Definition _update_from_data (data : gmap string pyval) (self : t) : t :=
  {| _attr_state := PyVal.get data "state";
     _attr_media_position := PyVal.get data "media_position";
     _attr_media_position_updated_at :=
       PyVal.get data "media_position_updated_at";
     _attr_media_duration := PyVal.get data "media_duration" |}.

Definition set_state (state : pyval) (self : t) : t :=
  {| _attr_state := state;
     _attr_media_position := _attr_media_position self;
     _attr_media_position_updated_at := _attr_media_position_updated_at self;
     _attr_media_duration := _attr_media_duration self |}.

Section Commands.
Context {Device : Type} `{!Transport Device}.

Definition turn_off (self : t) (d : Device) : t * Device :=
  let d :=
    if negb (PyVal.equal (_attr_state self) (PState MediaPlayerState.OFF))
    then (power_off d).2
    else d in
  (set_state (PState MediaPlayerState.OFF) self, d).

Definition turn_on (self : t) (d : Device) : t * Device :=
  let d :=
    if PyVal.equal (_attr_state self) (PState MediaPlayerState.OFF)
    then (power_on d).2
    else d in
  (set_state (PState MediaPlayerState.IDLE) self, d).

Definition media_play (d : Device) : Device := (play d).2.
Definition media_pause (d : Device) : Device := (pause d).2.
Definition media_stop (d : Device) : Device := (stop d).2.
Definition media_next_track (d : Device) : Device := (next_track d).2.
Definition media_previous_track (d : Device) : Device := (previous_track d).2.

End Commands.

End PanasonicBluRayMediaPlayer.

(** ** Configuration check ([config_flow.py], [validate_input]) *)

(** The network with every host behind it: [post_to host data w] posts
    [data] to the endpoint of [host]. *)
Class Network (World : Type) :=
  post_to : string -> string -> World -> reply * World.

(** [PanasonicBlurayAPI(host)]: the client bound to one host. *)
Definition endpoint {World : Type} `{!Network World} (host : string)
    : Transport World :=
  post_to host.

(** What [validate_input] gives: the configuration, a [KeyError] of
    [user_input[CONF_HOST]], or an exception of the status query. *)
Inductive validation :=
  | Config (config : gmap string string)
  | KeyError
  | Failed (e : Py.exception).

Section Validation.
Context {World : Type} `{!Network World}.

(** [CONF_HOST] is the host's constant [host]; the schema of the form makes
    every value a string.  [config.update(user_input)] lets the user's
    entries win. *)
Definition validate_input (user_input : gmap string string) (w : World)
    : validation * World :=
  match user_input !! "host" with
  | None => (KeyError, w)
  | Some host =>
      match @get_player_status World (endpoint host) w with
      | (Py.Returned status, w) =>
          let config : gmap string string :=
            match status with
            | None =>
                {[ "error" :=
                     "Could not connect to Panasonic device at " ++ host ]}
            | Some _ => ∅
            end in
          (Config (user_input ∪ config), w)
      | (Py.Raises e, w) => (Failed e, w)
      end
  end.

End Validation.

(** ** A world that keeps a record of what the client did to it *)

(** One thing done to the world: a body posted, a delay waited. *)
Inductive event (Delay : Type) :=
  | Posted (data : string)
  | Slept (delay : Delay).
Arguments Posted {Delay} data.
Arguments Slept {Delay} delay.

(** A world with the events so far, oldest first. *)
Record traced (Delay Device : Type) := {
  trace : list (event Delay);
  world : Device;
}.
Arguments trace {Delay Device} t.
Arguments world {Delay Device} t.

Definition logged {Delay Device : Type} (e : event Delay) (d : Device)
    (t : traced Delay Device) : traced Delay Device :=
  {| trace := trace t ++ [e]; world := d |}.

#[global] Instance traced_transport {Delay Device : Type} `{!Transport Device}
  : Transport (traced Delay Device) := fun data t =>
  let '(r, d) := urlopen data (world t) in
  (r, logged (Posted data) d t).

#[global] Instance traced_clock {Delay Device : Type} `{!Clock Device}
  : Clock (traced Delay Device) := fun t => utcnow (world t).

#[global] Instance traced_sleeper {Delay Device : Type} `{!Sleeper Delay Device}
  : Sleeper Delay (traced Delay Device) :=
  {| sleep_refuses := sleep_refuses (Device := Device);
     sleep := fun delay t => logged (Slept delay) (sleep delay (world t)) t |}.

(** Waiting does nothing to the player with fixed answers; delays are whole
    seconds there, and a negative one is refused. *)
#[global] Instance canned_sleeper : Sleeper Z canned :=
  {| sleep_refuses := fun delay =>
       if bool_decide (delay < 0) then Some Py.ValueError else None;
     sleep := fun _ c => c |}.

(** A traced world with nothing done yet. *)
Definition untouched {Delay Device : Type} (d : Device) : traced Delay Device :=
  {| trace := []; world := d |}.

(** Two decimal digits. *)
Definition two_digits (n : Z) : string :=
  String (Ascii.ascii_of_nat (48 + Z.to_nat (n / 10)))
    (String (Ascii.ascii_of_nat (48 + Z.to_nat (n mod 10))) EmptyString).

(** What sending the commands of a list leaves in the record: each body
    posted, each followed by the delay. *)
Definition sent_each {Delay : Type} (command : list string) (delay_secs : Delay)
    : list (event Delay) :=
  flat_map (fun c => [Posted (form_body (api_cmd c)); Slept delay_secs]) command.

(** The player answers the body [data] with a response whose code is 00. *)
Definition replies_ok {Device : Type} `{!Transport Device} (data : string)
    (d : Device) : Prop :=
  exists raw d' first rest,
    urlopen data d = (Body raw, d') /\
    Py.split CRLF raw = first :: rest /\
    code_of_first_line first "00".

(** * Properties *)

(** ** The string built-ins *)

Module PyFacts.

Lemma app_cons (c : ascii) (s t : string) : String c s ++ t = String c (s ++ t).
Proof. reflexivity. Qed.

Lemma prefix_empty (s : string) : String.prefix EmptyString s = true.
Proof. by destruct s. Qed.

Lemma prefix_cons (a c : ascii) (p s : string) :
  String.prefix (String a p) (String c s) = true <-> a = c /\ String.prefix p s = true.
Proof.
  simpl. destruct (Ascii.ascii_dec a c) as [->|Hne]; [tauto|].
  split; [done|]. intros [? _]. done.
Qed.

(** A prefix stays one when text is added at the end. *)
Lemma prefix_app_r (p s t : string) :
  String.prefix p s = true -> String.prefix p (s ++ t) = true.
Proof.
  revert s. induction p as [|a p IH]; intros s Hp.
  - apply prefix_empty.
  - destruct s as [|c s]; [done|].
    apply prefix_cons in Hp as [-> Hp]. rewrite app_cons.
    apply prefix_cons. auto.
Qed.

(** A prefix, cut off, leaves the rest. *)
Lemma prefix_drop (p s : string) :
  String.prefix p s = true -> s = p ++ Py.drop (String.length p) s.
Proof.
  revert s. induction p as [|a p IH]; intros s Hp.
  - by destruct s.
  - destruct s as [|c s]; [done|].
    apply prefix_cons in Hp as [-> Hp]. rewrite app_cons. simpl. f_equal. by apply IH.
Qed.

(** A text begins with a prefix exactly when it is the prefix followed by
    some rest. *)
Lemma startswith_iff (p s : string) :
  Py.startswith p s = true <-> exists rest, s = p ++ rest.
Proof.
  unfold Py.startswith. split.
  - intros Hp. eexists. by apply prefix_drop.
  - intros [rest ->]. induction p as [|a p IH]; [apply prefix_empty|].
    rewrite app_cons. by apply prefix_cons.
Qed.

Lemma drop_length_le (n : nat) (s : string) :
  (String.length (Py.drop n s) <= String.length s)%nat.
Proof.
  revert s. induction n as [|n IH]; intros [|c s]; simpl; try lia.
  specialize (IH s). lia.
Qed.

Lemma split_go_skip (sep : string) (m : option nat) (k : nat) (s : string) :
  Py.split_go sep m k s = Py.split_go sep m 0 (Py.drop k s).
Proof.
  revert k. induction s as [|c s IH]; intros [|k]; try reflexivity.
  simpl Py.drop. rewrite <- IH. reflexivity.
Qed.

(** The unfolding of [split_go] the proofs go by. *)
Lemma split_go_cons (sep : string) (m : option nat) (c : ascii) (s : string) :
  sep <> EmptyString ->
  Py.split_go sep m 0 (String c s) =
    if Py.may_split m && String.prefix sep (String c s)
    then EmptyString
         :: Py.split_go sep (Py.one_less m) 0
              (Py.drop (String.length sep) (String c s))
    else Py.cons_head c (Py.split_go sep m 0 s).
Proof.
  intros Hsep. cbn [Py.split_go]. destruct (_ && _) eqn:E; [|done].
  rewrite split_go_skip. by destruct sep.
Qed.

Lemma split_go_nonempty (sep : string) (m : option nat) (k : nat) (s : string) :
  Py.split_go sep m k s <> [].
Proof.
  revert m k. induction s as [|c s IH]; intros m [|k]; simpl; try done.
  destruct (_ && _); [done|].
  specialize (IH m 0%nat). by destruct (Py.split_go sep m 0 s).
Qed.

Lemma split_nonempty (sep s : string) : Py.split sep s <> [].
Proof. apply split_go_nonempty. Qed.

Lemma join_cons_head (sep : string) (c : ascii) (l : list string) :
  l <> [] -> Py.join sep (Py.cons_head c l) = String c (Py.join sep l).
Proof. destruct l as [|p [|q l]]; done. Qed.

Lemma join_cons (sep p : string) (l : list string) :
  l <> [] -> Py.join sep (p :: l) = p ++ sep ++ Py.join sep l.
Proof. by destruct l. Qed.

(** Splitting loses nothing: joining the pieces with the separator gives
    the text back. *)
Lemma join_split_go (sep : string) (m : option nat) (s : string) :
  sep <> EmptyString -> Py.join sep (Py.split_go sep m 0 s) = s.
Proof.
  intros Hsep. remember (String.length s) as n eqn:Hn.
  revert m s Hn. induction (lt_wf n) as [n _ IH]. intros m [|c s] Hn; [done|].
  rewrite split_go_cons by done. destruct (_ && _) eqn:E.
  - apply andb_true_iff in E as [_ Hp].
    rewrite join_cons by apply split_go_nonempty.
    rewrite (IH (String.length (Py.drop (String.length sep) (String c s)))); [|..|done].
    + by rewrite <- prefix_drop.
    + subst n. destruct sep as [|a sep]; [done|]. simpl.
      pose proof (drop_length_le (String.length sep) s). lia.
  - rewrite join_cons_head by apply split_go_nonempty.
    f_equal. apply (IH (String.length s)); [subst n; simpl; lia|done].
Qed.

Lemma join_split (sep s : string) :
  sep <> EmptyString -> Py.join sep (Py.split sep s) = s.
Proof. apply join_split_go. Qed.

Lemma app_empty_r (s : string) : s ++ EmptyString = s.
Proof. induction s as [|c s IH]; [done|]. by rewrite app_cons, IH. Qed.

(** The first piece is where the joined text starts. *)
Lemma join_head (sep p : string) (l : list string) :
  exists t, Py.join sep (p :: l) = p ++ t.
Proof.
  destruct l as [|q l].
  - exists EmptyString. by rewrite app_empty_r.
  - by eexists.
Qed.

Lemma contains_cons (sub : string) (c : ascii) (s : string) :
  Py.contains sub (String c s) = String.prefix sub (String c s) || Py.contains sub s.
Proof. reflexivity. Qed.

Lemma contains_empty (sub : string) :
  sub <> EmptyString -> Py.contains sub EmptyString = false.
Proof. by destruct sub. Qed.

(** The piece being read when a character is put in front of it. *)
Lemma cons_head_free (sep : string) (c : ascii) (s : string) (l : list string) :
  sep <> EmptyString ->
  Py.join sep l = s -> l <> [] ->
  String.prefix sep (String c s) = false ->
  Forall (fun p => Py.contains sep p = false) l ->
  Forall (fun p => Py.contains sep p = false) (Py.cons_head c l).
Proof.
  intros Hsep Hjoin Hne Hpre Hall. destruct l as [|p l]; [done|].
  apply Forall_cons in Hall as [Hp Hl]. apply Forall_cons. split; [|done].
  rewrite contains_cons, Hp, orb_false_r.
  destruct (String.prefix sep (String c p)) eqn:E; [|done].
  destruct (join_head sep p l) as [t Ht]. rewrite Ht in Hjoin. subst s.
  by rewrite <- app_cons, (prefix_app_r _ _ _ E) in Hpre.
Qed.

(** No piece of an unlimited split holds the separator. *)
Lemma split_pieces_free (sep s : string) :
  sep <> EmptyString ->
  Forall (fun p => Py.contains sep p = false) (Py.split sep s).
Proof.
  intros Hsep. unfold Py.split. remember (String.length s) as n eqn:Hn.
  revert s Hn. induction (lt_wf n) as [n _ IH]. intros [|c s] Hn.
  - repeat constructor. by apply contains_empty.
  - rewrite split_go_cons by done. simpl Py.may_split. rewrite andb_true_l.
    destruct (String.prefix sep (String c s)) eqn:E.
    + constructor; [by apply contains_empty|].
      apply (IH (String.length (Py.drop (String.length sep) (String c s)))); [|done].
      subst n. destruct sep as [|a sep]; [done|]. simpl.
      pose proof (drop_length_le (String.length sep) s). lia.
    + apply (cons_head_free sep c s); try done.
      * by apply join_split_go.
      * apply split_go_nonempty.
      * apply (IH (String.length s)); [subst n; simpl; lia|done].
Qed.

Lemma split_go_no_more (sep s : string) : Py.split_go sep (Some 0%nat) 0 s = [s].
Proof. induction s as [|c s IH]; [done|]. simpl. by rewrite IH. Qed.

(** A text without the separator is one piece. *)
Lemma split_go_absent (sep : string) (m : option nat) (s : string) :
  Py.contains sep s = false -> Py.split_go sep m 0 s = [s].
Proof.
  induction s as [|c s IH]; [done|]. rewrite contains_cons.
  intros [Hp Hc]%orb_false_iff. cbn [Py.split_go].
  rewrite Hp, andb_false_r, IH by done. done.
Qed.

(** [s.split(sep, 1)] cuts at the first separator. *)
Lemma split_once (sep s : string) :
  sep <> EmptyString -> Py.contains sep s = true ->
  exists before after,
    Py.split_max sep 1 s = [before; after] /\
    s = before ++ sep ++ after /\
    Py.contains sep before = false.
Proof.
  intros Hsep. unfold Py.split_max. induction s as [|c s IH].
  - by rewrite contains_empty.
  - rewrite contains_cons. intros Hc. rewrite split_go_cons by done.
    simpl Py.may_split. rewrite andb_true_l.
    destruct (String.prefix sep (String c s)) eqn:E.
    + exists EmptyString, (Py.drop (String.length sep) (String c s)).
      simpl Py.one_less. rewrite split_go_no_more.
      split_and!; [done|by apply prefix_drop|by apply contains_empty].
    + destruct (IH Hc) as (before & after & Hs & Heq & Hfree).
      exists (String c before), after. rewrite Hs. split_and!; [done|by rewrite Heq|].
      rewrite contains_cons, Hfree, orb_false_r.
      destruct (String.prefix sep (String c before)) eqn:E'; [|done].
      by rewrite Heq, <- app_cons, (prefix_app_r _ _ _ E') in E.
Qed.

(** *** Code points *)

Lemma decode_cons_ascii (c : ascii) (s : string) :
  (Ascii.N_of_ascii c < 0x80)%N ->
  Py.decode (String c s) = Ascii.N_of_ascii c :: Py.decode s.
Proof.
  intros Hc. unfold Py.decode. simpl. unfold Py.head_point.
  by apply N.ltb_lt in Hc as ->.
Qed.

Lemma encode_point_cons (p : N) : exists c t, Py.encode_point p = String c t.
Proof.
  unfold Py.encode_point, Py.byte.
  repeat case_match; rewrite ?app_cons; eauto.
Qed.

(** Only the empty sequence of code points is written as the empty text. *)
Lemma encode_truthy (points : list N) :
  Py.truthy (Py.encode points) = bool_decide (points <> []).
Proof.
  destruct points as [|p rest]; [done|]. simpl.
  destruct (encode_point_cons p) as (c & t & ->). by rewrite app_cons.
Qed.

Lemma byte_of_ascii (b : ascii) : Py.byte (Ascii.N_of_ascii b) = String b EmptyString.
Proof. unfold Py.byte. by rewrite Ascii.ascii_N_embedding. Qed.

Lemma continuation_Some (b : ascii) (c : N) :
  Py.continuation b = Some c ->
  (c < 0x40)%N /\ Ascii.N_of_ascii b = (0x80 + c)%N.
Proof.
  unfold Py.continuation. case_match eqn:E; [|done].
  apply andb_true_iff in E as [?%N.leb_le ?%N.ltb_lt]. intros [= <-]. lia.
Qed.

Ltac split_ltb :=
  repeat match goal with
         | |- context [(?a <? ?b)%N] => destruct (N.ltb_spec a b); [try lia|try lia]
         end.

Lemma div_by (b a r : N) : (r < b)%N -> ((a * b + r) / b = a)%N.
Proof. intros Hr. symmetry. apply (N.div_unique _ _ a r); lia. Qed.

Lemma mod_by (b a r : N) : (r < b)%N -> ((a * b + r) mod b = r)%N.
Proof. intros Hr. symmetry. apply (N.mod_unique _ _ a r); lia. Qed.

Lemma two_bytes_encode (n0 c1 p : N) :
  (c1 < 0x40)%N -> Py.two_bytes n0 c1 = Some p ->
  Py.encode_point p = Py.byte n0 ++ Py.byte (0x80 + c1).
Proof.
  intros Hc1. unfold Py.two_bytes. case_match eqn:E; [|done].
  apply andb_true_iff in E as [?%N.leb_le ?%N.ltb_lt]. intros [= <-].
  unfold Py.encode_point. split_ltb.
  rewrite (div_by 0x40), (mod_by 0x40) by done.
  by replace (0xC0 + (n0 - 0xC0))%N with n0 by lia.
Qed.

Lemma three_bytes_encode (n0 c1 c2 p : N) :
  (c1 < 0x40)%N -> (c2 < 0x40)%N -> Py.three_bytes n0 c1 c2 = Some p ->
  Py.encode_point p = Py.byte n0 ++ Py.byte (0x80 + c1) ++ Py.byte (0x80 + c2).
Proof.
  intros Hc1 Hc2. unfold Py.three_bytes. case_match eqn:E; [|done].
  apply andb_true_iff in E as [E _].
  apply andb_true_iff in E as [E ?%N.leb_le].
  apply andb_true_iff in E as [?%N.leb_le ?%N.ltb_lt]. intros [= <-].
  unfold Py.encode_point. split_ltb.
  rewrite (mod_by 0x40), (div_by 0x40), (mod_by 0x40) by done.
  replace (((n0 - 0xE0) * 0x40 + c1) * 0x40 + c2)%N
    with ((n0 - 0xE0) * 0x1000 + (c1 * 0x40 + c2))%N by lia.
  rewrite (div_by 0x1000) by lia.
  by replace (0xE0 + (n0 - 0xE0))%N with n0 by lia.
Qed.

Lemma four_bytes_encode (n0 c1 c2 c3 p : N) :
  (c1 < 0x40)%N -> (c2 < 0x40)%N -> (c3 < 0x40)%N ->
  Py.four_bytes n0 c1 c2 c3 = Some p ->
  Py.encode_point p =
    Py.byte n0 ++ Py.byte (0x80 + c1) ++ Py.byte (0x80 + c2) ++ Py.byte (0x80 + c3).
Proof.
  intros Hc1 Hc2 Hc3. unfold Py.four_bytes. case_match eqn:E; [|done].
  apply andb_true_iff in E as [E ?%N.ltb_lt].
  apply andb_true_iff in E as [E ?%N.leb_le].
  apply andb_true_iff in E as [?%N.leb_le ?%N.ltb_lt]. intros [= <-].
  unfold Py.encode_point. split_ltb.
  rewrite (mod_by 0x40), (div_by 0x40), (mod_by 0x40) by done.
  replace ((((n0 - 0xF0) * 0x40 + c1) * 0x40 + c2) * 0x40 + c3)%N
    with (((n0 - 0xF0) * 0x40 + c1) * 0x1000 + (c2 * 0x40 + c3))%N at 2 by lia.
  rewrite (div_by 0x1000), (mod_by 0x40) by lia.
  replace ((((n0 - 0xF0) * 0x40 + c1) * 0x40 + c2) * 0x40 + c3)%N
    with ((n0 - 0xF0) * 0x40000 + ((c1 * 0x40 + c2) * 0x40 + c3))%N by lia.
  rewrite (div_by 0x40000) by lia.
  by replace (0xF0 + (n0 - 0xF0))%N with n0 by lia.
Qed.

Lemma head_point_bytes (b : ascii) (s : string) (p : N) (more : nat) :
  Py.head_point b s = (p, more) ->
  (more <= String.length s)%nat /\
  Py.encode_point p ++ Py.drop more s = String b s.
Proof.
  unfold Py.head_point.
  destruct (N.ltb_spec (Ascii.N_of_ascii b) 0x80) as [Hn0|Hn0].
  { intros [= <- <-]. split; [simpl; lia|].
    unfold Py.encode_point. apply N.ltb_lt in Hn0 as ->.
    by rewrite byte_of_ascii. }
  assert ((0 <= String.length s)%nat /\
          Py.encode_point (Py.stray (Ascii.N_of_ascii b)) ++ Py.drop 0 s = String b s)
    as Hstray.
  { split; [lia|]. unfold Py.encode_point, Py.stray. split_ltb.
    replace (0x110000 + Ascii.N_of_ascii b - 0x110000)%N with (Ascii.N_of_ascii b) by lia.
    rewrite byte_of_ascii. by destruct s. }
  destruct s as [|b1 s1]; [by intros [= <- <-]|].
  destruct (Py.continuation b1) as [c1|] eqn:H1; [|by intros [= <- <-]].
  apply continuation_Some in H1 as [Hc1 Hb1].
  destruct (Py.two_bytes _ c1) as [p2|] eqn:H2.
  { intros [= <- <-]. split; [simpl; lia|].
    rewrite (two_bytes_encode _ _ _ Hc1 H2), <- Hb1, !byte_of_ascii. done. }
  destruct s1 as [|b2 s2]; [by intros [= <- <-]|].
  destruct (Py.continuation b2) as [c2|] eqn:H2'; [|by intros [= <- <-]].
  apply continuation_Some in H2' as [Hc2 Hb2].
  destruct (Py.three_bytes _ c1 c2) as [p3|] eqn:H3.
  { intros [= <- <-]. split; [simpl; lia|].
    rewrite (three_bytes_encode _ _ _ _ Hc1 Hc2 H3), <- Hb1, <- Hb2, !byte_of_ascii. done. }
  destruct s2 as [|b3 s3]; [by intros [= <- <-]|].
  destruct (Py.continuation b3) as [c3|] eqn:H3'; [|by intros [= <- <-]].
  apply continuation_Some in H3' as [Hc3 Hb3].
  destruct (Py.four_bytes _ c1 c2 c3) as [p4|] eqn:H4; [|by intros [= <- <-]].
  intros [= <- <-]. split; [simpl; lia|].
  rewrite (four_bytes_encode _ _ _ _ _ Hc1 Hc2 Hc3 H4), <- Hb1, <- Hb2, <- Hb3, !byte_of_ascii.
  done.
Qed.

Lemma encode_decode_go (s : string) (skip : nat) :
  (skip <= String.length s)%nat ->
  Py.encode (Py.decode_go skip s) = Py.drop skip s.
Proof.
  revert skip. induction s as [|b s IH]; intros skip Hskip.
  - by destruct skip.
  - destruct skip as [|k]; simpl.
    + destruct (Py.head_point b s) as [p more] eqn:Hhead.
      apply head_point_bytes in Hhead as [Hmore Hbytes].
      simpl. by rewrite IH.
    + apply IH. simpl in Hskip. lia.
Qed.

(** Reading the code points of a text loses nothing: writing them gives
    the text back. *)
Lemma encode_decode (s : string) : Py.encode (Py.decode s) = s.
Proof.
  unfold Py.decode. rewrite encode_decode_go by lia. by destruct s.
Qed.

(** *** Blank lines *)

Lemma isspace_white_space (p : N) : Py.isspace p = true <-> p ∈ white_space.
Proof.
  unfold Py.isspace, white_space.
  rewrite !orb_true_iff, !andb_true_iff, !N.leb_le, !N.eqb_eq.
  rewrite !elem_of_cons, elem_of_nil. lia.
Qed.

Lemma blank_empty : blank EmptyString.
Proof. constructor. Qed.

Lemma lstrip_blank (points : list N) :
  Forall (fun p => p ∈ white_space) points -> Py.lstrip points = [].
Proof.
  induction 1 as [|p rest Hp%isspace_white_space _ IH]; [done|].
  simpl. by rewrite Hp.
Qed.

Lemma lstrip_not_blank (points : list N) :
  ~ Forall (fun p => p ∈ white_space) points ->
  exists p rest, Py.lstrip points = p :: rest /\ Py.isspace p = false.
Proof.
  induction points as [|p rest IH]; intros Hnb.
  - destruct Hnb. constructor.
  - simpl. destruct (Py.isspace p) eqn:E; [|by eauto].
    apply IH. intros Hs. apply Hnb. constructor; [|done].
    by apply isspace_white_space.
Qed.

Lemma rstrip_keeps (p : N) (rest : list N) :
  Py.isspace p = false -> Py.rstrip (p :: rest) <> [].
Proof. intros Hp. simpl. rewrite Hp. by destruct (Py.rstrip rest). Qed.

(** A line passes the filter of [_send_raw] exactly when it is not blank. *)
Lemma strip_truthy (s : string) :
  Py.truthy (Py.strip s) = bool_decide (~ blank s).
Proof.
  unfold Py.strip, blank. rewrite encode_truthy. apply bool_decide_ext.
  destruct (decide (Forall (fun p => p ∈ white_space) (Py.decode s))) as [Hb|Hb].
  - rewrite lstrip_blank by done. naive_solver.
  - destruct (lstrip_not_blank _ Hb) as (p & rest & -> & Hp).
    pose proof (rstrip_keeps p rest Hp). naive_solver.
Qed.

(** *** Integers *)

Lemma digit_value_bounds (c : ascii) (d : Z) :
  Py.digit_value c = Some d -> 0 <= d <= 9.
Proof.
  unfold Py.digit_value. case_match eqn:E; [|done].
  apply andb_true_iff in E as [?%N.leb_le ?%N.leb_le]. intros [= <-]. lia.
Qed.

Lemma int_digits_nonneg (prev : Py.int_prev) (acc : Z) (digits : nat)
    (s : string) (v : Z) (n : nat) (rest : string) :
  0 <= acc -> Py.int_digits prev acc digits s = Some (v, n, rest) -> 0 <= v.
Proof.
  revert prev acc digits. induction s as [|c s IH]; intros prev acc digits Hacc; simpl.
  - destruct prev; intros [= <- <- <-]; done.
  - destruct (Ascii.eqb c "_").
    + destruct prev; try done. by apply IH.
    + destruct (Py.digit_value c) as [d|] eqn:Hd.
      * apply IH. apply digit_value_bounds in Hd. lia.
      * destruct prev; intros [= <- <- <-]; done.
Qed.

Lemma int_magnitude_nonneg (s : string) (v : Z) :
  Py.int_magnitude s = Some v -> 0 <= v.
Proof.
  unfold Py.int_magnitude.
  destruct (Py.int_digits _ _ _ _) as [[[v' n] rest]|] eqn:E; [|done].
  intros Hv. apply (int_digits_nonneg _ _ _ _ _ _ _ (Z.le_refl 0)) in E.
  destruct n; [done|]. destruct (Nat.leb _ _); [|done].
  destruct (Py.int_lstrip rest); [|done]. by injection Hv as <-.
Qed.

(** Only a text with a minus sign reads as a negative integer. *)
Lemma int_literal_negative (s : string) (n : Z) :
  Py.int_literal s = Some n -> n < 0 ->
  exists t, Py.int_lstrip s = String "-" t.
Proof.
  unfold Py.int_literal. intros Hv Hn.
  destruct (Py.int_lstrip s) as [|c t] eqn:E.
  { apply int_magnitude_nonneg in Hv. lia. }
  destruct (Ascii.ascii_dec c "-") as [->|Hminus]; [by eauto|].
  exfalso.
  assert (exists u, Py.int_magnitude u = Some n) as [u Hu]; [|apply int_magnitude_nonneg in Hu; lia].
  destruct c as [[] [] [] [] [] [] [] []]; try by eauto.
Qed.

(** *** Upper case *)

(** An ASCII character at the head of a text is turned to upper case on
    its own. *)
Lemma upper_cons_ascii (c : ascii) (s : string) :
  (Ascii.N_of_ascii c < 0x80)%N ->
  Py.upper (String c s) =
    String (Ascii.ascii_of_N
              (let n := Ascii.N_of_ascii c in
               if (0x61 <=? n)%N && (n <=? 0x7A)%N then n - 0x20 else n)%N)
           (Py.upper s).
Proof.
  intros Hc. unfold Py.upper. rewrite decode_cons_ascii by done. simpl.
  unfold Py.upper_char at 1. pose proof Hc as ->%N.ltb_lt. simpl.
  unfold Py.encode_point.
  assert (((if (0x61 <=? Ascii.N_of_ascii c)%N && (Ascii.N_of_ascii c <=? 0x7A)%N
            then Ascii.N_of_ascii c - 0x20 else Ascii.N_of_ascii c) <? 0x80)%N = true)
    as ->; [|reflexivity].
  apply N.ltb_lt. case_match; lia.
Qed.

(** A raw token keeps its first five characters in upper case. *)
Lemma upper_raw_prefix (s : string) :
  String.prefix "cCMD_" s = true -> String.prefix "CCMD_" (Py.upper s) = true.
Proof.
  intros Hp. rewrite (prefix_drop _ _ Hp).
  change ("cCMD_" ++ ?t) with (String "c" (String "C" (String "M" (String "D" (String "_" t))))).
  rewrite !upper_cons_ascii by (vm_compute; reflexivity).
  simpl. by rewrite prefix_empty.
Qed.

End PyFacts.

(** ** The command table *)

Lemma COMMANDS_keys_NoDup : NoDup (COMMANDS_items.*1).
Proof. apply (bool_decide_unpack _). vm_compute. reflexivity. Qed.

(** Writing the entries one after the other gives the map of the list when
    no key comes twice. *)
Lemma foldl_insert_list_to_map (items : list (string * string))
    (m : gmap string string) :
  NoDup (items.*1) ->
  foldl (fun m kv => <[kv.1 := kv.2]> m) m items = list_to_map items ∪ m.
Proof.
  revert m. induction items as [|[k v] items IH]; intros m Hnd; simpl.
  - by rewrite (left_id_L ∅ (∪)).
  - apply NoDup_cons in Hnd as [Hk Hnd]. rewrite IH by done.
    rewrite <- insert_union_l. apply symmetry, insert_union_r.
    by apply not_elem_of_list_to_map.
Qed.

Lemma COMMANDS_list_to_map : COMMANDS = list_to_map COMMANDS_items.
Proof.
  unfold COMMANDS. rewrite foldl_insert_list_to_map by apply COMMANDS_keys_NoDup.
  by rewrite (right_id_L ∅ (∪)).
Qed.

(** The dictionary holds the entries of the literal and nothing else. *)
Lemma COMMANDS_lookup (alias token : string) :
  COMMANDS !! alias = Some token <-> (alias, token) ∈ COMMANDS_items.
Proof.
  rewrite COMMANDS_list_to_map. symmetry.
  apply elem_of_list_to_map, COMMANDS_keys_NoDup.
Qed.

Lemma COMMANDS_lookup_None (alias : string) :
  COMMANDS !! alias = None <-> alias ∉ COMMANDS_items.*1.
Proof.
  rewrite COMMANDS_list_to_map. symmetry. apply not_elem_of_list_to_map.
Qed.

(** No alias begins like an upper-cased raw token. *)
Lemma COMMANDS_no_raw_alias (alias : string) :
  alias ∈ COMMANDS_items.*1 -> String.prefix "CCMD_" alias = false.
Proof.
  revert alias. apply Forall_forall.
  apply (bool_decide_unpack _). vm_compute. reflexivity.
Qed.

(** ** Transport *)

(** What [parse_response] makes of a body; it raises nothing. *)
Lemma parse_response_returns (raw : string) :
  exists first rest code,
    Py.split CRLF raw = first :: rest /\
    code_of_first_line first code /\
    parse_response raw =
      Py.Returned (bool_decide (code = "00"), Some code,
                   List.filter (fun line => bool_decide (~ blank line)) rest).
Proof.
  unfold parse_response, code_of_first_line.
  destruct (Py.split CRLF raw) as [|first rest] eqn:Hlines.
  { by apply PyFacts.split_nonempty in Hlines. }
  assert (forall code : string,
    bool_decide (Some code = Some "00") = bool_decide (code = "00")) as Hcode.
  { intros code. apply bool_decide_ext. naive_solver. }
  assert (List.filter (fun line => Py.truthy (Py.strip line)) rest =
          List.filter (fun line => bool_decide (~ blank line)) rest) as Hfilter.
  { apply List.filter_ext. intros line. apply PyFacts.strip_truthy. }
  exists first, rest. destruct (Py.contains "," first) eqn:Hcomma.
  - destruct (PyFacts.split_once "," first) as (before & after & Hs & Heq & Hfree);
      [done..|].
    exists before. rewrite Hs. simpl. rewrite Hcode, Hfilter. eauto.
  - exists first. simpl. rewrite Hcode, Hfilter. eauto.
Qed.

Section TransportFacts.
Context {Device : Type} `{!Transport Device}.

Lemma send_raw_raised (data : string) (d d' : Device) :
  urlopen data d = (Raised, d') -> _send_raw data d = (false, None, [], d').
Proof. unfold _send_raw. by intros ->. Qed.

(** C5. For every response body the transport reads, the body is split on
    CRLF (the lines joined by CRLF give the body back, and no line holds a
    CRLF); the response code is the text of the first line before its first
    comma, or the whole first line when it has no comma; the data lines are
    the later lines that are not blank, in their order, a line being blank
    when it holds nothing but white space of any script; and success is
    true exactly when the code is the string 00.  The body 01,extra CRLF
    linedata CRLF gives the code 01, the one data line linedata and no
    success.  Of the three lines after the code 00, a no-break space with
    an em space, the text x after a space, and an ideographic space, the
    second alone is a data line. *)
Theorem send_raw_decodes_body (data : string) (d d' : Device) (raw : string) :
  urlopen data d = (Body raw, d') ->
  (exists first rest code,
    Py.split CRLF raw = first :: rest /\
    raw = Py.join CRLF (first :: rest) /\
    Forall (fun line => Py.contains CRLF line = false) (first :: rest) /\
    code_of_first_line first code /\
    _send_raw data d =
      (bool_decide (code = "00"), Some code,
       List.filter (fun line => bool_decide (~ blank line)) rest, d')) /\
  parse_response ("01,extra" ++ CRLF ++ "linedata" ++ CRLF) =
    Py.Returned (false, Some "01", ["linedata"]) /\
  parse_response
    ("00" ++ CRLF ++ Py.encode [0xA0; 0x2003]%N ++ CRLF ++ " x" ++ CRLF
     ++ Py.encode [0x3000]%N ++ CRLF) =
    Py.Returned (true, Some "00", [" x"]).
Proof.
  intros Hopen. split; [|split; vm_compute; reflexivity].
  destruct (parse_response_returns raw) as (first & rest & code & Hs & Hc & Hr).
  exists first, rest, code. split_and!; try done.
  - by rewrite <- Hs, PyFacts.join_split.
  - rewrite <- Hs. by apply PyFacts.split_pieces_free.
  - unfold _send_raw. by rewrite Hopen, Hr.
Qed.

End TransportFacts.

(** ** Status decoders *)

(** The loop over an enumeration finds the member with the wire code, when
    every member is listed and no two share a code. *)
Lemma first_with_value_matched {E : Type} (members : list E)
    (value : E -> string) (unknown : E) (v : string) :
  (forall e, e ∈ members) ->
  (forall a b, value a = value b -> a = b) ->
  matched value unknown v (first_with_value members value v unknown).
Proof.
  intros Hall Hinj. unfold matched, first_with_value.
  destruct (List.find _ members) as [m|] eqn:Hfind.
  - apply List.find_some in Hfind as [_ Hm%String.eqb_eq]. split.
    + intros e He. apply Hinj. congruence.
    + intros Hno. by destruct (Hno m).
  - split; [|done]. intros e He.
    pose proof (List.find_none _ _ Hfind e) as Hne.
    rewrite <- list_elem_of_In in Hne. specialize (Hne (Hall e)).
    apply String.eqb_neq in Hne. done.
Qed.

Lemma PlaybackState_matched (v : string) :
  matched PlaybackState.value PlaybackState.UNKNOWN v
    (first_with_value PlaybackState.members PlaybackState.value v
       PlaybackState.UNKNOWN).
Proof.
  apply first_with_value_matched.
  - intros []; unfold PlaybackState.members; set_solver.
  - by intros [] [].
Qed.

Lemma DeviceMode_matched (v : string) :
  matched DeviceMode.value DeviceMode.UNKNOWN v
    (first_with_value DeviceMode.members DeviceMode.value v DeviceMode.UNKNOWN).
Proof.
  apply first_with_value_matched.
  - intros []; unfold DeviceMode.members; set_solver.
  - by intros [] [].
Qed.

(** [int] under [except ValueError] with 0 kept is [int_default0]. *)
Lemma int_except_default0 (field : string) :
  Py.except_ValueError (Py.int field) 0 = Py.Returned (int_default0 field).
Proof. unfold Py.int, int_default0. by destruct (Py.int_value field). Qed.

(** Three fields at least: the first three are there. *)
Lemma lookup_fields {A : Type} (parts : list A) (n i : nat) :
  (n <= length parts)%nat -> (i < n)%nat -> is_Some (parts !! i).
Proof. intros. apply lookup_lt_is_Some. lia. Qed.

(** What the PST half makes of a first line; it raises nothing. *)
Lemma parse_pst_lines_cons (line : string) (more : list string) :
  let parts := Py.split "," line in
  exists ps pos speed,
    parse_pst_lines (line :: more) = Py.Returned (ps, pos, speed, Some line) /\
    ((length parts < 3)%nat ->
       ps = PlaybackState.UNKNOWN /\ pos = 0 /\ speed = 0) /\
    ((3 <= length parts)%nat ->
       exists f0 f1 f2,
         parts !! 0%nat = Some f0 /\ parts !! 1%nat = Some f1 /\
         parts !! 2%nat = Some f2 /\
         matched PlaybackState.value PlaybackState.UNKNOWN f0 ps /\
         pos = int_default0 f1 /\ speed = int_default0 f2).
Proof.
  intros parts. unfold parse_pst_lines. fold parts.
  destruct (3 <=? length parts)%nat eqn:Hlen.
  - apply Nat.leb_le in Hlen.
    destruct (lookup_fields parts 3 0 Hlen) as [f0 H0]; [lia|].
    destruct (lookup_fields parts 3 1 Hlen) as [f1 H1]; [lia|].
    destruct (lookup_fields parts 3 2 Hlen) as [f2 H2]; [lia|].
    unfold Py.getitem. rewrite H0, H1, H2. simpl.
    change (Py.outcome_bind _ _ Py.int (Py.Returned f1)) with (Py.int f1).
    change (Py.outcome_bind _ _ Py.int (Py.Returned f2)) with (Py.int f2).
    rewrite !int_except_default0. simpl.
    eexists _, _, _. split; [done|]. split; [lia|]. intros _.
    exists f0, f1, f2. split_and!; try done. apply PlaybackState_matched.
  - apply Nat.leb_gt in Hlen. eexists _, _, _. split; [done|].
    split; [done|lia].
Qed.

(** What the STATUS_SIMPLE half makes of a first line; it raises nothing. *)
Lemma parse_status_lines_cons (line : string) (more : list string) :
  let parts := Py.split "," line in
  exists on mode clock,
    parse_status_lines (line :: more) = Py.Returned (on, mode, clock, Some line) /\
    on = negb (bool_decide (mode = DeviceMode.STANDBY)) /\
    ((length parts < 14)%nat -> mode = DeviceMode.UNKNOWN /\ clock = None) /\
    ((14 <= length parts)%nat ->
       exists f3 f13,
         parts !! 3%nat = Some f3 /\ parts !! 13%nat = Some f13 /\
         matched DeviceMode.value DeviceMode.UNKNOWN f3 mode /\
         clock = if decide (f13 = EmptyString) then None else Some f13).
Proof.
  intros parts. unfold parse_status_lines. fold parts.
  destruct (14 <=? length parts)%nat eqn:Hlen.
  - apply Nat.leb_le in Hlen.
    destruct (lookup_fields parts 14 3 Hlen) as [f3 H3]; [lia|].
    destruct (lookup_fields parts 14 13 Hlen) as [f13 H13]; [lia|].
    unfold Py.getitem. rewrite H3, H13. simpl.
    eexists _, _, _. split; [done|]. split; [done|]. split; [lia|]. intros _.
    exists f3, f13. split_and!; try done; [apply DeviceMode_matched|].
    by destruct f13.
  - apply Nat.leb_gt in Hlen. eexists _, _, _. split; [done|].
    split; [done|]. split; [done|lia].
Qed.

Lemma parse_pst_lines_nil :
  parse_pst_lines [] = Py.Returned (PlaybackState.UNKNOWN, 0, 0, None).
Proof. reflexivity. Qed.

Lemma parse_status_lines_nil :
  parse_status_lines [] = Py.Returned (true, DeviceMode.UNKNOWN, None, None).
Proof. reflexivity. Qed.

Lemma parse_pst_lines_returns (pst_lines : list string) :
  exists r, parse_pst_lines pst_lines = Py.Returned r.
Proof.
  destruct pst_lines as [|line more]; [by eexists|].
  destruct (parse_pst_lines_cons line more) as (? & ? & ? & -> & _). by eexists.
Qed.

Lemma parse_status_lines_returns (status_lines : list string) :
  exists r, parse_status_lines status_lines = Py.Returned r.
Proof.
  destruct status_lines as [|line more]; [by eexists|].
  destruct (parse_status_lines_cons line more) as (? & ? & ? & -> & _). by eexists.
Qed.

(** [is_on] is set from the device mode on every path of the STATUS_SIMPLE
    half. *)
Lemma parse_status_lines_is_on (status_lines : list string) (on : bool)
    (mode : DeviceMode.t) (clock raw : option string) :
  parse_status_lines status_lines = Py.Returned (on, mode, clock, raw) ->
  on = negb (bool_decide (mode = DeviceMode.STANDBY)).
Proof.
  destruct status_lines as [|line more].
  - by intros [= <- <- _ _].
  - destruct (parse_status_lines_cons line more) as (? & ? & ? & -> & Hon & _).
    by intros [= <- <- _ _].
Qed.

(** C6. For every PST line the decode raises nothing and keeps the line as
    [raw_pst]; with fewer than 3 comma-separated fields it gives exactly
    UNKNOWN, 0, 0; otherwise field 0 is matched against the PlaybackState
    wire values with UNKNOWN on no match, and fields 1 and 2 are read as
    integers with 0 on parse failure.  The line 1,125,0 gives PLAYING, 125,
    0.  A field is read as [int] reads it: blanks around it, a sign,
    single underscores between digits and the decimal digits of every
    script count, so the fields 1_000 between spaces and -3 give 1000 and
    -3, the Arabic-Indic digits of 125 give 125 and a full-width 7 after a
    no-break space gives 7; a doubled underscore or a hexadecimal text is
    no integer and gives 0. *)
Theorem pst_decode (line : string) (more : list string) :
  (let parts := Py.split "," line in
   exists ps pos speed,
     parse_pst_lines (line :: more) = Py.Returned (ps, pos, speed, Some line) /\
     ((length parts < 3)%nat ->
        ps = PlaybackState.UNKNOWN /\ pos = 0 /\ speed = 0) /\
     ((3 <= length parts)%nat ->
        exists f0 f1 f2,
          parts !! 0%nat = Some f0 /\ parts !! 1%nat = Some f1 /\
          parts !! 2%nat = Some f2 /\
          matched PlaybackState.value PlaybackState.UNKNOWN f0 ps /\
          pos = int_default0 f1 /\ speed = int_default0 f2)) /\
  parse_pst_lines ["1,125,0"] =
    Py.Returned (PlaybackState.PLAYING, 125, 0, Some "1,125,0") /\
  parse_pst_lines ["2, 1_000 ,-3"] =
    Py.Returned (PlaybackState.PAUSED, 1000, -3, Some "2, 1_000 ,-3") /\
  (let line :=
     "4," ++ Py.encode [0x661; 0x662; 0x665]%N ++ ","
     ++ Py.encode [0xA0; 0xFF17]%N in
   parse_pst_lines [line] =
     Py.Returned (PlaybackState.FAST_FORWARD, 125, 7, Some line)) /\
  parse_pst_lines ["0,1__0,0x10"] =
    Py.Returned (PlaybackState.STOPPED, 0, 0, Some "0,1__0,0x10").
Proof.
  split; [apply parse_pst_lines_cons|]. split_and!; vm_compute; reflexivity.
Qed.

(** C7. For every STATUS_SIMPLE line the decode raises nothing and keeps
    the line as [raw_status]; with fewer than 14 comma-separated fields it
    gives exactly UNKNOWN and no clock time; otherwise field 3 is matched
    against the DeviceMode wire values with UNKNOWN on no match, and field
    13 is the clock time, absent when it is empty.  A line of 14 fields with
    08 as field 3 and 14:32 as field 13 gives PLAYING and 14:32. *)
Theorem status_simple_decode (line : string) (more : list string) :
  (let parts := Py.split "," line in
   exists on mode clock,
     parse_status_lines (line :: more) =
       Py.Returned (on, mode, clock, Some line) /\
     ((length parts < 14)%nat -> mode = DeviceMode.UNKNOWN /\ clock = None) /\
     ((14 <= length parts)%nat ->
        exists f3 f13,
          parts !! 3%nat = Some f3 /\ parts !! 13%nat = Some f13 /\
          matched DeviceMode.value DeviceMode.UNKNOWN f3 mode /\
          clock = if decide (f13 = EmptyString) then None else Some f13)) /\
  parse_status_lines ["x,x,x,08,x,x,x,x,x,x,x,x,x,14:32"] =
    Py.Returned (true, DeviceMode.PLAYING, Some "14:32",
                 Some "x,x,x,08,x,x,x,x,x,x,x,x,x,14:32").
Proof.
  split; [|reflexivity]. intros parts.
  destruct (parse_status_lines_cons line more)
    as (on & mode & clock & Hr & _ & Hshort & Hlong).
  by exists on, mode, clock.
Qed.

(** ** Device client *)

Section ClientFacts.
Context {Device : Type} `{!Transport Device}.

(** The two POSTs of [get_player_status] and what it returns after them. *)
Lemma get_player_status_run (d : Device) :
  exists pst_success c1 pst_lines d1 status_success c2 status_lines d2,
    _send_raw pst_data d = (pst_success, c1, pst_lines, d1) /\
    _send_raw status_data d1 = (status_success, c2, status_lines, d2) /\
    (pst_success = false \/ status_success = false ->
       get_player_status d = (Py.Returned None, d2)) /\
    (pst_success = true -> status_success = true ->
       exists st,
         get_player_status d = (Py.Returned (Some st), d2) /\
         parse_pst_lines pst_lines =
           Py.Returned (playback_state st, position_seconds st,
                        speed_multiplier st, raw_pst st) /\
         parse_status_lines status_lines =
           Py.Returned (is_on st, device_mode st, clock_time st, raw_status st)).
Proof.
  unfold get_player_status.
  destruct (_send_raw pst_data d) as [[[ps c1] pl] d1].
  destruct (_send_raw status_data d1) as [[[ss c2] sl] d2] eqn:Hstatus.
  exists ps, c1, pl, d1, ss, c2, sl, d2. split_and!; try done.
  - by intros [-> | ->]; [|rewrite orb_true_r].
  - intros -> ->. simpl.
    destruct (parse_pst_lines_returns pl) as [[[[p1 p2] p3] p4] ->].
    destruct (parse_status_lines_returns sl) as [[[[s1 s2] s3] s4] ->].
    by eexists.
Qed.

(** [get_player_status] raises nothing. *)
Lemma get_player_status_returns (d : Device) :
  exists status d', get_player_status d = (Py.Returned status, d').
Proof.
  destruct (get_player_status_run d)
    as ([] & c1 & pl & d1 & [] & c2 & sl & d2 & _ & _ & Hnone & Hsome);
    try (eexists _, _; apply Hnone; auto; fail).
  destruct Hsome as (st & -> & _); [done..|]. by eexists _, _.
Qed.

(** A status comes from two POSTs that succeeded and the two decoders. *)
Lemma get_player_status_inv (d d' : Device) (st : PlayerStatus) :
  get_player_status d = (Py.Returned (Some st), d') ->
  exists c1 pst_lines d1 c2 status_lines,
    _send_raw pst_data d = (true, c1, pst_lines, d1) /\
    _send_raw status_data d1 = (true, c2, status_lines, d') /\
    parse_pst_lines pst_lines =
      Py.Returned (playback_state st, position_seconds st,
                   speed_multiplier st, raw_pst st) /\
    parse_status_lines status_lines =
      Py.Returned (is_on st, device_mode st, clock_time st, raw_status st).
Proof.
  intros Hst.
  destruct (get_player_status_run d)
    as (ps & c1 & pl & d1 & ss & c2 & sl & d2 & H1 & H2 & Hnone & Hsome).
  destruct ps, ss; try (rewrite Hnone in Hst by auto; done).
  destruct Hsome as (st' & Heq & Hp & Hs); [done..|].
  rewrite Heq in Hst. injection Hst as <- <-. by exists c1, pl, d1, c2, sl.
Qed.

Lemma get_player_status_is_on (d d' : Device) (st : PlayerStatus) :
  get_player_status d = (Py.Returned (Some st), d') ->
  is_on st = negb (bool_decide (device_mode st = DeviceMode.STANDBY)).
Proof.
  intros (c1 & pl & d1 & c2 & sl & _ & _ & _ & Hs)%get_player_status_inv.
  by apply parse_status_lines_is_on in Hs.
Qed.

End ClientFacts.

Section ClientProperties.
Context {Device : Type} `{!Transport Device}.

(** C1, as the code has it.  [get_player_status] raises nothing and returns
    absent exactly when one of its two POSTs (cCMD_PST, then
    cCMD_RC_STATUS_SIMPLE) reports success=false; no status object comes
    back then.  When both report success a status is returned whatever the
    data lines are: a half whose data-line set is empty keeps its defaults
    (UNKNOWN, 0, 0 and no raw line for PST; on, UNKNOWN, no clock and no raw
    line for STATUS_SIMPLE). *)
Theorem get_player_status_absent_iff_post_failed (d : Device) :
  exists pst_success c1 pst_lines d1 status_success c2 status_lines d2,
    _send_raw pst_data d = (pst_success, c1, pst_lines, d1) /\
    _send_raw status_data d1 = (status_success, c2, status_lines, d2) /\
    (pst_success = false \/ status_success = false ->
       get_player_status d = (Py.Returned None, d2)) /\
    (pst_success = true -> status_success = true ->
       exists st,
         get_player_status d = (Py.Returned (Some st), d2) /\
         (pst_lines = [] ->
            playback_state st = PlaybackState.UNKNOWN /\
            position_seconds st = 0 /\ speed_multiplier st = 0 /\
            raw_pst st = None) /\
         (status_lines = [] ->
            is_on st = true /\ device_mode st = DeviceMode.UNKNOWN /\
            clock_time st = None /\ raw_status st = None)).
Proof.
  destruct (get_player_status_run d)
    as (ps & c1 & pl & d1 & ss & c2 & sl & d2 & H1 & H2 & Hnone & Hsome).
  exists ps, c1, pl, d1, ss, c2, sl, d2. split_and!; try done.
  intros Hps Hss. destruct (Hsome Hps Hss) as (st & Hst & Hp & Hs).
  exists st. split_and!; [done|..].
  - intros ->. rewrite parse_pst_lines_nil in Hp. by injection Hp as <- <- <- <-.
  - intros ->. rewrite parse_status_lines_nil in Hs. by injection Hs as <- <- <- <-.
Qed.

(** C2, as the code has it.  The position of a returned status is an
    integer.  It is 0 when the PST query gave no data line or a first data
    line of fewer than 3 comma-separated fields; with 3 fields or more it is
    what [int] reads in field 1, and 0 when [int] rejects that field.  So
    it is at least 0 unless the first PST data line has 3 fields or more
    and its field 1 is a negative integer literal (a text that [int] reads,
    with a minus sign after its leading blanks), and then it is that
    negative integer. *)
Theorem position_seconds_negative_only_from_literal (d d' : Device)
    (st : PlayerStatus) :
  get_player_status d = (Py.Returned (Some st), d') ->
  exists c1 pst_lines d1,
    _send_raw pst_data d = (true, c1, pst_lines, d1) /\
    (pst_lines = [] -> position_seconds st = 0) /\
    (forall line more,
       pst_lines = line :: more ->
       ((length (Py.split "," line) < 3)%nat -> position_seconds st = 0) /\
       ((3 <= length (Py.split "," line))%nat ->
        exists field1,
          Py.split "," line !! 1%nat = Some field1 /\
          (forall n, Py.int field1 = Py.Returned n -> position_seconds st = n) /\
          (Py.int field1 = Py.Raises Py.ValueError -> position_seconds st = 0))) /\
    (0 <= position_seconds st \/
     exists line more field1 digits,
       pst_lines = line :: more /\
       (3 <= length (Py.split "," line))%nat /\
       Py.split "," line !! 1%nat = Some field1 /\
       Py.int field1 = Py.Returned (position_seconds st) /\
       Py.int_lstrip (Py.int_ascii (Py.decode field1)) = String "-" digits).
Proof.
  intros (c1 & pl & d1 & c2 & sl & H1 & _ & Hp & _)%get_player_status_inv.
  exists c1, pl, d1. split; [done|].
  destruct pl as [|line more].
  { rewrite parse_pst_lines_nil in Hp. injection Hp as _ Hpos _ _.
    split_and!; [done|done|left; lia]. }
  destruct (parse_pst_lines_cons line more)
    as (ps & pos & speed & Hr & Hshort & Hlong).
  rewrite Hr in Hp. injection Hp as -> -> -> _.
  split; [done|].
  destruct (Nat.lt_ge_cases (length (Py.split "," line)) 3) as [Hlen|Hlen].
  { destruct (Hshort Hlen) as (_ & Hpos & _). split; [|left; lia].
    intros ? ? [= <- <-]. split; [done|lia]. }
  destruct (Hlong Hlen) as (f0 & f1 & f2 & _ & Hf1 & _ & _ & Hpos & _).
  unfold int_default0 in Hpos. split.
  - intros ? ? [= <- <-]. split; [lia|]. intros _. exists f1.
    split; [done|]. unfold Py.int.
    destruct (Py.int_value f1) as [n|]; [|done].
    split; [|done]. by intros ? [= <-].
  - destruct (Z.le_gt_cases 0 (position_seconds st)) as [?|Hneg]; [by left|right].
    destruct (Py.int_value f1) as [n|] eqn:Hint; [|lia]. subst n.
    destruct (PyFacts.int_literal_negative _ _ Hint Hneg) as [digits Hsign].
    exists line, more, f1, digits. split_and!; try done.
    unfold Py.int. by rewrite Hint.
Qed.

(** C9. For every status [get_player_status] returns, [is_on] equals
    (device_mode != STANDBY); on the defaulting paths, where STATUS_SIMPLE
    gave no data line or a first line of fewer than 14 fields, the device
    mode is UNKNOWN and [is_on] is true. *)
Theorem player_status_is_on (d d' : Device) (st : PlayerStatus) :
  get_player_status d = (Py.Returned (Some st), d') ->
  is_on st = negb (bool_decide (device_mode st = DeviceMode.STANDBY)) /\
  exists c1 pst_lines d1 c2 status_lines,
    _send_raw pst_data d = (true, c1, pst_lines, d1) /\
    _send_raw status_data d1 = (true, c2, status_lines, d') /\
    (status_lines = [] \/
     (exists line more,
        status_lines = line :: more /\
        (length (Py.split "," line) < 14)%nat) ->
     device_mode st = DeviceMode.UNKNOWN /\ is_on st = true).
Proof.
  intros Hst. split; [by eapply get_player_status_is_on|].
  destruct (get_player_status_inv _ _ _ Hst)
    as (c1 & pl & d1 & c2 & sl & H1 & H2 & _ & Hs).
  exists c1, pl, d1, c2, sl. split_and!; try done.
  intros [-> | (line & more & -> & Hlen)].
  - rewrite parse_status_lines_nil in Hs. by injection Hs as <- <- _ _.
  - destruct (parse_status_lines_cons line more)
      as (on & mode & clock & Hr & Hon & Hshort & _).
    rewrite Hr in Hs. injection Hs as <- <- _.
    destruct (Hshort Hlen) as [-> _]. by subst on.
Qed.

(** C10. [get_status] raises nothing; it returns the sentinel (error, -1,
    -1) exactly when [get_player_status] yields absent; for a status that
    is not on it returns (standby, 0, 0); otherwise it returns the mapped
    state string, the position and 0 as duration, the mapping sending
    STOPPED to stopped, PLAYING to playing, PAUSED to paused, the three
    seek states to playing, and UNKNOWN to off. *)
Theorem get_status_cases (d : Device) :
  exists status d',
    get_player_status d = (Py.Returned status, d') /\
    (status = None <-> (get_status d).1 = Py.Returned ("error", -1, -1)) /\
    match status with
    | None => get_status d = (Py.Returned ("error", -1, -1), d')
    | Some st =>
        if is_on st
        then get_status d =
               (Py.Returned
                  (match playback_state st with
                   | PlaybackState.STOPPED => "stopped"
                   | PlaybackState.PLAYING => "playing"
                   | PlaybackState.PAUSED => "paused"
                   | PlaybackState.FAST_FORWARD => "playing"
                   | PlaybackState.REWIND => "playing"
                   | PlaybackState.SLOW_MOTION => "playing"
                   | PlaybackState.UNKNOWN => "off"
                   end, position_seconds st, 0), d')
        else get_status d = (Py.Returned ("standby", 0, 0), d')
    end.
Proof.
  destruct (get_player_status_returns d) as (status & d' & Hst).
  exists status, d'. split; [done|]. unfold get_status. rewrite Hst.
  destruct status as [st|]; simpl; [|done].
  destruct (is_on st); simpl; [|by split].
  split; [|by destruct (playback_state st)].
  split; [done|]. by destruct (playback_state st).
Qed.

End ClientProperties.

(** ** Command resolution *)

(** A raw token goes through unchanged: no alias is the upper case of a
    text that begins with cCMD_. *)
Lemma api_cmd_raw_token (command : string) :
  Py.startswith "cCMD_" command = true -> api_cmd command = command.
Proof.
  intros Hraw. unfold api_cmd.
  destruct (COMMANDS !! Py.upper command) as [token|] eqn:Hlook;
    [|by rewrite Hraw].
  apply COMMANDS_lookup in Hlook.
  assert (Py.upper command ∈ COMMANDS_items.*1) as Hkey.
  { apply list_elem_of_fmap. by exists (Py.upper command, token). }
  apply COMMANDS_no_raw_alias in Hkey.
  unfold Py.startswith in Hraw. apply PyFacts.upper_raw_prefix in Hraw.
  congruence.
Qed.

Section CommandProperties.
Context {Device : Type} `{!Transport Device}.

(** C8. Command resolution is a total function of the input: when the
    upper-cased input is an alias of the command table, the token the table
    gives it is used, so two inputs with the same upper case resolve alike;
    otherwise an input that begins with cCMD_ is passed through unchanged
    (no such input upper-cases to an alias, so every raw token goes through
    unchanged); otherwise the token is cCMD_RC_ followed by the upper-cased
    input.  [send_command] then makes one POST, with the body
    token.x=100&token.y=100, and returns the success flag and the code
    decoded from its reply.  The input play resolves to cCMD_RC_PLAYBACK.
    The upper case is that of [str.upper]: the ligature ff (U+FB00) is the
    alias FF and resolves to cCMD_RC_CUE, and strasse written with a sharp
    s resolves to cCMD_RC_STRASSE. *)
Theorem send_command_resolves_and_posts (command : string) (d : Device) :
  let token := api_cmd command in
  (forall documented, (Py.upper command, documented) ∈ COMMANDS_items ->
     token = documented) /\
  (forall other, Py.upper other = Py.upper command ->
     Py.upper command ∈ COMMANDS_items.*1 -> api_cmd other = token) /\
  (Py.upper command ∉ COMMANDS_items.*1 ->
     (forall rest, command = "cCMD_" ++ rest -> token = command) /\
     ((forall rest, command <> "cCMD_" ++ rest) ->
        token = "cCMD_RC_" ++ Py.upper command)) /\
  (forall rest, api_cmd ("cCMD_" ++ rest) = "cCMD_" ++ rest) /\
  send_command command d =
    match urlopen (token ++ ".x=100&" ++ token ++ ".y=100") d with
    | (Body raw, d') =>
        match parse_response raw with
        | Py.Returned (success, code, _) => (success, code, d')
        | Py.Raises _ => (false, None, d')
        end
    | (Raised, d') => (false, None, d')
    end /\
  api_cmd "play" = "cCMD_RC_PLAYBACK" /\
  api_cmd (Py.encode [0xFB00]%N) = "cCMD_RC_CUE" /\
  api_cmd (Py.encode [0x73; 0x74; 0x72; 0x61; 0xDF; 0x65]%N) = "cCMD_RC_STRASSE".
Proof.
  intros token. subst token. split_and!.
  - intros documented Hdoc%COMMANDS_lookup. unfold api_cmd. by rewrite Hdoc.
  - intros other Hup Hkey. unfold api_cmd. rewrite Hup.
    destruct (COMMANDS !! Py.upper command) eqn:Hlook; [done|].
    by apply COMMANDS_lookup_None in Hlook.
  - intros Hkey%COMMANDS_lookup_None. unfold api_cmd. rewrite Hkey. split.
    + intros rest Hraw. by rewrite (proj2 (PyFacts.startswith_iff _ _) (ex_intro _ rest Hraw)).
    + intros Hraw. destruct (Py.startswith "cCMD_" command) eqn:E; [|done].
      apply PyFacts.startswith_iff in E as [rest ->]. by destruct (Hraw rest).
  - intros rest. apply api_cmd_raw_token, PyFacts.startswith_iff. by exists rest.
  - unfold send_command, _send_raw, form_body.
    destruct (urlopen _ d) as [[raw|] d']; [|done].
    by destruct (parse_response raw) as [[[success code] lines]|].
  - vm_compute. reflexivity.
  - vm_compute. reflexivity.
  - vm_compute. reflexivity.
Qed.

End CommandProperties.

(** ** Poll coordinator *)

Section CoordinatorProperties.
Context {Device : Type} `{!Transport Device, !Clock Device}.

(** C3, as the code has it.  A poll in which [get_player_status] yields
    absent publishes a mapping with exactly nine keys: state, is_on,
    device_mode, playback_state, tray_open and clock_time set to None, and
    media_position, media_duration and speed_multiplier set to 0.  The state
    is None, not OFF.  The five other keys of the published state
    (device_mode_value, playback_state_value, media_position_updated_at,
    raw_pst, raw_status) are left out of the mapping. *)
Theorem update_absent_publishes_unknown_state (d d' : Device) :
  get_player_status d = (Py.Returned None, d') ->
  _update d = (Py.Returned unknown_state, d') /\
  unknown_state !! "state" = Some PNone /\
  unknown_state !! "state" <> Some (PState MediaPlayerState.OFF) /\
  dom unknown_state =
    list_to_set ["state"; "is_on"; "device_mode"; "playback_state";
                 "media_position"; "media_duration"; "speed_multiplier";
                 "tray_open"; "clock_time"] /\
  Forall (fun key => unknown_state !! key = None)
    ["device_mode_value"; "playback_state_value";
     "media_position_updated_at"; "raw_pst"; "raw_status"].
Proof.
  intros Hst. split_and!.
  - unfold _update. rewrite Hst. reflexivity.
  - reflexivity.
  - done.
  - unfold unknown_state. by rewrite dom_list_to_map_L.
  - repeat constructor.
Qed.

(** C4. For every poll with a status, the published state follows this
    precedence: not on gives OFF; else TRAY_OPEN or IDLE gives IDLE; else
    PLAYING gives PLAYING; else PAUSED gives PAUSED; else FAST_FORWARD,
    REWIND or SLOW_MOTION gives PLAYING; every other mode gives IDLE.  A
    status whose device mode is STANDBY is published as OFF, whatever its
    playback state. *)
Theorem update_state_precedence (d d' : Device) (st : PlayerStatus) :
  get_player_status d = (Py.Returned (Some st), d') ->
  exists data state,
    _update d = (Py.Returned data, d') /\
    data !! "state" = Some (PState state) /\
    (is_on st = false -> state = MediaPlayerState.OFF) /\
    (is_on st = true ->
       (device_mode st = DeviceMode.TRAY_OPEN \/
        device_mode st = DeviceMode.IDLE -> state = MediaPlayerState.IDLE) /\
       (device_mode st = DeviceMode.PLAYING ->
          state = MediaPlayerState.PLAYING) /\
       (device_mode st = DeviceMode.PAUSED ->
          state = MediaPlayerState.PAUSED) /\
       (device_mode st = DeviceMode.FAST_FORWARD \/
        device_mode st = DeviceMode.REWIND \/
        device_mode st = DeviceMode.SLOW_MOTION ->
          state = MediaPlayerState.PLAYING) /\
       (device_mode st ∉
          [DeviceMode.TRAY_OPEN; DeviceMode.IDLE; DeviceMode.PLAYING;
           DeviceMode.PAUSED; DeviceMode.FAST_FORWARD; DeviceMode.REWIND;
           DeviceMode.SLOW_MOTION] -> state = MediaPlayerState.IDLE)) /\
    (device_mode st = DeviceMode.STANDBY -> state = MediaPlayerState.OFF).
Proof.
  intros Hst. pose proof (get_player_status_is_on _ _ _ Hst) as Hon.
  eexists _, (media_player_state st). split_and!.
  - unfold _update. rewrite Hst. reflexivity.
  - reflexivity.
  - unfold media_player_state. by intros ->.
  - unfold media_player_state. intros ->. simpl.
    destruct (device_mode st); split_and!; try done;
      try (by intros [|]); try (by intros [|[|]]);
      intros Hother; exfalso; apply Hother, list_elem_of_In; simpl; tauto.
  - intros Hmode. unfold media_player_state. by rewrite Hon, Hmode.
Qed.

End CoordinatorProperties.

(** ** The client on concrete replies *)

(** C5 at a player that answers the PST query with the code 00 and the line
    1,125,0. *)
Lemma send_raw_decodes_body_witness :
  let d := player "1,125,0" sample_status_line in
  let raw := "00" ++ CRLF ++ "1,125,0" ++ CRLF in
  urlopen pst_data d = (Body raw, d) /\
  ((exists first rest code,
      Py.split CRLF raw = first :: rest /\
      raw = Py.join CRLF (first :: rest) /\
      Forall (fun line => Py.contains CRLF line = false) (first :: rest) /\
      code_of_first_line first code /\
      _send_raw pst_data d =
        (bool_decide (code = "00"), Some code,
         List.filter (fun line => bool_decide (~ blank line)) rest, d)) /\
   parse_response ("01,extra" ++ CRLF ++ "linedata" ++ CRLF) =
     Py.Returned (false, Some "01", ["linedata"]) /\
   parse_response
     ("00" ++ CRLF ++ Py.encode [0xA0; 0x2003]%N ++ CRLF ++ " x" ++ CRLF
      ++ Py.encode [0x3000]%N ++ CRLF) =
     Py.Returned (true, Some "00", [" x"])).
Proof.
  intros d raw. split; [reflexivity|].
  apply (send_raw_decodes_body pst_data d d raw). reflexivity.
Defined.

(** C1 as stated fails: a player that answers 00 without a data line makes
    both POSTs succeed with empty data-line sets, and a status (every field
    at its default) is returned, not absent. *)
Lemma empty_data_lines_give_a_status :
  _send_raw pst_data silent_player = (true, Some "00", [], silent_player) /\
  _send_raw status_data silent_player = (true, Some "00", [], silent_player) /\
  get_player_status silent_player =
    (Py.Returned (Some default_status), silent_player) /\
  (get_player_status silent_player).1 <> Py.Returned None.
Proof. split_and!; [reflexivity..|done]. Qed.

(** C2 as stated fails: the PST line 1,-5,0 gives a status whose position
    is -5. *)
Lemma negative_position_reported :
  exists st d',
    get_player_status (player "1,-5,0" sample_status_line) =
      (Py.Returned (Some st), d') /\
    position_seconds st = -5 /\
    ~ (0 <= position_seconds st).
Proof. eexists _, _. split_and!; [reflexivity|reflexivity|simpl; lia]. Qed.

(** C2, amended, at the same player. *)
Lemma position_seconds_negative_only_from_literal_witness :
  let d := player "1,-5,0" sample_status_line in
  let st :=
    {| is_on := true;
       device_mode := DeviceMode.PLAYING;
       playback_state := PlaybackState.PLAYING;
       position_seconds := -5;
       speed_multiplier := 0;
       clock_time := Some "14:32";
       raw_pst := Some "1,-5,0";
       raw_status := Some sample_status_line |} in
  get_player_status d = (Py.Returned (Some st), d) /\
  exists c1 pst_lines d1,
    _send_raw pst_data d = (true, c1, pst_lines, d1) /\
    (pst_lines = [] -> position_seconds st = 0) /\
    (forall line more,
       pst_lines = line :: more ->
       ((length (Py.split "," line) < 3)%nat -> position_seconds st = 0) /\
       ((3 <= length (Py.split "," line))%nat ->
        exists field1,
          Py.split "," line !! 1%nat = Some field1 /\
          (forall n, Py.int field1 = Py.Returned n -> position_seconds st = n) /\
          (Py.int field1 = Py.Raises Py.ValueError -> position_seconds st = 0))) /\
    (0 <= position_seconds st \/
     exists line more field1 digits,
       pst_lines = line :: more /\
       (3 <= length (Py.split "," line))%nat /\
       Py.split "," line !! 1%nat = Some field1 /\
       Py.int field1 = Py.Returned (position_seconds st) /\
       Py.int_lstrip (Py.int_ascii (Py.decode field1)) = String "-" digits).
Proof.
  intros d st. split; [reflexivity|].
  apply (position_seconds_negative_only_from_literal d d st). reflexivity.
Defined.

(** C9 on the defaulting path: no STATUS_SIMPLE data line. *)
Lemma player_status_is_on_witness :
  get_player_status silent_player =
    (Py.Returned (Some default_status), silent_player) /\
  is_on default_status =
    negb (bool_decide (device_mode default_status = DeviceMode.STANDBY)) /\
  exists c1 pst_lines d1 c2 status_lines,
    _send_raw pst_data silent_player = (true, c1, pst_lines, d1) /\
    _send_raw status_data d1 = (true, c2, status_lines, silent_player) /\
    (status_lines = [] \/
     (exists line more,
        status_lines = line :: more /\
        (length (Py.split "," line) < 14)%nat) ->
     device_mode default_status = DeviceMode.UNKNOWN /\
     is_on default_status = true).
Proof.
  split; [reflexivity|].
  apply (player_status_is_on silent_player silent_player default_status).
  reflexivity.
Defined.

(** C3 as stated fails: when the player cannot be reached the status is
    absent and the published mapping has no raw_pst key, so not every key
    of the published state is set. *)
Lemma update_absent_omits_keys :
  get_player_status unreachable_player =
    (Py.Returned None, unreachable_player) /\
  exists data,
    _update unreachable_player = (Py.Returned data, unreachable_player) /\
    "raw_pst" ∈ published_state_keys /\
    data !! "raw_pst" = None /\
    ~ (forall key, key ∈ published_state_keys -> is_Some (data !! key)).
Proof.
  split; [reflexivity|]. eexists. split; [reflexivity|].
  assert ("raw_pst" ∈ published_state_keys) as Hkey.
  { apply list_elem_of_In. simpl. tauto. }
  split_and!; [done|reflexivity|].
  intros Hall. by destruct (Hall _ Hkey).
Qed.

(** C3, amended, at the player that cannot be reached. *)
Lemma update_absent_publishes_unknown_state_witness :
  get_player_status unreachable_player =
    (Py.Returned None, unreachable_player) /\
  _update unreachable_player = (Py.Returned unknown_state, unreachable_player) /\
  unknown_state !! "state" = Some PNone /\
  unknown_state !! "state" <> Some (PState MediaPlayerState.OFF) /\
  dom unknown_state =
    list_to_set ["state"; "is_on"; "device_mode"; "playback_state";
                 "media_position"; "media_duration"; "speed_multiplier";
                 "tray_open"; "clock_time"] /\
  Forall (fun key => unknown_state !! key = None)
    ["device_mode_value"; "playback_state_value";
     "media_position_updated_at"; "raw_pst"; "raw_status"].
Proof.
  split; [reflexivity|].
  apply (update_absent_publishes_unknown_state unreachable_player).
  reflexivity.
Defined.

(** C4 at a player in standby that reports playback: published as OFF. *)
Lemma update_state_precedence_witness :
  let d := player "1,125,0" standby_status_line in
  let st :=
    {| is_on := false;
       device_mode := DeviceMode.STANDBY;
       playback_state := PlaybackState.PLAYING;
       position_seconds := 125;
       speed_multiplier := 0;
       clock_time := Some "03:15";
       raw_pst := Some "1,125,0";
       raw_status := Some standby_status_line |} in
  get_player_status d = (Py.Returned (Some st), d) /\
  exists data state,
    _update d = (Py.Returned data, d) /\
    data !! "state" = Some (PState state) /\
    (is_on st = false -> state = MediaPlayerState.OFF) /\
    (is_on st = true ->
       (device_mode st = DeviceMode.TRAY_OPEN \/
        device_mode st = DeviceMode.IDLE -> state = MediaPlayerState.IDLE) /\
       (device_mode st = DeviceMode.PLAYING ->
          state = MediaPlayerState.PLAYING) /\
       (device_mode st = DeviceMode.PAUSED ->
          state = MediaPlayerState.PAUSED) /\
       (device_mode st = DeviceMode.FAST_FORWARD \/
        device_mode st = DeviceMode.REWIND \/
        device_mode st = DeviceMode.SLOW_MOTION ->
          state = MediaPlayerState.PLAYING) /\
       (device_mode st ∉
          [DeviceMode.TRAY_OPEN; DeviceMode.IDLE; DeviceMode.PLAYING;
           DeviceMode.PAUSED; DeviceMode.FAST_FORWARD; DeviceMode.REWIND;
           DeviceMode.SLOW_MOTION] -> state = MediaPlayerState.IDLE)) /\
    (device_mode st = DeviceMode.STANDBY -> state = MediaPlayerState.OFF).
Proof.
  intros d st. split; [reflexivity|].
  apply (update_state_precedence d d st). reflexivity.
Defined.

(** ** The built-ins and the client on sample inputs *)

Module Examples.

Example split_commas : Py.split "," "a,b,,c" = ["a"; "b"; ""; "c"].
Proof. reflexivity. Qed.

Example split_empty_text : Py.split "," "" = [""].
Proof. reflexivity. Qed.

Example split_lines :
  Py.split CRLF ("a" ++ CRLF ++ CRLF ++ "b" ++ CRLF) = ["a"; ""; "b"; ""].
Proof. reflexivity. Qed.

Example split_cr_before_crlf :
  Py.split CRLF (String CR CRLF) = [String CR ""; ""].
Proof. reflexivity. Qed.

Example split_at_first_comma : Py.split_max "," 1 "01,x,y" = ["01"; "x,y"].
Proof. reflexivity. Qed.

Example upper_mixed : Py.upper "Play_2x" = "PLAY_2X".
Proof. reflexivity. Qed.

Example strip_blank_line : Py.strip (" " ++ CRLF ++ " ") = "".
Proof. reflexivity. Qed.

Example strip_text : Py.strip "  a b  " = "a b".
Proof. reflexivity. Qed.

Example int_plain : Py.int "125" = Py.Returned 125.
Proof. reflexivity. Qed.

Example int_signed_underscore : Py.int " -12_3 " = Py.Returned (-123).
Proof. reflexivity. Qed.

Example int_plus_sign : Py.int "+5" = Py.Returned 5.
Proof. reflexivity. Qed.

Example int_leading_zeros : Py.int "007" = Py.Returned 7.
Proof. reflexivity. Qed.

Example int_rejects :
  Forall (fun s => Py.int s = Py.Raises Py.ValueError)
    [""; "  "; "- 5"; "--5"; "1__0"; "_1"; "1_"; "+_1"; "0x10"; "1 2"; "1e3";
     "1.0"; "+"; String (Ascii.ascii_of_nat 28) "5"].
Proof. repeat constructor. Qed.

Example decode_points :
  Py.decode (Py.encode [0x61; 0xDF; 0x20AC; 0x1D7D9]%N) = [0x61; 0xDF; 0x20AC; 0x1D7D9]%N /\
  String.length (Py.encode [0x61; 0xDF; 0x20AC; 0x1D7D9]%N) = 10%nat.
Proof. split; vm_compute; reflexivity. Qed.

Example upper_sharp_s : Py.upper (Py.encode [0x73; 0xDF]%N) = "SSS".
Proof. vm_compute. reflexivity. Qed.

Example upper_of_ligatures :
  Py.decode (Py.upper (Py.encode [0x390; 0x17F; 0xFB03]%N)) =
    [0x399; 0x308; 0x301; 0x53; 0x46; 0x46; 0x49]%N.
Proof. vm_compute. reflexivity. Qed.

Example strip_blanks_of_other_scripts :
  Py.strip (Py.encode [0xA0; 0x2028; 0x61; 0x3000; 0x62; 0x85]%N) =
    Py.encode [0x61; 0x3000; 0x62]%N.
Proof. vm_compute. reflexivity. Qed.

Example strip_keeps_zero_width_space :
  Py.strip (Py.encode [0x200B]%N) = Py.encode [0x200B]%N.
Proof. vm_compute. reflexivity. Qed.

Example int_digits_of_other_scripts :
  Py.int (Py.encode [0x2003; 0x2D; 0x969; 0x5F; 0xFF12; 0x1D7D9; 0xA0]%N) =
    Py.Returned (-321).
Proof. vm_compute. reflexivity. Qed.

Example int_rejects_other_signs :
  Forall (fun points => Py.int (Py.encode points) = Py.Raises Py.ValueError)
    [[0xB2]; [0x2212; 0x35]; [0x35; 0x200B]; [0x1C; 0x35]]%N.
Proof. repeat constructor. Qed.

Example int_digit_limit :
  Py.int (String.concat "" (replicate 4300 "7")) <> Py.Raises Py.ValueError /\
  Py.int (String.concat "_" (replicate 4300 "0")) = Py.Returned 0 /\
  Py.int (String.concat "" (replicate 4301 "0")) = Py.Raises Py.ValueError.
Proof. split_and!; [by vm_compute|vm_compute; reflexivity..]. Qed.

Example api_cmd_alias_lower_case : api_cmd "eject" = "cCMD_RC_OP_CL".
Proof. vm_compute. reflexivity. Qed.

Example api_cmd_raw : api_cmd "cCMD_PST" = "cCMD_PST".
Proof. vm_compute. reflexivity. Qed.

Example api_cmd_guess : api_cmd "zoom" = "cCMD_RC_ZOOM".
Proof. vm_compute. reflexivity. Qed.

Example send_command_ok :
  send_command "PLAY" silent_player = (true, Some "00", silent_player).
Proof. vm_compute. reflexivity. Qed.

Example send_command_unreachable :
  send_command "PLAY" unreachable_player = (false, None, unreachable_player).
Proof. vm_compute. reflexivity. Qed.

Example get_status_playing :
  (get_status (player "1,125,0" sample_status_line)).1 =
    Py.Returned ("playing", 125, 0).
Proof. reflexivity. Qed.

Example get_status_unknown_is_off :
  (get_status (player "7,125,0" sample_status_line)).1 =
    Py.Returned ("off", 125, 0).
Proof. reflexivity. Qed.

Example get_status_standby :
  (get_status (player "1,125,0" standby_status_line)).1 =
    Py.Returned ("standby", 0, 0).
Proof. reflexivity. Qed.

Example get_status_error :
  (get_status unreachable_player).1 = Py.Returned ("error", -1, -1).
Proof. reflexivity. Qed.

Example update_playing :
  exists data,
    (_update (player "1,125,0" sample_status_line)).1 = Py.Returned data /\
    data !! "state" = Some (PState MediaPlayerState.PLAYING) /\
    data !! "media_position" = Some (PInt 125) /\
    data !! "media_duration" = Some (PInt 0) /\
    data !! "clock_time" = Some (PStr "14:32") /\
    data !! "media_position_updated_at" = Some (PTime 1700000000) /\
    dom data = list_to_set published_state_keys.
Proof.
  eexists. split; [reflexivity|]. split_and!; reflexivity.
Qed.

End Examples.

(** * The rest of the client, the refresh and the entities *)

(** ** What the client posts *)

Section TracedFacts.
Context {Delay Device : Type} `{!Transport Device}.

Implicit Types t : traced Delay Device.

(** Keeping the record changes no reply: a POST on a traced world is the
    POST on the world, with the body added to the record. *)
Lemma send_raw_traced (data : string) t :
  _send_raw data t =
    (let '(result, d) := _send_raw data (world t) in
     (result, logged (Posted data) d t)).
Proof.
  unfold _send_raw. unfold urlopen at 1, traced_transport.
  destruct (urlopen data (world t)) as [[raw|] d]; [|done].
  by destruct (parse_response raw).
Qed.

Lemma send_command_traced (command : string) t :
  send_command command t =
    (let '(success, code, d) := send_command command (world t) in
     (success, code, logged (Posted (form_body (api_cmd command))) d t)).
Proof.
  unfold send_command. rewrite send_raw_traced.
  by destruct (_send_raw _ (world t)) as [[[success code] lines] d].
Qed.

Lemma get_player_status_traced t :
  get_player_status t =
    (let '(status, d) := get_player_status (world t) in
     (status,
      {| trace := trace t ++ [Posted pst_data; Posted status_data];
         world := d |})).
Proof.
  unfold get_player_status. rewrite send_raw_traced.
  destruct (_send_raw pst_data (world t)) as [[[ps c1] pl] d1].
  rewrite send_raw_traced. simpl world.
  destruct (_send_raw status_data d1) as [[[ss c2] sl] d2].
  unfold logged. simpl. rewrite <- app_assoc. simpl.
  by destruct (negb ps || negb ss).
Qed.

Lemma command_succeeds_traced (name : string) t :
  command_succeeds name t =
    (let '(success, d) := command_succeeds name (world t) in
     (success, logged (Posted (form_body (api_cmd name))) d t)).
Proof.
  unfold command_succeeds. rewrite send_command_traced.
  by destruct (send_command name (world t)) as [[success code] d].
Qed.

End TracedFacts.

Section CommandFacts.
Context {Device : Type} `{!Transport Device}.

Lemma code_of_first_line_unique (first code code' : string) :
  code_of_first_line first code -> code_of_first_line first code' ->
  code = code'.
Proof.
  unfold code_of_first_line. destruct (Py.contains "," first); [|congruence].
  intros (tail & -> & Hfree) (tail' & Heq & Hfree').
  revert code' Heq Hfree'.
  induction code as [|c code IH]; intros [|c' code'] Heq Hf'; [done|..].
  - injection Heq as <- _. rewrite PyFacts.contains_cons in Hf'.
    simpl in Hf'. by rewrite PyFacts.prefix_empty in Hf'.
  - injection Heq as -> _. rewrite PyFacts.contains_cons in Hfree.
    simpl in Hfree. by rewrite PyFacts.prefix_empty in Hfree.
  - injection Heq as <- Heq.
    rewrite PyFacts.contains_cons in Hfree, Hf'.
    apply orb_false_iff in Hfree as [_ Hfree]. apply orb_false_iff in Hf' as [_ Hf'].
    f_equal. by apply IH.
Qed.

(** A POST succeeds exactly when the player answers with the code 00. *)
Lemma send_raw_success (data : string) (d : Device) :
  (_send_raw data d).1.1.1 = true <-> replies_ok data d.
Proof.
  unfold _send_raw, replies_ok. destruct (urlopen data d) as [[raw|] d'].
  - destruct (parse_response_returns raw) as (first & rest & code & Hs & Hc & ->).
    simpl. rewrite bool_decide_eq_true. split.
    + intros ->. by exists raw, d', first, rest.
    + intros (raw' & d'' & first' & rest' & [= <- <-] & Hs' & Hc').
      rewrite Hs in Hs'. injection Hs' as <- <-.
      by apply (code_of_first_line_unique first).
  - simpl. split; [done|]. by intros (? & ? & ? & ? & [=] & _).
Qed.

Lemma send_raw_world (data : string) (d : Device) :
  (_send_raw data d).2 = (urlopen data d).2.
Proof.
  unfold _send_raw. destruct (urlopen data d) as [[raw|] d']; [|done].
  by destruct (parse_response raw).
Qed.

Lemma command_succeeds_spec (name : string) (d : Device) :
  ((command_succeeds name d).1 = true <->
     replies_ok (form_body (api_cmd name)) d) /\
  (command_succeeds name d).2 = (urlopen (form_body (api_cmd name)) d).2.
Proof.
  unfold command_succeeds, send_command.
  rewrite <- send_raw_success, <- send_raw_world.
  by destruct (_send_raw _ d) as [[[success code] lines] d'].
Qed.

End CommandFacts.

Section TracedProperties.
Context {Delay Device : Type} `{!Transport Device, !Clock Device}.

Implicit Types t : traced Delay Device.

Lemma update_traced t :
  _update t =
    (let '(data, d) := _update (world t) in
     (data,
      {| trace := trace t ++ [Posted pst_data; Posted status_data];
         world := d |})).
Proof.
  unfold _update. rewrite get_player_status_traced.
  by destruct (get_player_status (world t)) as [status d].
Qed.

(** X1. Every status query ([get_player_status], [get_status],
    [is_tray_open], the coordinator's [_update]) makes exactly two POSTs,
    the PST query and then the STATUS_SIMPLE query, whatever the player
    answers: the second is made also when the first has failed.  Its result
    and the world it leaves are those of the two POSTs alone. *)
Theorem status_queries_post_twice t :
  let two_posts :=
    [Posted "cCMD_PST.x=100&cCMD_PST.y=100";
     Posted "cCMD_RC_STATUS_SIMPLE.x=100&cCMD_RC_STATUS_SIMPLE.y=100"] in
  let after (d : Device) : traced Delay Device :=
    {| trace := trace t ++ two_posts; world := d |} in
  get_player_status t =
    ((get_player_status (world t)).1, after (get_player_status (world t)).2) /\
  get_status t = ((get_status (world t)).1, after (get_status (world t)).2) /\
  is_tray_open t =
    ((is_tray_open (world t)).1, after (is_tray_open (world t)).2) /\
  _update t = ((_update (world t)).1, after (_update (world t)).2) /\
  (get_player_status (world t)).2 =
    (urlopen status_data (urlopen pst_data (world t)).2).2.
Proof.
  intros two_posts after. split_and!.
  - rewrite get_player_status_traced.
    by destruct (get_player_status (world t)).
  - unfold get_status. rewrite get_player_status_traced.
    by destruct (get_player_status (world t)).
  - unfold is_tray_open. rewrite get_player_status_traced.
    by destruct (get_player_status (world t)).
  - rewrite update_traced. by destruct (_update (world t)).
  - unfold get_player_status. rewrite <- !send_raw_world.
    destruct (_send_raw pst_data (world t)) as [[[ps c1] pl] d1]. simpl.
    destruct (_send_raw status_data d1) as [[[ss c2] sl] d2]. simpl.
    by destruct (negb ps || negb ss).
Qed.

(** X2. Each of the ten one-command operations of the client makes exactly
    one POST, with the body token.x=100&token.y=100 of the table token of
    its command, and returns true exactly when the player answers that POST
    with the response code 00. *)
Theorem conveniences_post_once t :
  Forall
    (fun '((operation, token)
           : (traced Delay Device -> bool * traced Delay Device) * string) =>
       trace (operation t).2 =
         (trace t ++ [Posted (token ++ ".x=100&" ++ token ++ ".y=100")])%list /\
       world (operation t).2 =
         (urlopen (token ++ ".x=100&" ++ token ++ ".y=100") (world t)).2 /\
       ((operation t).1 = true <->
          replies_ok (token ++ ".x=100&" ++ token ++ ".y=100") (world t)))
    [ (open_tray, "cCMD_RC_TRAYOPEN");
      (close_tray, "cCMD_RC_TRAYCLOSE");
      (toggle_tray, "cCMD_RC_OP_CL");
      (power_on, "cCMD_RC_POWERON");
      (power_off, "cCMD_RC_POWEROFF");
      (play, "cCMD_RC_PLAYBACK");
      (pause, "cCMD_RC_PAUSE");
      (stop, "cCMD_RC_STOP");
      (next_track, "cCMD_RC_SKIPFWD");
      (previous_track, "cCMD_RC_SKIPREV") ].
Proof.
  assert (forall name token, api_cmd name = token ->
    trace (command_succeeds name t).2 =
      (trace t ++ [Posted (token ++ ".x=100&" ++ token ++ ".y=100")])%list /\
    world (command_succeeds name t).2 =
      (urlopen (token ++ ".x=100&" ++ token ++ ".y=100") (world t)).2 /\
    ((command_succeeds name t).1 = true <->
       replies_ok (token ++ ".x=100&" ++ token ++ ".y=100") (world t)))
    as Hone.
  { intros name token <-. rewrite command_succeeds_traced.
    destruct (command_succeeds_spec name (world t)) as [Hok Hworld].
    fold (form_body (api_cmd name)).
    destruct (command_succeeds name (world t)) as [success d]. simpl in *.
    by rewrite Hworld. }
  repeat (constructor; [apply Hone; vm_compute; reflexivity|]). constructor.
Qed.

End TracedProperties.

(** A member found by its wire code has that code, unless it is the
    default. *)
Lemma matched_value {E : Type} (value : E -> string) (unknown : E)
    (v : string) (m : E) :
  matched value unknown v m -> m <> unknown -> value m = v.
Proof.
  intros [Hfound Hnone] Hm. destruct (decide (value m = v)) as [|Hne]; [done|].
  destruct Hm. apply Hnone. intros e He. apply Hne. by rewrite (Hfound e He).
Qed.

Section ClientExtras.
Context {Device : Type} `{!Transport Device}.

(** X3. [send_key] answers ok with an empty message exactly when the
    player answers the POST with the response code 00.  Otherwise it
    answers error, with the response code as message, or with the word
    unknown when the request raised or the response code is the empty
    string. *)
Theorem send_key_result (key : string) (d : Device) :
  match urlopen (form_body (api_cmd key)) d with
  | (Raised, d') => send_key key d = ("error", "unknown", d')
  | (Body raw, d') =>
      exists first rest code,
        Py.split CRLF raw = first :: rest /\
        code_of_first_line first code /\
        send_key key d =
          (if decide (code = "00") then ("ok", "", d')
           else ("error", if decide (code = "") then "unknown" else code, d'))
  end.
Proof.
  unfold send_key, send_command, _send_raw.
  destruct (urlopen _ d) as [[raw|] d']; [|done].
  destruct (parse_response_returns raw) as (first & rest & code & Hs & Hc & ->).
  exists first, rest, code. split_and!; [done..|].
  case_bool_decide as H00; case_decide; try done.
  f_equal. f_equal. unfold code_or_unknown.
  destruct code; by case_decide.
Qed.

(** X4. [is_tray_open] raises nothing; it answers None exactly when one of
    the two POSTs fails, and True exactly when both succeed and the first
    STATUS_SIMPLE data line has at least 14 fields with 01 as field 3. *)
Theorem is_tray_open_result (d : Device) :
  exists pst_success c1 pst_lines d1 status_success c2 status_lines d2 answer,
    _send_raw pst_data d = (pst_success, c1, pst_lines, d1) /\
    _send_raw status_data d1 = (status_success, c2, status_lines, d2) /\
    is_tray_open d = (Py.Returned answer, d2) /\
    (answer = None <-> pst_success = false \/ status_success = false) /\
    (answer = Some true <->
       pst_success = true /\ status_success = true /\
       exists line more,
         status_lines = line :: more /\
         (14 <= length (Py.split "," line))%nat /\
         Py.split "," line !! 3%nat = Some "01").
Proof.
  destruct (get_player_status_run d)
    as (ps & c1 & pl & d1 & ss & c2 & sl & d2 & H1 & H2 & Hnone & Hsome).
  exists ps, c1, pl, d1, ss, c2, sl, d2. unfold is_tray_open.
  destruct ps, ss; try (rewrite Hnone by auto; exists None; simpl;
    split_and!; try done; [split; auto|split; [done|by intros (? & ? & _)]]).
  destruct Hsome as (st & -> & _ & Hs); [done..|]. simpl.
  exists (Some (bool_decide (device_mode st = DeviceMode.TRAY_OPEN))).
  split_and!; [done..|split; [done|by intros [|]]|].
  assert (Some (bool_decide (device_mode st = DeviceMode.TRAY_OPEN)) = Some true
          <-> device_mode st = DeviceMode.TRAY_OPEN) as ->.
  { split; [intros [= Hb]; by apply bool_decide_eq_true in Hb|].
    intros Hp. f_equal. by apply bool_decide_eq_true. }
  destruct sl as [|line more].
  - rewrite parse_status_lines_nil in Hs. injection Hs as _ <- _ _.
    split; [done|]. by intros (_ & _ & ? & ? & ? & _).
  - destruct (parse_status_lines_cons line more)
      as (on & mode & clock & Hr & _ & Hshort & Hlong).
    rewrite Hr in Hs. injection Hs as _ <- _.
    destruct (Nat.lt_ge_cases (length (Py.split "," line)) 14) as [Hlen|Hlen].
    + destruct (Hshort Hlen) as [-> _]. split; [done|].
      intros (_ & _ & ? & ? & [= <- <-] & ? & _). lia.
    + destruct (Hlong Hlen) as (f3 & f13 & H3 & _ & Hm & _). split.
      * intros ->. split_and!; try done. exists line, more.
        split_and!; try done. rewrite H3. f_equal.
        by apply symmetry, (matched_value _ _ _ _ Hm).
      * intros (_ & _ & line' & more' & [= <- <-] & _ & H3').
        rewrite H3 in H3'. injection H3' as ->.
        by destruct Hm as [Hfound _]; apply (Hfound DeviceMode.TRAY_OPEN).
Qed.

End ClientExtras.

(** ** What the coordinator publishes *)

Section PublishedFacts.
Context {Device : Type} `{!Transport Device, !Clock Device}.

(** The mapping of a poll with a status, key by key. *)
Lemma update_present (d d' : Device) (st : PlayerStatus) :
  get_player_status d = (Py.Returned (Some st), d') ->
  exists data,
    _update d = (Py.Returned data, d') /\
    data !! "state" = Some (PState (media_player_state st)) /\
    data !! "is_on" = Some (PBool (is_on st)) /\
    data !! "device_mode" = Some (PStr (DeviceMode.name (device_mode st))) /\
    data !! "device_mode_value" =
      Some (PStr (DeviceMode.value (device_mode st))) /\
    data !! "playback_state" =
      Some (PStr (PlaybackState.name (playback_state st))) /\
    data !! "playback_state_value" =
      Some (PStr (PlaybackState.value (playback_state st))) /\
    data !! "media_position" = Some (PInt (position_seconds st)) /\
    data !! "media_position_updated_at" = Some (PTime (utcnow d')) /\
    data !! "media_duration" = Some (PInt 0) /\
    data !! "speed_multiplier" = Some (PInt (speed_multiplier st)) /\
    data !! "tray_open" =
      Some (PBool (bool_decide (device_mode st = DeviceMode.TRAY_OPEN))) /\
    data !! "clock_time" = Some (of_optional (clock_time st)) /\
    data !! "raw_pst" = Some (of_optional (raw_pst st)) /\
    data !! "raw_status" = Some (of_optional (raw_status st)).
Proof.
  intros Hst. unfold _update. rewrite Hst. eexists. split; [reflexivity|].
  split_and!; reflexivity.
Qed.

Lemma update_absent (d d' : Device) :
  get_player_status d = (Py.Returned None, d') ->
  _update d = (Py.Returned unknown_state, d').
Proof. intros Hst. unfold _update. by rewrite Hst. Qed.

(** [_update] raises nothing. *)
Lemma update_returns (d : Device) :
  exists data d', _update d = (Py.Returned data, d').
Proof.
  destruct (get_player_status_returns d) as ([st|] & d' & Hst).
  - destruct (update_present d d' st Hst) as (data & Hup & _). by eexists _, _.
  - eexists _, _. by apply update_absent.
Qed.

(** X5. A refresh never fails: [_async_update_data] raises no
    [UpdateFailed], whatever the player answers and whatever the
    coordinator held before; it stores the mapping it returns, in place of
    the old one, and that mapping has at least the nine keys state, is_on,
    device_mode, playback_state, media_position, media_duration,
    speed_multiplier, tray_open and clock_time. *)
Theorem refresh_never_fails (self_data : gmap string pyval) (d : Device) :
  exists data d',
    _update d = (Py.Returned data, d') /\
    _async_update_data self_data d = (Refreshed data, data, d') /\
    Forall (fun key => is_Some (data !! key))
      ["state"; "is_on"; "device_mode"; "playback_state"; "media_position";
       "media_duration"; "speed_multiplier"; "tray_open"; "clock_time"].
Proof.
  unfold _async_update_data.
  destruct (get_player_status_returns d) as ([st|] & d' & Hst).
  - destruct (update_present d d' st Hst)
      as (data & -> & ? & ? & ? & ? & ? & ? & ? & ? & ? & ? & ? & ? & ? & ?).
    exists data, d'. split_and!; [done..|]. repeat constructor; by eexists.
  - rewrite (update_absent d d' Hst). exists unknown_state, d'.
    split_and!; [done..|]. repeat constructor; by eexists.
Qed.

Lemma DeviceMode_name_inj (a b : DeviceMode.t) :
  DeviceMode.name a = DeviceMode.name b -> a = b.
Proof. by destruct a, b. Qed.

(** X6. In every mapping the coordinator publishes, the state is OFF
    exactly when is_on is False, and exactly when device_mode is STANDBY;
    tray_open is True exactly when device_mode is TRAY_OPEN, and the state
    is then IDLE; the state is None exactly when is_on is None, and exactly
    when the key raw_status is missing; media_duration is 0. *)
Theorem published_state_consistent (d : Device) :
  exists data d',
    _update d = (Py.Returned data, d') /\
    (data !! "state" = Some (PState MediaPlayerState.OFF) <->
       data !! "is_on" = Some (PBool false)) /\
    (data !! "is_on" = Some (PBool false) <->
       data !! "device_mode" = Some (PStr "STANDBY")) /\
    (data !! "tray_open" = Some (PBool true) <->
       data !! "device_mode" = Some (PStr "TRAY_OPEN")) /\
    (data !! "tray_open" = Some (PBool true) ->
       data !! "state" = Some (PState MediaPlayerState.IDLE)) /\
    (data !! "state" = Some PNone <-> data !! "is_on" = Some PNone) /\
    (data !! "state" = Some PNone <-> data !! "raw_status" = None) /\
    data !! "media_duration" = Some (PInt 0).
Proof.
  destruct (get_player_status_returns d) as ([st|] & d' & Hst).
  - pose proof (get_player_status_is_on d d' st Hst) as Hon.
    destruct (update_present d d' st Hst)
      as (data & Hup & Hs & Hi & Hm & _ & _ & _ & _ & _ & Hd & _ & Ht & _ & _ & Hr).
    exists data, d'. rewrite Hs, Hi, Hm, Hd, Ht, Hr, Hon.
    unfold media_player_state. rewrite Hon.
    split; [done|]. clear.
    destruct (device_mode st); simpl; split_and!; try done.
  - exists unknown_state, d'. rewrite (update_absent d d' Hst).
    split_and!; try done.
Qed.

(** X7. The compatibility operation and the coordinator agree on the same
    world: [get_status] answers (error, -1, -1) exactly when the published
    state is None, and (standby, 0, 0) exactly when the published state is
    OFF; in every other case its position is the published
    media_position. *)
Theorem get_status_agrees_with_published_state (d : Device) :
  exists data answer d',
    _update d = (Py.Returned data, d') /\
    get_status d = (Py.Returned answer, d') /\
    (answer = ("error", -1, -1) <-> data !! "state" = Some PNone) /\
    (answer = ("standby", 0, 0) <->
       data !! "state" = Some (PState MediaPlayerState.OFF)) /\
    (answer = ("error", -1, -1) \/ answer = ("standby", 0, 0) \/
     data !! "media_position" = Some (PInt answer.1.2)).
Proof.
  destruct (get_player_status_returns d) as ([st|] & d' & Hst).
  - destruct (update_present d d' st Hst)
      as (data & Hup & Hs & _ & _ & _ & _ & _ & Hp & _).
    destruct (is_on st) eqn:Eon.
    + exists data,
        (default "off" (state_map (playback_state st)), position_seconds st, 0),
        d'.
      split; [done|]. split.
      { unfold get_status. rewrite Hst. simpl. by rewrite Eon. }
      rewrite Hs, Hp. unfold media_player_state. rewrite Eon. simpl.
      split_and!.
      * split; [|done]. by destruct (playback_state st).
      * split; [by destruct (playback_state st)|by repeat case_bool_decide].
      * by right; right.
    + exists data, ("standby", 0, 0), d'.
      split; [done|]. split.
      { unfold get_status. rewrite Hst. simpl. by rewrite Eon. }
      rewrite Hs. unfold media_player_state. rewrite Eon. simpl.
      split_and!; try done. by right; left.
  - exists unknown_state, ("error", -1, -1), d'.
    split; [by apply update_absent|]. split.
    { unfold get_status. by rewrite Hst. }
    split_and!; try done. by left.
Qed.

End PublishedFacts.

(** ** Sensors and the speed select *)

Lemma is_empty_false (data : gmap string pyval) (key : string) (v : pyval) :
  data !! key = Some v -> PyVal.is_empty data = false.
Proof.
  intros Hkey. unfold PyVal.is_empty. apply bool_decide_eq_false.
  intros ->. by rewrite lookup_empty in Hkey.
Qed.

Lemma get_or_Some (data : gmap string pyval) (key : string) (v dflt : pyval) :
  data !! key = Some v -> PyVal.get_or data key dflt = v.
Proof. unfold PyVal.get_or. by intros ->. Qed.

Lemma get_Some (data : gmap string pyval) (key : string) (v : pyval) :
  data !! key = Some v -> PyVal.get data key = v.
Proof. unfold PyVal.get. by intros ->. Qed.

(** Up to 99 the two-character format is the two decimal digits. *)
Lemma format_02d_two_digits (n : Z) :
  0 <= n < 100 -> PyVal.format_02d n = two_digits n.
Proof.
  intros Hn.
  assert (Forall (fun k => PyVal.format_02d (Z.of_nat k) = two_digits (Z.of_nat k))
            (seq 0 100)) as Hall.
  { apply (bool_decide_unpack _). vm_compute. reflexivity. }
  rewrite Forall_forall in Hall. specialize (Hall (Z.to_nat n)).
  rewrite Z2Nat.id in Hall by lia. apply Hall, elem_of_seq. lia.
Qed.

(** X8. Below 100 hours the position sensor shows a position that is not
    negative as HH:MM:SS, two decimal digits each, with minutes and seconds
    below 60, and the position is 3600 times the hours plus 60 times the
    minutes plus the seconds. *)
Theorem position_sensor_shows_hh_mm_ss (data : gmap string pyval) (position : Z) :
  data !! "media_position" = Some (PInt position) ->
  0 <= position < 360000 ->
  exists hours minutes seconds,
    0 <= hours < 100 /\ 0 <= minutes < 60 /\ 0 <= seconds < 60 /\
    position = 3600 * hours + 60 * minutes + seconds /\
    PanasonicPositionSensor.native_value data =
      PyVal.Fine
        (PStr (two_digits hours ++ ":" ++ two_digits minutes ++ ":"
               ++ two_digits seconds)).
Proof.
  intros Hpos Hrange. unfold PanasonicPositionSensor.native_value.
  rewrite (is_empty_false _ _ _ Hpos), (get_or_Some _ _ _ _ Hpos). simpl.
  destruct (position =? 0) eqn:Hzero.
  - apply Z.eqb_eq in Hzero as ->. exists 0, 0, 0. split_and!; done.
  - exists (position / 3600), ((position mod 3600) / 60), (position mod 60).
    assert (0 <= position / 3600 < 100) as Hh
      by (Z.div_mod_to_equations; lia).
    assert (0 <= (position mod 3600) / 60 < 60) as Hm
      by (Z.div_mod_to_equations; lia).
    assert (0 <= position mod 60 < 60) as Hs by (Z.div_mod_to_equations; lia).
    do 3 (split; [done|]). split; [Z.div_mod_to_equations; lia|].
    unfold PanasonicPositionSensor.hh_mm_ss.
    rewrite (format_02d_two_digits _ Hh).
    rewrite (format_02d_two_digits ((position mod 3600) / 60)) by lia.
    by rewrite (format_02d_two_digits (position mod 60)) by lia.
Qed.

Lemma position_sensor_shows_hh_mm_ss_witness :
  let data : gmap string pyval := {[ "media_position" := PInt 3725 ]} in
  data !! "media_position" = Some (PInt 3725) /\
  0 <= 3725 < 360000 /\
  exists hours minutes seconds,
    0 <= hours < 100 /\ 0 <= minutes < 60 /\ 0 <= seconds < 60 /\
    3725 = 3600 * hours + 60 * minutes + seconds /\
    PanasonicPositionSensor.native_value data =
      PyVal.Fine
        (PStr (two_digits hours ++ ":" ++ two_digits minutes ++ ":"
               ++ two_digits seconds)).
Proof.
  intros data. split; [reflexivity|]. split; [lia|].
  apply (position_sensor_shows_hh_mm_ss data 3725); [reflexivity|lia].
Defined.

(** What writing entries one after the other leaves under a key: an entry
    of the list, or what the map held. *)
Lemma foldl_insert_lookup {K V A : Type} `{Countable K}
    (key : A -> K) (val : A -> V) (items : list A) (m : gmap K V)
    (k : K) (v : V) :
  foldl (fun m a => <[key a := val a]> m) m items !! k = Some v ->
  (exists a, a ∈ items /\ key a = k /\ val a = v) \/ m !! k = Some v.
Proof.
  revert m. induction items as [|a items IH]; intros m; simpl; [by right|].
  intros [(b & Hb & ? & ?)|Hm]%IH.
  - left. exists b. split_and!; try done. by apply list_elem_of_further.
  - destruct (decide (key a = k)) as [<-|Hne].
    + rewrite lookup_insert_eq in Hm. injection Hm as <-.
      left. exists a. split_and!; try done. apply list_elem_of_here.
    + rewrite lookup_insert_ne in Hm by done. by right.
Qed.

(** X9. The speed select and the speed sensor agree on every option: for
    each entry of SPEED_OPTIONS, the reverse mapping sends its speed back to
    its name, the select shows that name for that speed, the sensor shows
    the same label, and its command is an alias of the command table, with
    the token cCMD_RC_ followed by the command. *)
Theorem speed_options_consistent :
  Forall
    (fun '((name, (command, speed)) : string * (string * Z)) =>
       SPEED_OPTIONS !! name = Some (command, speed) /\
       SPEED_VALUE_TO_NAME !! speed = Some name /\
       COMMANDS !! command = Some ("cCMD_RC_" ++ command) /\
       forall data : gmap string pyval,
         data !! "speed_multiplier" = Some (PInt speed) ->
         PanasonicSpeedSelect.current_option data = Some name /\
         PanasonicSpeedSensor.native_value data = PyVal.Fine (PStr name))
    SPEED_OPTIONS_items.
Proof.
  assert (forall name command speed,
    SPEED_OPTIONS !! name = Some (command, speed) ->
    SPEED_VALUE_TO_NAME !! speed = Some name ->
    COMMANDS !! command = Some ("cCMD_RC_" ++ command) ->
    PanasonicSpeedSensor.native_value {[ "speed_multiplier" := PInt speed ]} =
      PyVal.Fine (PStr name) ->
    SPEED_OPTIONS !! name = Some (command, speed) /\
    SPEED_VALUE_TO_NAME !! speed = Some name /\
    COMMANDS !! command = Some ("cCMD_RC_" ++ command) /\
    forall data : gmap string pyval,
      data !! "speed_multiplier" = Some (PInt speed) ->
      PanasonicSpeedSelect.current_option data = Some name /\
      PanasonicSpeedSensor.native_value data = PyVal.Fine (PStr name))
    as Hentry.
  { intros name command speed Hopt Hrev Hcmd Hlabel.
    split; [exact Hopt|]. split; [exact Hrev|]. split; [exact Hcmd|].
    intros data Hspeed.
    unfold PanasonicSpeedSelect.current_option,
      PanasonicSpeedSensor.native_value in *.
    rewrite (is_empty_false _ _ _ Hspeed), (get_or_Some _ _ _ _ Hspeed).
    rewrite (is_empty_false _ "speed_multiplier" (PInt speed)) in Hlabel
      by apply lookup_singleton_eq.
    rewrite (get_or_Some _ _ (PInt speed)) in Hlabel
      by apply lookup_singleton_eq.
    simpl in Hlabel |- *. rewrite Hrev. split; [reflexivity|exact Hlabel]. }
  unfold SPEED_OPTIONS_items.
  repeat (apply Forall_cons; split;
    [cbv beta iota; apply Hentry; vm_compute; reflexivity|]).
  constructor.
Qed.

(** X10. The speed select shows an option of its list or nothing: it
    shows nothing exactly when the coordinator holds an empty mapping or
    the speed is None; for every other value, a speed outside the table
    included, what it shows is an entry of the option list. *)
Theorem current_option_is_an_option (data : gmap string pyval) :
  (PanasonicSpeedSelect.current_option data = None <->
     data = ∅ \/ data !! "speed_multiplier" = Some PNone) /\
  (forall option,
     PanasonicSpeedSelect.current_option data = Some option ->
     option ∈ PanasonicSpeedSelect._attr_options).
Proof.
  unfold PanasonicSpeedSelect.current_option, PyVal.is_empty.
  case_bool_decide as Hempty.
  { split; [by split; [left|]|done]. }
  assert ("Normal" ∈ PanasonicSpeedSelect._attr_options) as Hnormal.
  { apply list_elem_of_In. vm_compute. tauto. }
  assert (forall n, default "Normal" (SPEED_VALUE_TO_NAME !! n)
                      ∈ PanasonicSpeedSelect._attr_options) as Hname.
  { intros n. destruct (SPEED_VALUE_TO_NAME !! n) as [name|] eqn:Hn; [|done].
    apply (foldl_insert_lookup (fun kv : string * (string * Z) => kv.2.2)
             (fun kv => kv.1)) in Hn as [(a & Ha & _ & <-)|Hno].
    - apply list_elem_of_fmap. by exists a.
    - by rewrite lookup_empty in Hno. }
  unfold PyVal.get_or.
  destruct (data !! "speed_multiplier") as [speed|] eqn:Hspeed; simpl.
  - destruct speed as [|b|n|s|s|time]; simpl;
      try (split; [split; [done|by intros [|[=]]]|by intros option [= <-]]).
    split; [|done]. split; [by right|done].
  - split; [split; [done|by intros [|]]|]. intros option [= <-]. apply Hname.
Qed.

Lemma SPEED_OPTIONS_lookup (name : string) (entry : string * Z) :
  (name, entry) ∈ SPEED_OPTIONS_items -> SPEED_OPTIONS !! name = Some entry.
Proof.
  assert (Forall (fun kv => SPEED_OPTIONS !! kv.1 = Some kv.2) SPEED_OPTIONS_items)
    as Hall.
  { apply (bool_decide_unpack _). vm_compute. reflexivity. }
  intros Hin. rewrite Forall_forall in Hall. apply (Hall _ Hin).
Qed.

Lemma SPEED_OPTIONS_commands (name command : string) (speed : Z) :
  (name, (command, speed)) ∈ SPEED_OPTIONS_items ->
  api_cmd command = "cCMD_RC_" ++ command.
Proof.
  assert (Forall (fun kv => api_cmd kv.2.1 = "cCMD_RC_" ++ kv.2.1)
            SPEED_OPTIONS_items) as Hall.
  { apply (bool_decide_unpack _). vm_compute. reflexivity. }
  intros Hin. rewrite Forall_forall in Hall. apply (Hall _ Hin).
Qed.

Section SelectProperties.
Context {Delay Device : Type} `{!Transport Device}.

Implicit Types t : traced Delay Device.

(** X11. Selecting a text that is no option of the speed select sends
    nothing and leaves the world as it was; selecting an option makes
    exactly one POST, with the body token.x=100&token.y=100 of the token
    cCMD_RC_ followed by the command of that option. *)
Theorem select_option_posts (option : string) t :
  (option ∉ PanasonicSpeedSelect._attr_options ->
     PanasonicSpeedSelect.select_option option t = t) /\
  (forall command speed,
     (option, (command, speed)) ∈ SPEED_OPTIONS_items ->
     let token := "cCMD_RC_" ++ command in
     trace (PanasonicSpeedSelect.select_option option t) =
       (trace t ++ [Posted (token ++ ".x=100&" ++ token ++ ".y=100")])%list /\
     world (PanasonicSpeedSelect.select_option option t) =
       (urlopen (token ++ ".x=100&" ++ token ++ ".y=100") (world t)).2).
Proof.
  unfold PanasonicSpeedSelect.select_option. split.
  - intros Hno. destruct (SPEED_OPTIONS !! option) as [entry|] eqn:Hlook; [|done].
    destruct Hno.
    apply (foldl_insert_lookup (fun kv : string * (string * Z) => kv.1)
             (fun kv => kv.2)) in Hlook as [(a & Ha & <- & _)|Hno].
    + apply list_elem_of_fmap. by exists a.
    + by rewrite lookup_empty in Hno.
  - intros command speed Hin.
    rewrite (SPEED_OPTIONS_lookup _ _ Hin), send_command_traced.
    rewrite (SPEED_OPTIONS_commands _ _ _ Hin).
    unfold send_command. rewrite (SPEED_OPTIONS_commands _ _ _ Hin).
    set (token := "cCMD_RC_" ++ command).
    rewrite <- send_raw_world. fold (form_body token).
    by destruct (_send_raw (form_body token) (world t))
      as [[[success code] lines] d].
Qed.

End SelectProperties.

(** ** Remote *)

Lemma COMMANDS_keys_upper (alias : string) :
  alias ∈ COMMANDS_items.*1 -> Py.upper alias = alias.
Proof.
  revert alias. apply Forall_forall.
  apply (bool_decide_unpack _). vm_compute. reflexivity.
Qed.

(** X12. The commands the remote entity lists are the aliases of the
    command table, each once: every listed command is an alias, every alias
    is listed, and a listed command resolves to the token the table gives
    it, never to a guessed one. *)
Theorem remote_commands_are_the_table_aliases :
  NoDup PanasonicBluRayRemote.AVAILABLE_COMMANDS /\
  (forall command,
     command ∈ PanasonicBluRayRemote.AVAILABLE_COMMANDS <->
     command ∈ COMMANDS_items.*1) /\
  (forall command,
     command ∈ PanasonicBluRayRemote.AVAILABLE_COMMANDS ->
     (command, api_cmd command) ∈ COMMANDS_items).
Proof.
  assert (forall command,
    command ∈ PanasonicBluRayRemote.AVAILABLE_COMMANDS <->
    command ∈ COMMANDS_items.*1) as Hsame.
  { intros command. split; revert command; apply Forall_forall;
      apply (bool_decide_unpack _); vm_compute; reflexivity. }
  split_and!; [|exact Hsame|].
  - apply (bool_decide_unpack _). vm_compute. reflexivity.
  - intros command Hkey%Hsame.
    pose proof (COMMANDS_keys_upper _ Hkey) as Hup.
    apply list_elem_of_fmap in Hkey as [[alias token] [-> Hin]].
    simpl in *. pose proof Hin as Hlook%COMMANDS_lookup.
    unfold api_cmd. by rewrite Hup, Hlook.
Qed.

Section RemoteProperties.
Context {Delay Device : Type} `{!Transport Device, !Sleeper Delay Device}.

Implicit Types t : traced Delay Device.

(** With a delay [time.sleep] takes, the inner loop sends every command. *)
Lemma send_each_traced (command : list string) (delay_secs : Delay) t :
  sleep_refuses (Device := Device) delay_secs = None ->
  exists d,
    PanasonicBluRayRemote.send_each command delay_secs t =
      (Py.Returned (), {| trace := trace t ++ sent_each command delay_secs;
                          world := d |}).
Proof.
  intros Htakes. revert t. induction command as [|c command IH]; intros t; simpl.
  - exists (world t). rewrite app_nil_r. by destruct t.
  - rewrite send_command_traced.
    destruct (send_command c (world t)) as [[success code] d].
    rewrite Htakes.
    match goal with
    | |- context [PanasonicBluRayRemote.send_each command delay_secs ?t'] =>
        destruct (IH t') as [d' ->]
    end.
    exists d'. simpl. by rewrite <- !app_assoc.
Qed.

Lemma repeat_send_traced (times : nat) (command : list string)
    (delay_secs : Delay) t :
  sleep_refuses (Device := Device) delay_secs = None ->
  exists d,
    PanasonicBluRayRemote.repeat_send times command delay_secs t =
      (Py.Returned (),
       {| trace := trace t ++ concat (replicate times (sent_each command delay_secs));
          world := d |}).
Proof.
  intros Htakes. revert t. induction times as [|times IH]; intros t; simpl.
  - exists (world t). rewrite app_nil_r. by destruct t.
  - destruct (send_each_traced command delay_secs t Htakes) as [d ->].
    destruct (IH {| trace := trace t ++ sent_each command delay_secs; world := d |})
      as [d' ->].
    exists d'. simpl. by rewrite <- app_assoc.
Qed.

(** X13. The remote's [send_command] sends the commands of its list in
    order, each as one POST of its resolved token followed by one wait of
    the delay, and the whole list [num_repeats] times over, when the delay
    is one [time.sleep] takes.  With a delay [time.sleep] refuses (a
    negative one), a list that is not empty and a repeat count of 1 or more,
    the first command alone is posted, nothing is waited for, and the
    exception of [time.sleep] goes to the caller.  With an empty list, or a
    repeat count of 0 or less, it sends nothing and returns. *)
Theorem remote_send_command_trace (command : list string) (num_repeats : Z)
    (delay_secs : Delay) t :
  (sleep_refuses (Device := Device) delay_secs = None ->
   exists t',
     PanasonicBluRayRemote.send_command command num_repeats delay_secs t =
       (Py.Returned (), t') /\
     trace t' =
       (trace t ++
        concat (replicate (Z.to_nat num_repeats)
                  (flat_map
                     (fun c => [Posted (form_body (api_cmd c)); Slept delay_secs])
                     command)))%list) /\
  (forall e first rest,
     sleep_refuses (Device := Device) delay_secs = Some e ->
     command = first :: rest -> 0 < num_repeats ->
     exists t',
       PanasonicBluRayRemote.send_command command num_repeats delay_secs t =
         (Py.Raises e, t') /\
       trace t' = (trace t ++ [Posted (form_body (api_cmd first))])%list) /\
  (command = [] \/ num_repeats <= 0 ->
   PanasonicBluRayRemote.send_command command num_repeats delay_secs t =
     (Py.Returned (), t)).
Proof.
  unfold PanasonicBluRayRemote.send_command. split_and!.
  - intros Htakes.
    destruct (repeat_send_traced (Z.to_nat num_repeats) command delay_secs t Htakes)
      as [d ->].
    by eexists.
  - intros e first rest Hrefuses -> Hn.
    destruct (Z.to_nat num_repeats) as [|n] eqn:En; [lia|]. simpl.
    rewrite send_command_traced.
    destruct (send_command first (world t)) as [[success code] d].
    rewrite Hrefuses. by eexists.
  - intros [-> | Hn].
    + induction (Z.to_nat num_repeats) as [|n IH]; [done|]. simpl. apply IH.
    + replace (Z.to_nat num_repeats) with 0%nat by lia. done.
Qed.

End RemoteProperties.

(** X13 at the player that answers 00, with a delay of -1 second. *)
Lemma remote_send_command_trace_witness :
  let t := untouched (Delay := Z) silent_player in
  sleep_refuses (Device := canned) (-1) = Some Py.ValueError /\
  exists t',
    PanasonicBluRayRemote.send_command ["UP"; "ok"] 2 (-1) t =
      (Py.Raises Py.ValueError, t') /\
    trace t' = (trace t ++ [Posted (form_body (api_cmd "UP"))])%list.
Proof.
  intros t. split; [reflexivity|].
  apply (proj1 (proj2 (remote_send_command_trace ["UP"; "ok"] 2 (-1) t))
           Py.ValueError "UP" ["ok"]); [reflexivity|reflexivity|lia].
Defined.

(** ** Media player *)

Section MediaPlayerProperties.
Context {Delay Device : Type} `{!Transport Device}.

Implicit Types t : traced Delay Device.
Implicit Types self : PanasonicBluRayMediaPlayer.t.

Lemma media_player_turn_off_traced self t :
  PanasonicBluRayMediaPlayer.turn_off self t =
    (PanasonicBluRayMediaPlayer.set_state (PState MediaPlayerState.OFF) self,
     if PyVal.equal (PanasonicBluRayMediaPlayer._attr_state self)
          (PState MediaPlayerState.OFF)
     then t
     else logged (Posted (form_body "cCMD_RC_POWEROFF"))
            (urlopen (form_body "cCMD_RC_POWEROFF") (world t)).2 t).
Proof.
  unfold PanasonicBluRayMediaPlayer.turn_off. f_equal.
  destruct (PyVal.equal _ _); [done|]. simpl.
  unfold power_off. rewrite command_succeeds_traced.
  destruct (command_succeeds_spec "POWEROFF" (world t)) as [_ Hworld].
  destruct (command_succeeds "POWEROFF" (world t)) as [success d].
  simpl in *. by rewrite Hworld.
Qed.

Lemma media_player_turn_on_traced self t :
  PanasonicBluRayMediaPlayer.turn_on self t =
    (PanasonicBluRayMediaPlayer.set_state (PState MediaPlayerState.IDLE) self,
     if PyVal.equal (PanasonicBluRayMediaPlayer._attr_state self)
          (PState MediaPlayerState.OFF)
     then logged (Posted (form_body "cCMD_RC_POWERON"))
            (urlopen (form_body "cCMD_RC_POWERON") (world t)).2 t
     else t).
Proof.
  unfold PanasonicBluRayMediaPlayer.turn_on. f_equal.
  destruct (PyVal.equal _ _); [|done]. simpl.
  unfold power_on. rewrite command_succeeds_traced.
  destruct (command_succeeds_spec "POWERON" (world t)) as [_ Hworld].
  destruct (command_succeeds "POWERON" (world t)) as [success d].
  simpl in *. by rewrite Hworld.
Qed.

(** X14. The media player sends POWEROFF on [turn_off] exactly when its
    state is not OFF, and POWERON on [turn_on] exactly when its state is
    OFF; [turn_off] leaves the state OFF and [turn_on] leaves it IDLE.  So
    a second [turn_off], or a second [turn_on], sends nothing, and so does
    a [turn_on] while the state is unknown (None, after a poll without a
    status). *)
Theorem media_player_power self t :
  let state := PanasonicBluRayMediaPlayer._attr_state self in
  let off := PanasonicBluRayMediaPlayer.turn_off self t in
  let on := PanasonicBluRayMediaPlayer.turn_on self t in
  PanasonicBluRayMediaPlayer._attr_state off.1 = PState MediaPlayerState.OFF /\
  PanasonicBluRayMediaPlayer._attr_state on.1 = PState MediaPlayerState.IDLE /\
  trace off.2 =
    (trace t ++
     if PyVal.equal state (PState MediaPlayerState.OFF) then []
     else [Posted "cCMD_RC_POWEROFF.x=100&cCMD_RC_POWEROFF.y=100"])%list /\
  trace on.2 =
    (trace t ++
     if PyVal.equal state (PState MediaPlayerState.OFF)
     then [Posted "cCMD_RC_POWERON.x=100&cCMD_RC_POWERON.y=100"]
     else [])%list /\
  PanasonicBluRayMediaPlayer.turn_off off.1 off.2 = off /\
  PanasonicBluRayMediaPlayer.turn_on on.1 on.2 = on /\
  (state = PNone -> on.2 = t).
Proof.
  intros state off on. subst off on.
  rewrite !media_player_turn_off_traced, !media_player_turn_on_traced.
  fold state. cbn [fst snd]. split_and!.
  - reflexivity.
  - reflexivity.
  - destruct (PyVal.equal state _); simpl; [by rewrite app_nil_r|done].
  - destruct (PyVal.equal state _); simpl; [done|by rewrite app_nil_r].
  - reflexivity.
  - reflexivity.
  - by intros ->.
Qed.

End MediaPlayerProperties.

(** ** Entities on what the coordinator publishes *)

Section EntityProperties.
Context {Device : Type} `{!Transport Device, !Clock Device}.

(** A clock time that is present is not the empty string. *)
Lemma get_player_status_clock (d d' : Device) (st : PlayerStatus) :
  get_player_status d = (Py.Returned (Some st), d') ->
  clock_time st <> Some EmptyString.
Proof.
  intros (c1 & pl & d1 & c2 & sl & _ & _ & _ & Hs)%get_player_status_inv.
  destruct sl as [|line more].
  - rewrite parse_status_lines_nil in Hs. by injection Hs as _ _ <- _.
  - destruct (parse_status_lines_cons line more)
      as (on & mode & clock & Hr & _ & Hshort & Hlong).
    rewrite Hr in Hs. injection Hs as _ _ <- _.
    destruct (Nat.lt_ge_cases (length (Py.split "," line)) 14) as [Hlen|Hlen].
    + destruct (Hshort Hlen) as [_ Hc]. by rewrite Hc.
    + destruct (Hlong Hlen) as (f3 & f13 & _ & _ & _ & Hc). rewrite Hc.
      case_decide; [done|]. congruence.
Qed.

(** X15. The extra attributes of the media player hold what is known and
    nothing else: after a poll with a status, device_mode, playback_state,
    speed_multiplier and tray_open, and clock_time when the status has one;
    after a poll without a status, speed_multiplier (0) alone. *)
Theorem media_player_attributes (d : Device) :
  exists status data d',
    get_player_status d = (Py.Returned status, d') /\
    _update d = (Py.Returned data, d') /\
    PanasonicBluRayMediaPlayer.extra_state_attributes data =
      match status with
      | None => {[ "speed_multiplier" := PInt 0 ]}
      | Some st =>
          let known : gmap string pyval :=
            <["speed_multiplier" := PInt (speed_multiplier st)]>
              (<["playback_state" :=
                   PStr (PlaybackState.name (playback_state st))]>
                 {[ "device_mode" := PStr (DeviceMode.name (device_mode st)) ]}) in
          <["tray_open" :=
              PBool (bool_decide (device_mode st = DeviceMode.TRAY_OPEN))]>
            match clock_time st with
            | Some clock => <["clock_time" := PStr clock]> known
            | None => known
            end
      end.
Proof.
  destruct (get_player_status_returns d) as ([st|] & d' & Hst).
  - pose proof (get_player_status_clock d d' st Hst) as Hclock.
    destruct (update_present d d' st Hst)
      as (data & Hup & Hs & _ & Hm & _ & Hp & _ & _ & _ & _ & Hv & Ht & Hc & _).
    exists (Some st), data, d'. split; [done|]. split; [done|].
    unfold PanasonicBluRayMediaPlayer.extra_state_attributes,
      PanasonicBluRayMediaPlayer.copy_if_truthy,
      PanasonicBluRayMediaPlayer.copy_if_not_None.
    rewrite (is_empty_false _ _ _ Hs).
    rewrite !(get_Some _ _ _ Hm), !(get_Some _ _ _ Hp), !(get_Some _ _ _ Hv),
      !(get_Some _ _ _ Ht), !(get_Some _ _ _ Hc).
    clear Hup Hs Hm Hp Hv Ht Hc Hst.
    assert (PyVal.truthy (PStr (DeviceMode.name (device_mode st))) = true) as ->
      by by destruct (device_mode st).
    assert (PyVal.truthy (PStr (PlaybackState.name (playback_state st))) = true)
      as -> by by destruct (playback_state st).
    destruct (clock_time st) as [[|c clock]|]; [by destruct Hclock|..];
      reflexivity.
  - exists None, unknown_state, d'. split; [done|].
    split; [by apply update_absent|]. reflexivity.
Qed.

(** X16. On what the coordinator publishes no sensor raises: the position
    sensor and the speed sensor show a text and the speed select shows an
    option, whatever the player answers.  After a poll without a status
    they show 00:00:00, Normal and Normal, while the device mode, playback
    state and clock sensors, the tray switch and the remote show None. *)
Theorem entities_show_published_data (d : Device) :
  exists data d',
    _update d = (Py.Returned data, d') /\
    (exists shown,
       PanasonicPositionSensor.native_value data = PyVal.Fine (PStr shown)) /\
    (exists label,
       PanasonicSpeedSensor.native_value data = PyVal.Fine (PStr label)) /\
    (exists option, PanasonicSpeedSelect.current_option data = Some option) /\
    (data !! "state" = Some PNone ->
       PanasonicPositionSensor.native_value data =
         PyVal.Fine (PStr "00:00:00") /\
       PanasonicSpeedSensor.native_value data = PyVal.Fine (PStr "Normal") /\
       PanasonicSpeedSelect.current_option data = Some "Normal" /\
       PanasonicDeviceModeSensor.native_value data = PNone /\
       PanasonicPlaybackStateSensor.native_value data = PNone /\
       PanasonicClockSensor.native_value data = PNone /\
       PanasonicTraySwitch.is_on data = PNone /\
       PanasonicBluRayRemote.is_on data = PNone).
Proof.
  destruct (get_player_status_returns d) as ([st|] & d' & Hst).
  - destruct (update_present d d' st Hst)
      as (data & Hup & Hs & _ & _ & _ & _ & _ & Hp & _ & _ & Hv & _).
    exists data, d'. split; [done|].
    unfold PanasonicPositionSensor.native_value,
      PanasonicSpeedSensor.native_value, PanasonicSpeedSelect.current_option.
    rewrite (is_empty_false _ _ _ Hs), (get_or_Some _ _ _ _ Hp),
      (get_or_Some _ _ _ _ Hv), Hs. simpl.
    split_and!.
    + destruct (position_seconds st =? 0); by eexists.
    + destruct (speed_multiplier st =? 0); by eexists.
    + by eexists.
    + intros [=].
  - exists unknown_state, d'. split; [by apply update_absent|].
    split_and!; by eexists.
Qed.

(** X17. The tray switch and the client agree on the same world: the
    switch shows None exactly when [is_tray_open] answers None, and else
    the truth value [is_tray_open] answers; the remote shows the [is_on] of
    the status. *)
Theorem tray_switch_agrees_with_client (d : Device) :
  exists status data answer d',
    get_player_status d = (Py.Returned status, d') /\
    _update d = (Py.Returned data, d') /\
    is_tray_open d = (Py.Returned answer, d') /\
    PanasonicTraySwitch.is_on data =
      match answer with
      | Some open => PBool open
      | None => PNone
      end /\
    PanasonicBluRayRemote.is_on data =
      match status with
      | Some st => PBool (is_on st)
      | None => PNone
      end.
Proof.
  destruct (get_player_status_returns d) as ([st|] & d' & Hst).
  - destruct (update_present d d' st Hst)
      as (data & Hup & Hs & Hi & _ & _ & _ & _ & _ & _ & _ & _ & Ht & _).
    exists (Some st), data,
      (Some (bool_decide (device_mode st = DeviceMode.TRAY_OPEN))), d'.
    unfold is_tray_open, PanasonicTraySwitch.is_on, PanasonicBluRayRemote.is_on.
    rewrite Hst, (is_empty_false _ _ _ Hs), (get_Some _ _ _ Ht),
      (get_Some _ _ _ Hi).
    by split_and!.
  - exists None, unknown_state, None, d'.
    unfold is_tray_open. rewrite Hst, (update_absent d d' Hst).
    by split_and!.
Qed.

End EntityProperties.

Section TransportShape.
Context {Device : Type} `{!Transport Device}.

(** X18. [_send_raw] lets no exception out.  Its response code is None
    exactly when the request raised, and then it reports no success and no
    data line; a success carries the code 00; no data line it returns is
    blank; and the world it leaves is the world after the one request. *)
Theorem send_raw_result_shape (data : string) (d : Device) :
  exists success code lines,
    _send_raw data d = (success, code, lines, (urlopen data d).2) /\
    (code = None <-> (urlopen data d).1 = Raised) /\
    (code = None -> success = false /\ lines = []) /\
    (success = true -> code = Some "00") /\
    Forall (fun line => ~ blank line) lines.
Proof.
  unfold _send_raw. destruct (urlopen data d) as [[raw|] d']; simpl.
  - destruct (parse_response_returns raw) as (first & rest & code & _ & _ & ->).
    eexists _, _, _. split; [reflexivity|]. split_and!; try done.
    + by intros ->%bool_decide_eq_true.
    + apply Forall_forall. intros line Hin%list_elem_of_In.
      apply List.filter_In in Hin as [_ Hnb]. by apply bool_decide_eq_true in Hnb.
  - eexists _, _, _. split; [reflexivity|]. by split_and!.
Qed.

End TransportShape.

(** ** Configuration check *)

Section ValidationProperties.
Context {World : Type} `{!Network World}.

(** X19. [validate_input] raises [KeyError] when the input names no host.
    Otherwise it queries the status at that host and returns every entry of
    the input unchanged; it adds the entry error, with the host in its
    message, exactly when the status is absent (one of the two POSTs
    failed) and the input has no error entry of its own. *)
Theorem validate_input_result (user_input : gmap string string) (w : World) :
  match user_input !! "host" with
  | None => validate_input user_input w = (KeyError, w)
  | Some host =>
      exists status config w',
        @get_player_status World (endpoint host) w = (Py.Returned status, w') /\
        validate_input user_input w = (Config config, w') /\
        (forall key, key <> "error" -> config !! key = user_input !! key) /\
        config !! "error" =
          match user_input !! "error", status with
          | Some message, _ => Some message
          | None, None =>
              Some ("Could not connect to Panasonic device at " ++ host)
          | None, Some _ => None
          end
  end.
Proof.
  unfold validate_input. destruct (user_input !! "host") as [host|]; [|done].
  destruct (@get_player_status_returns World (endpoint host) w)
    as (status & w' & Hst).
  exists status. rewrite Hst. eexists _, w'. split; [done|]. split; [done|].
  split.
  - intros key Hkey. rewrite lookup_union.
    destruct status; [by rewrite lookup_empty, (right_id_L None _)|].
    rewrite lookup_singleton_ne by done. by rewrite (right_id_L None _).
  - rewrite lookup_union. destruct status.
    + rewrite lookup_empty, (right_id_L None _).
      by destruct (user_input !! "error").
    + rewrite lookup_singleton_eq. by destruct (user_input !! "error").
Qed.

End ValidationProperties.

(** ** The media player after a poll *)

Section MediaPlayerAfterPoll.
Context {Delay Device : Type} `{!Transport Device, !Clock Device}.

Implicit Types t : traced Delay Device.
Implicit Types self : PanasonicBluRayMediaPlayer.t.

Lemma state_equal_OFF (s : MediaPlayerState.t) :
  PyVal.equal (PState s) (PState MediaPlayerState.OFF) =
    bool_decide (s = MediaPlayerState.OFF).
Proof. by destruct s. Qed.

(** X20. After the media player has taken over a poll, [turn_on] sends
    POWERON exactly when that poll saw the player in standby (is_on False),
    and [turn_off] sends POWEROFF exactly when it did not: so after a poll
    without a status [turn_on] sends nothing and [turn_off] sends
    POWEROFF. *)
Theorem media_player_power_after_poll (d : Device) self t :
  exists data d',
    _update d = (Py.Returned data, d') /\
    let polled := PanasonicBluRayMediaPlayer._update_from_data data self in
    let standby := bool_decide (data !! "is_on" = Some (PBool false)) in
    trace (PanasonicBluRayMediaPlayer.turn_on polled t).2 =
      (trace t ++
       if standby
       then [Posted "cCMD_RC_POWERON.x=100&cCMD_RC_POWERON.y=100"]
       else [])%list /\
    trace (PanasonicBluRayMediaPlayer.turn_off polled t).2 =
      (trace t ++
       if standby then []
       else [Posted "cCMD_RC_POWEROFF.x=100&cCMD_RC_POWEROFF.y=100"])%list.
Proof.
  destruct (get_player_status_returns d) as ([st|] & d' & Hst).
  - pose proof (get_player_status_is_on d d' st Hst) as Hon.
    destruct (update_present d d' st Hst) as (data & Hup & Hs & Hi & _).
    exists data, d'. split; [done|]. intros polled standby.
    rewrite media_player_turn_on_traced, media_player_turn_off_traced.
    subst polled standby. simpl. rewrite (get_Some _ _ _ Hs), Hi.
    rewrite state_equal_OFF. unfold media_player_state. rewrite Hon.
    clear. destruct (device_mode st); simpl; by rewrite ?app_nil_r.
  - exists unknown_state, d'. split; [by apply update_absent|].
    intros polled standby.
    rewrite media_player_turn_on_traced, media_player_turn_off_traced.
    subst polled standby. simpl. by rewrite app_nil_r.
Qed.

End MediaPlayerAfterPoll.

(** ** The entities on sample inputs *)

Module EntityExamples.

Example position_of_negative :
  PanasonicPositionSensor.native_value {[ "media_position" := PInt (-5) ]} =
    PyVal.Fine (PStr "-1:59:55").
Proof. reflexivity. Qed.

Example position_past_hundred_hours :
  PanasonicPositionSensor.native_value {[ "media_position" := PInt 360000 ]} =
    PyVal.Fine (PStr "100:00:00").
Proof. reflexivity. Qed.

Example position_of_text :
  PanasonicPositionSensor.native_value {[ "media_position" := PStr "125" ]} =
    PyVal.TypeError.
Proof. reflexivity. Qed.

Example speed_slow :
  PanasonicSpeedSensor.native_value {[ "speed_multiplier" := PInt 16 ]} =
    PyVal.Fine (PStr "Slow 2").
Proof. reflexivity. Qed.

Example speed_gap :
  PanasonicSpeedSensor.native_value {[ "speed_multiplier" := PInt 19 ]} =
    PyVal.Fine (PStr "Unknown (19)").
Proof. reflexivity. Qed.

Example select_shows_normal_for_slow :
  PanasonicSpeedSelect.current_option {[ "speed_multiplier" := PInt 16 ]} =
    Some "Normal".
Proof. vm_compute. reflexivity. Qed.

Example before_first_poll :
  PanasonicPositionSensor.native_value ∅ = PyVal.Fine PNone /\
  PanasonicSpeedSelect.current_option ∅ = None /\
  PanasonicBluRayMediaPlayer.extra_state_attributes ∅ = ∅.
Proof. split_and!; reflexivity. Qed.

Example remote_sends_twice :
  PanasonicBluRayRemote.send_command ["UP"; "ok"] 2 1 (untouched silent_player) =
    (Py.Returned (),
     {| trace :=
          [Posted "cCMD_RC_UP.x=100&cCMD_RC_UP.y=100"; Slept 1;
           Posted "cCMD_RC_SELECT.x=100&cCMD_RC_SELECT.y=100"; Slept 1;
           Posted "cCMD_RC_UP.x=100&cCMD_RC_UP.y=100"; Slept 1;
           Posted "cCMD_RC_SELECT.x=100&cCMD_RC_SELECT.y=100"; Slept 1];
        world := silent_player |}).
Proof. vm_compute. reflexivity. Qed.

Example remote_negative_delay :
  PanasonicBluRayRemote.send_command ["UP"; "ok"] 2 (-1) (untouched silent_player) =
    (Py.Raises Py.ValueError,
     {| trace := [Posted "cCMD_RC_UP.x=100&cCMD_RC_UP.y=100"];
        world := silent_player |}).
Proof. vm_compute. reflexivity. Qed.

Example send_key_empty_code :
  send_key "PLAY"
    {| pst_reply := Raised; status_reply := Raised;
       command_reply := body_of [""]; now := 0 |} =
    ("error", "unknown",
     {| pst_reply := Raised; status_reply := Raised;
        command_reply := body_of [""]; now := 0 |}).
Proof. vm_compute. reflexivity. Qed.

End EntityExamples.
